(** * NMT_GEN: the epoch loop of the trainers, embedded and verified

    Two source files are embedded here:

    - [src/train/trainer.py]: [TrainerBase.train] (the single-model epoch
      loop with best-model checkpointing and early stopping) and the
      [Trainer] front end that dispatches on [config.train_type];
    - [src/module/train.py]: the generator/discriminator [Trainer]
      ([train], [get_losses], [train_epoch], [valid_epoch]).

    Python floats are idealised as rationals ([Q]) extended with
    [float('inf')], the initial value of the stored scores; a loss is a
    finite rational throughout, so a loss of [inf] or [nan] is outside
    what is modelled, and every statement below about the comparisons
    with a loss is a statement for finite losses.  Python exceptions
    are values of [pyerr]; printing, scheduler steps, optimizer steps
    and file writes are recorded, in order, in a log of [event]s that
    survives an exception. *)

From Stdlib Require Import List ZArith QArith Qround String Ascii Bool Lia Lqa.
From Stdlib Require Import Permutation.
From Stdlib Require Import DecimalString DecimalZ.
Import ListNotations.

Local Open Scope Z_scope.

(* ================================================================= *)
(** ** Python values, exceptions and effects *)

Module Py.

(** Exceptions the embedded code can raise, with the offending name. *)
Inductive pyerr : Type :=
| TypeError (msg : string)
| NameError (name : string)
| AttributeError (name : string)
| KeyError (key : string)
| IndexError
| RuntimeError (msg : string)
| ZeroDivisionError
| AssertionError.

(** A float: a finite value or [float('inf')]. *)
Inductive pyfloat : Type :=
| Fin (q : Q)
| PosInf.

(** [a > b] and [a >= b] for a stored score [a] and a loss [b].  The
    loss is a finite number (type [Q]): against such a loss
    [float('inf')] is greater, which is the first branch of [fgt] and of
    [fge].  Python's [float('inf') > loss] is [False] for a loss of
    [inf] or [nan]; those losses have no counterpart in [Q], and nothing
    here speaks for them. *)
Definition Qgtb (a b : Q) : bool := negb (Qle_bool a b).

Definition fgt (a : pyfloat) (b : Q) : bool :=
  match a with
  | PosInf => true
  | Fin q => Qgtb q b
  end.

Definition fge (a : pyfloat) (b : Q) : bool :=
  match a with
  | PosInf => true
  | Fin q => Qle_bool b q
  end.

(** Values stored in an epoch record. *)
Inductive pyval : Type :=
| VInt (z : Z)
| VFloat (q : Q)
| VStr (s : string).

(** A dict built by [{k: v for k, v in zip(keys, vals)}] over distinct
    keys: an association list in insertion order. *)
Definition dict : Type := list (string * pyval).

Fixpoint zip {A B : Type} (xs : list A) (ys : list B) : list (A * B) :=
  match xs, ys with
  | x :: xs', y :: ys' => (x, y) :: zip xs' ys'
  | _, _ => []
  end.

Fixpoint lookup (d : dict) (k : string) : option pyval :=
  match d with
  | [] => None
  | (k', v) :: d' => if String.eqb k k' then Some v else lookup d' k
  end.

(** What a model and an optimizer hand to [torch.save]: their state is
    opaque, so a checkpoint names whose state it holds. *)
Record checkpoint : Type := {
  ck_epoch : Z;
  ck_model_state_dict : string;
  ck_optimizer_state_dict : string
}.

(** Observable effects, in program order. *)
Inductive event : Type :=
| EvPrint (fields : list pyval)
| EvPrintEarlyStopped
| EvSchedulerStep (metric : Q)
| EvTorchSave (ck : checkpoint) (path : string)
| EvJsonDump (records : list dict) (path : string)
| EvSetTrainMode (train : bool)
| EvBackward (which : string)
| EvUnscale
| EvClipGradNorm (max_norm : Q)
| EvOptimizerStep
| EvScalerUpdate
| EvZeroGrad.

(** The result of running a piece of code from a given log: a value or
    an exception, with the log as it stands at that point. *)
Inductive outcome (A : Type) : Type :=
| Ok (log : list event) (a : A)
| Raise (log : list event) (e : pyerr).

Arguments Ok {A} log a.
Arguments Raise {A} log e.

Definition M (A : Type) : Type := list event -> outcome A.

Definition ret {A : Type} (a : A) : M A := fun log => Ok log a.

Definition bind {A B : Type} (m : M A) (f : A -> M B) : M B :=
  fun log =>
    match m log with
    | Ok log' a => f a log'
    | Raise log' e => Raise log' e
    end.

Definition raise {A : Type} (e : pyerr) : M A := fun log => Raise log e.

Definition emit (ev : event) : M unit := fun log => Ok (log ++ [ev]) tt.

Definition log_of {A : Type} (o : outcome A) : list event :=
  match o with
  | Ok log _ => log
  | Raise log _ => log
  end.

Declare Scope py_scope.
Delimit Scope py_scope with py.

Notation "x <- c1 ;; c2" := (bind c1 (fun x => c2))
  (at level 61, c1 at next level, right associativity) : py_scope.
Notation "' pat <- c1 ;; c2" :=
  (bind c1 (fun x => match x with pat => c2 end))
  (at level 61, pat pattern, c1 at next level, right associativity) : py_scope.
Notation "c1 ;; c2" := (bind c1 (fun _ => c2))
  (at level 61, right associativity) : py_scope.

Local Open Scope py_scope.

(** [d[k]]. *)
Definition getitem (d : dict) (k : string) : M pyval :=
  match lookup d k with
  | Some v => ret v
  | None => raise (KeyError k)
  end.

(** A record value used where a number is needed (a comparison, a
    [:.3f] format). *)
Definition as_float (v : pyval) : M Q :=
  match v with
  | VFloat q => ret q
  | VInt z => ret (inject_Z z)
  | VStr _ => raise (TypeError "str where a number is expected")
  end.

(** [range(lo, hi)]. *)
Definition py_range (lo hi : Z) : list Z :=
  map (fun i => lo + Z.of_nat i) (seq 0 (Z.to_nat (hi - lo))).

(** [for epoch in es: ...] whose body may [break]: the body returns the
    updated locals and whether it broke out. *)
Fixpoint for_break {L : Type} (body : L -> Z -> M (L * bool))
    (es : list Z) (l : L) : M L :=
  match es with
  | [] => ret l
  | e :: es' =>
      r <- body l e ;;
      if snd r then ret (fst r) else for_break body es' (fst r)
  end.

(** A call [self.f(a1, ..., an)] of a method declared with [n_params]
    parameters ([self] included): Python binds [self] and the [n_args]
    arguments, and raises when the counts differ. *)
Definition call_method {A : Type} (name : string) (n_params n_args : nat)
    (body : M A) : M A :=
  if Nat.eqb (S n_args) n_params then body
  else raise (TypeError name).

(** [print_epoch], the same in both files: three prints, each reading
    its fields from the record first. *)
Definition print_epoch (n_epochs : Z) (record_dict : dict) : M unit :=
  epoch <- getitem record_dict "epoch" ;;
  train_time <- getitem record_dict "train_time" ;;
  emit (EvPrint [epoch; VInt n_epochs; train_time]) ;;
  train_loss <- getitem record_dict "train_loss" ;;
  train_ppl <- getitem record_dict "train_ppl" ;;
  emit (EvPrint [train_loss; train_ppl]) ;;
  valid_loss <- getitem record_dict "valid_loss" ;;
  valid_ppl <- getitem record_dict "valid_ppl" ;;
  emit (EvPrint [valid_loss; valid_ppl]).

(** Observers of a log. *)
Definition scheduler_metrics (log : list event) : list Q :=
  flat_map (fun ev => match ev with EvSchedulerStep q => [q] | _ => [] end) log.

Definition saved (log : list event) : list (checkpoint * string) :=
  flat_map (fun ev => match ev with EvTorchSave ck p => [(ck, p)] | _ => [] end) log.

Definition early_stopped (log : list event) : bool :=
  existsb (fun ev => match ev with EvPrintEarlyStopped => true | _ => false end) log.

Definition is_optimizer_step (ev : event) : bool :=
  match ev with EvOptimizerStep => true | _ => false end.

Definition is_scheduler_step (ev : event) : bool :=
  match ev with EvSchedulerStep _ => true | _ => false end.

Definition is_torch_save (ev : event) : bool :=
  match ev with EvTorchSave _ _ => true | _ => false end.

Definition optimizer_steps (log : list event) : nat :=
  List.length (filter is_optimizer_step log).

(** The last checkpoint that [torch.save] wrote to [path] in a log.  It
    looks at the [torch.save] events only: a later [json.dump] to the
    same path replaces the file, so what the file holds is [file_at]
    below, not this. *)
Definition checkpoint_at (path : string) (log : list event)
    : option checkpoint :=
  fold_left (fun acc ckp => if String.eqb (snd ckp) path
                            then Some (fst ckp) else acc)
    (saved log) None.

Definition dumped (log : list event) : list (list dict) :=
  flat_map (fun ev => match ev with EvJsonDump rs _ => [rs] | _ => [] end) log.

(** The [epoch] fields of a history. *)
Definition epoch_fields (records : list dict) : list (option pyval) :=
  map (fun r => lookup r "epoch") records.

(** What a path holds after the writes of a log: [torch.save] and
    [open(path, 'w')] followed by [json.dump] both replace the file. *)
Inductive file : Type :=
| CheckpointFile (ck : checkpoint)
| JsonFile (records : list dict).

Definition written (ev : event) : option (string * file) :=
  match ev with
  | EvTorchSave ck p => Some (p, CheckpointFile ck)
  | EvJsonDump rs p => Some (p, JsonFile rs)
  | _ => None
  end.

Definition file_at (path : string) (log : list event) : option file :=
  fold_left (fun acc ev =>
               match written ev with
               | Some (p, f) => if String.eqb p path then Some f else acc
               | None => acc
               end)
    log None.

(** [int(x)] for a float: the integer part, towards zero. *)
Definition py_int (x : Q) : Z := Z.quot (Qnum x) (Z.pos (Qden x)).

(** [f"{n}"] for an integer: its decimal digits, with a minus sign
    when negative. *)
Definition str_of_int (n : Z) : string := NilZero.string_of_int (Z.to_int n).

(** The characters of a rendered integer: digits and the minus sign. *)
Definition numeric (c : ascii) : bool :=
  existsb (Ascii.eqb c)
    ["0"; "1"; "2"; "3"; "4"; "5"; "6"; "7"; "8"; "9"; "-"]%char.

Fixpoint all_numeric (s : string) : bool :=
  match s with
  | EmptyString => true
  | String c s' => numeric c && all_numeric s'
  end.

(** [measure_time(start_time, end_time)], the same static method in
    both files. *)
Definition measure_time (start_time end_time : Q) : string :=
  let elapsed_time := (end_time - start_time)%Q in
  let elapsed_min := py_int (elapsed_time / 60) in
  let elapsed_sec := py_int (elapsed_time - inject_Z elapsed_min * 60) in
  (str_of_int elapsed_min ++ "m " ++ str_of_int elapsed_sec ++ "s")%string.

End Py.

Import Py.
Local Open Scope py_scope.

(* ================================================================= *)
(** ** [src/train/trainer.py] *)

Module Standard.

(** [str.replace(old, new)] for a non-empty [old], used to derive the
    record path from the checkpoint path. *)
Fixpoint strip_prefix (p s : string) : option string :=
  match p, s with
  | EmptyString, _ => Some s
  | String a p', String b s' =>
      if Ascii.eqb a b then strip_prefix p' s' else None
  | String _ _, EmptyString => None
  end.

Fixpoint replace_fuel (fuel : nat) (old new s : string) : string :=
  match fuel with
  | O => s
  | S fuel' =>
      match strip_prefix old s with
      | Some rest => String.append new (replace_fuel fuel' old new rest)
      | None =>
          match s with
          | EmptyString => EmptyString
          | String c s' => String c (replace_fuel fuel' old new s')
          end
      end
  end.

Definition replace (old new s : string) : string :=
  replace_fuel (S (String.length s)) old new s.

(** Whether [old] occurs in [s] ([old in s]). *)
Fixpoint occurs (old s : string) : bool :=
  match strip_prefix old s with
  | Some _ => true
  | None =>
      match s with
      | EmptyString => false
      | String _ s' => occurs old s'
      end
  end.

(** The fields of [config] that [TrainerBase] and [Trainer] read. *)
Record Config : Type := {
  clip : Q;
  n_epochs : Z;
  iters_to_accumulate : Z;
  lr : Q;
  early_stop : bool;
  patience : Z;
  ckpt : string;
  train_type : string
}.

Definition record_path (config : Config) : string :=
  replace ".pt" ".json" (ckpt config).

Definition record_keys : list string :=
  ["epoch"; "train_loss"; "train_ppl"; "valid_loss"; "valid_ppl";
   "learning_rate"; "train_time"]%string.

(** The local variables of [train]. *)
Record locals : Type := {
  records : list dict;
  prev_loss : pyfloat;
  best_loss : pyfloat;
  l_patience : Z
}.

Section Train.

Variable config : Config.

(** [train_epoch] and [valid_epoch] are supplied by the strategy
    subclasses; each call returns a loss and its perplexity.  They are
    indexed by the epoch in which the call is made. *)
Variable train_epoch : Z -> Q * Q.
Variable valid_epoch : Z -> Q * Q.

(** [optimizer.param_groups[0]['lr']]: decided by [ReduceLROnPlateau]
    from the metrics it has been stepped with so far. *)
Variable learning_rate : list Q -> Q.

(** [measure_time(start_time, time.time())] of each epoch. *)
Variable train_time : Z -> string.

Definition init_locals : locals :=
  {| records := []; prev_loss := PosInf; best_loss := PosInf;
     l_patience := patience config |}.

Definition read_lr : M Q :=
  fun log => Ok log (learning_rate (scheduler_metrics log)).

Definition record_vals (epoch : Z) (lr_now : Q) : list pyval :=
  let '(train_loss, train_ppl) := train_epoch epoch in
  let '(valid_loss, valid_ppl) := valid_epoch epoch in
  [VInt epoch; VFloat train_loss; VFloat train_ppl;
   VFloat valid_loss; VFloat valid_ppl;
   VFloat lr_now; VStr (train_time epoch)].

(** Lines 91-97, [#save best model]. *)
Definition save_best_model (best : pyfloat) (epoch : Z) (val_loss : Q)
    : M pyfloat :=
  if fgt best val_loss then
    emit (EvTorchSave {| ck_epoch := epoch;
                         ck_model_state_dict := "model";
                         ck_optimizer_state_dict := "optimizer" |}
                      (ckpt config)) ;;
    ret (Fin val_loss)
  else ret best.

(** Lines 99-110, [#Early Stopping Process]: the new [prev_loss] and
    [patience], and whether the loop breaks. *)
Definition early_stopping (prev : pyfloat) (countdown : Z) (val_loss : Q)
    : M (pyfloat * Z * bool) :=
  if early_stop config then
    if fgt prev val_loss then
      ret (Fin val_loss, patience config, false)
    else
      let countdown' := countdown - 1 in
      if countdown' =? 0 then
        emit EvPrintEarlyStopped ;;
        ret (prev, countdown', true)
      else ret (Fin val_loss, countdown', false)
  else ret (prev, countdown, false).

(** One iteration of the epoch loop, lines 76-110. *)
Definition epoch_body (l : locals) (epoch : Z) : M (locals * bool) :=
  lr_now <- read_lr ;;
  let record_dict := zip record_keys (record_vals epoch lr_now) in
  let records' := records l ++ [record_dict] in
  print_epoch (n_epochs config) record_dict ;;
  v <- getitem record_dict "valid_loss" ;;
  val_loss <- as_float v ;;
  emit (EvSchedulerStep val_loss) ;;
  best <- save_best_model (best_loss l) epoch val_loss ;;
  es <- early_stopping (prev_loss l) (l_patience l) val_loss ;;
  let '(prev, countdown, brk) := es in
  ret ({| records := records'; prev_loss := prev; best_loss := best;
          l_patience := countdown |}, brk).

Definition epoch_loop (es : list Z) (l : locals) : M locals :=
  for_break epoch_body es l.

(** [TrainerBase.train]. *)
Definition train : M locals :=
  l <- epoch_loop (py_range 1 (n_epochs config + 1)) init_locals ;;
  emit (EvJsonDump (records l) (record_path config)) ;;
  ret l.

End Train.

(** *** The [Trainer] front end, lines 120-157 *)

(** The strategy classes live in modules that are imported but are not
    part of the embedded files; an instance is known by its class and the
    tokenizer it was built with, and building one runs the constructor
    of its class ([construct] below). *)
Inductive instance : Type :=
| StandardTrainer
| AlternateTrainer (tokenizer : option string)
| GenerativeTrainer (tokenizer : option string)
| ComplementaryTrainer.

Record Trainer : Type := {
  self_tokenizer : option string;
  self_instance : option instance
}.

(** [x in xs] for strings. *)
Definition str_in (x : string) (xs : list string) : bool :=
  existsb (String.eqb x) xs.

(** [assert c]. *)
Definition py_assert (c : bool) : M unit :=
  if c then ret tt else raise AssertionError.

Section FrontEnd.

(** The constructor calls [StandardTrainer(...)], [AlternateTrainer(...)],
    [GenerativeTrainer(...)] and [ComplementaryTrainer(...)] of lines
    135-152.  The code of the four classes is not part of the embedded
    files, so a constructor is any computation: it may write to the log
    and it may raise. *)
Variable construct : instance -> M unit.

(** [return C(...)]: run the constructor of the class, hand back the
    instance. *)
Definition build (inst : instance) : M (option instance) :=
  construct inst ;; ret (Some inst).

(** [_get_trainer_instance(self, config, model, train_dataloader,
    valid_dataloader)]; falls off the end (returns [None]) for any other
    [train_type]. *)
Definition _get_trainer_instance (config : Config)
    (tokenizer : option string) : M (option instance) :=
  if String.eqb (train_type config) "standard" then
    build StandardTrainer
  else if String.eqb (train_type config) "alternate" then
    build (AlternateTrainer tokenizer)
  else if String.eqb (train_type config) "generative" then
    build (GenerativeTrainer tokenizer)
  else if String.eqb (train_type config) "complementary" then
    build ComplementaryTrainer
  else ret None.

(** [Trainer.__init__(self, config, model, train_dataloader,
    valid_dataloader, tokenizer=None)].  The call on line 129 passes five
    arguments to a method declared with five parameters, [self]
    included. *)
Definition Trainer_init (config : Config) (tokenizer : option string)
    : M Trainer :=
  (if str_in (train_type config) ["alternate"; "generative"]%string
   then py_assert (match tokenizer with Some _ => true | None => false end)
   else ret tt) ;;
  inst <- call_method "_get_trainer_instance" 5 5
            (_get_trainer_instance config tokenizer) ;;
  ret {| self_tokenizer := tokenizer; self_instance := inst |}.

End FrontEnd.

End Standard.

(* ================================================================= *)
(** ** [src/module/train.py] *)

Module Adversarial.

(** A batch of token ids: one row per example. *)
Definition tensor2 : Type := list (list Z).

(** A batch as the dataloader yields it: named tensors. *)
Definition batch : Type := list (string * tensor2).

Record Config : Type := {
  src : string;
  trg : string;
  task : string;
  model_name : string;
  clip : Q;
  n_epochs : Z;
  iters_to_accumulate : Z;
  ckpt : string
}.

(** [f"ckpt/{config.task}_{config.model_name}.json"]. *)
Definition record_path (config : Config) : string :=
  ("ckpt/" ++ task config ++ "_" ++ model_name config ++ ".json")%string.

Definition record_keys : list string :=
  ["epoch"; "gen_train_loss"; "gen_valid_loss";
   "dis_train_loss"; "dis_valid_loss";
   "gen_lr"; "dis_lr"; "train_time"]%string.

(** Every attribute the two [__init__] methods assign on [self], and the
    methods of the two classes. *)
Definition attributes : list string :=
  ["src"; "trg"; "task"; "clip"; "device"; "n_epochs"; "vocab_size";
   "device_type"; "scaler"; "iters_to_accumulate"; "ckpt"; "record_path";
   "generator"; "discriminator"; "train_dataloader"; "valid_dataloader";
   "record_keys"; "criterion"; "gen_optimizer"; "dis_optimizer";
   "scheduler";
   "print_epoch"; "measure_time"; "split_batch"; "save_ckpt"; "train";
   "get_losses"; "train_epoch"; "valid_epoch"]%string.

(** [self.<name>]. *)
Definition getattr (name : string) : M unit :=
  if existsb (String.eqb name) attributes then ret tt
  else raise (AttributeError name).

(** *** Tensor operations used by [get_losses] *)

(** [t.size(0)] and [t.size(-1)]. *)
Definition size0 (t : tensor2) : nat := List.length t.

Definition size_last (t : tensor2) : nat :=
  match t with
  | [] => O
  | row :: _ => List.length row
  end.

(** [torch.cat((a, b), dim=-1)]: the rows are joined pairwise, so both
    tensors need the same number of rows. *)
Definition cat_last (a b : tensor2) : M tensor2 :=
  if Nat.eqb (size0 a) (size0 b)
  then ret (map (fun ab => fst ab ++ snd ab) (zip a b))
  else raise (RuntimeError "Sizes of tensors must match except in dimension 1").

(** [t[indices]] for a tensor of row indices: every index has to be a
    row of [t]. *)
Fixpoint index_rows (t : tensor2) (indices : list nat) : M tensor2 :=
  match indices with
  | [] => ret []
  | i :: rest =>
      match nth_error t i with
      | Some row => rows <- index_rows t rest ;; ret (row :: rows)
      | None => raise IndexError
      end
  end.

(** [indices[indices > n]]: the entries selected by the boolean mask. *)
Definition masked_gt (indices : list nat) (n : nat) : list nat :=
  filter (fun i => Nat.ltb n i) indices.

(** [scalar + tensor] and [tensor / scalar], element by element. *)
Definition add_scalar (x : Q) (t : list Q) : list Q := map (Qplus x) t.

Definition div_scalar (t : list Q) (w : Q) : list Q :=
  map (fun x => (x / w)%Q) t.

(** [t.item()]: the tensor must hold exactly one element. *)
Definition item (t : list Q) : M Q :=
  match t with
  | [x] => ret x
  | _ => raise (RuntimeError "only one element tensors can be converted")
  end.

(** [self.scaler.scale(t).backward()] for a tensor [t]: a gradient can
    be started from a tensor of exactly one element only; for any other
    tensor [backward] raises before anything is accumulated. *)
Definition backward (which : string) (t : list Q) : M unit :=
  match t with
  | [_] => emit (EvBackward which)
  | _ => raise (RuntimeError "grad can be implicitly created only for scalar outputs")
  end.

(** [round(x, 3)], ties to even. *)
Definition round_half_even (q : Q) : Z :=
  let f := Qfloor q in
  match Qcompare (q - inject_Z f)%Q (1 # 2)%Q with
  | Lt => f
  | Gt => f + 1
  | Eq => if Z.even f then f else f + 1
  end.

Definition py_round3 (q : Q) : Q :=
  (inject_Z (round_half_even (q * inject_Z 1000)) / inject_Z 1000)%Q.

(** [total / tot_len] with [tot_len = len(dataloader)]. *)
Definition div_len (total : Q) (tot_len : nat) : M Q :=
  match tot_len with
  | O => raise ZeroDivisionError
  | S _ => ret (total / inject_Z (Z.of_nat tot_len))%Q
  end.

(** [a % b] on integers. *)
Definition py_mod (a b : Z) : M Z :=
  if b =? 0 then raise ZeroDivisionError else ret (a mod b).

(** [batch[key]]. *)
Fixpoint batch_lookup (b : batch) (k : string) : option tensor2 :=
  match b with
  | [] => None
  | (k', t) :: b' => if String.eqb k k' then Some t else batch_lookup b' k
  end.

Definition batch_get (b : batch) (k : string) : M tensor2 :=
  match batch_lookup b k with
  | Some t => ret t
  | None => raise (KeyError k)
  end.

Section Init.

(** The library calls made by the two [__init__] methods, each of which
    may raise: the gradient scaler, the discriminator criterion, a
    model's [parameters()], the optimizer and the scheduler. *)
Variable GradScaler : M unit.
Variable BCELoss : M unit.
Variable parameters : string -> M unit.
Variable AdamW : Q -> M unit.
Variable ReduceLROnPlateau : M unit.

(** [Trainer.__init__], lines 61-82, with [TrainerBase.__init__] (lines
    9-24) in place of the [super] call.  [lr] on lines 78 and 79 is
    neither a parameter of [__init__] nor a name of the module. *)
Definition Trainer_init : M unit :=
  GradScaler ;;
  BCELoss ;;
  parameters "generator" ;;
  lr <- raise (NameError "lr") ;;
  AdamW lr ;;
  parameters "discriminator" ;;
  lr <- raise (NameError "lr") ;;
  AdamW lr ;;
  ReduceLROnPlateau.

End Init.

Section Trainer.

Variable config : Config.

(** The collaborators: the generator's sampling and its supervised
    loss, the discriminator's output, the discriminator criterion, and
    the permutation [torch.randperm] draws for a given size. *)
Variable generate : tensor2 -> nat -> tensor2.
Variable generator_loss : tensor2 -> tensor2 -> tensor2 -> Q.
Variable discriminator : tensor2 -> list Q.
Variable criterion : list Q -> list nat -> Q.
Variable randperm : nat -> list nat.

Variable train_dataloader : list batch.
Variable valid_dataloader : list batch.

(** The generator's learning rate follows its scheduler; nothing
    changes the discriminator's. *)
Variable gen_lr : list Q -> Q.
Variable dis_lr : Q.
Variable train_time : Z -> string.

Definition split_batch (b : batch) : M (tensor2 * tensor2 * tensor2) :=
  input_ids <- batch_get b (src config ++ "_ids")%string ;;
  attention_mask <- batch_get b (src config ++ "_mask")%string ;;
  labels <- batch_get b (trg config ++ "_ids")%string ;;
  ret (input_ids, attention_mask, labels).

Definition save_ckpt (epoch : Z) (path : string) (model optimizer : string)
    : M unit :=
  emit (EvTorchSave {| ck_epoch := epoch;
                       ck_model_state_dict := model;
                       ck_optimizer_state_dict := optimizer |} path).

(** Lines 121-131 of [get_losses]: the discriminator's input and
    labels. *)
Definition dis_batch (input_ids labels : tensor2)
    : M (tensor2 * list nat) :=
  let batch_size := size0 input_ids in
  let samples := generate input_ids (size_last labels) in
  dis_inputs <- cat_last samples labels ;;
  let indices := randperm (batch_size * 2) in
  dis_inputs <- index_rows dis_inputs indices ;;
  let dis_labels := masked_gt indices batch_size in
  ret (dis_inputs, dis_labels).

(** Lines 133-142 of [get_losses]: the two losses and what is
    returned. *)
Definition autocast_losses (input_ids attention_mask labels : tensor2)
    (dis_inputs : tensor2) (dis_labels : list nat) : list Q * Q :=
  let gen_loss := generator_loss input_ids attention_mask labels in
  let dis_logit := discriminator dis_inputs in
  let dis_loss := criterion dis_logit dis_labels in
  (add_scalar gen_loss dis_logit, dis_loss).

(** [get_losses(self, input_ids, attention_mask, labels)]. *)
Definition get_losses (input_ids attention_mask labels : tensor2)
    : M (list Q * Q) :=
  '(dis_inputs, dis_labels) <- dis_batch input_ids labels ;;
  ret (autocast_losses input_ids attention_mask labels
         dis_inputs dis_labels).

(** The call as both epoch methods write it,
    [self.get_losses(self, input_ids, attention_mask, labels)]: four
    arguments for a method declared with four parameters, [self]
    included. *)
Definition call_get_losses (input_ids attention_mask labels : tensor2)
    : M (list Q * Q) :=
  call_method "get_losses" 4 4 (get_losses input_ids attention_mask labels).

(** Lines 163-171: what happens on a window boundary. *)
Definition window_boundary : M unit :=
  getattr "scaler" ;; getattr "optimizer" ;;
  emit EvUnscale ;;
  getattr "model" ;; getattr "clip" ;;
  emit (EvClipGradNorm (clip config)) ;;
  getattr "scaler" ;; getattr "optimizer" ;;
  emit EvOptimizerStep ;;
  getattr "scaler" ;;
  emit EvScalerUpdate ;;
  getattr "optimizer" ;;
  emit EvZeroGrad.

Section EpochPasses.

(** The two passes over a dataloader, for any way of obtaining the
    losses of a batch. *)
Variable losses_of : tensor2 -> tensor2 -> tensor2 -> M (list Q * Q).

(** The body of the loop of [train_epoch], lines 153-174; returns the
    updated running sums. *)
Definition train_batch (sums : Q * Q) (idx : Z) (b : batch) : M (Q * Q) :=
  '(input_ids, attention_mask, labels) <- split_batch b ;;
  '(gen_loss, dis_loss) <- losses_of input_ids attention_mask labels ;;
  let gen_loss := div_scalar gen_loss (inject_Z (iters_to_accumulate config)) in
  let dis_loss := (dis_loss / inject_Z (iters_to_accumulate config))%Q in
  backward "gen_loss" gen_loss ;;
  emit (EvBackward "dis_loss") ;;
  r <- py_mod (idx + 1) (iters_to_accumulate config) ;;
  (if r =? 0 then window_boundary else ret tt) ;;
  g <- item gen_loss ;;
  ret (fst sums + g, snd sums + dis_loss)%Q.

Fixpoint train_batches (sums : Q * Q) (idx : Z) (bs : list batch)
    : M (Q * Q) :=
  match bs with
  | [] => ret sums
  | b :: bs' =>
      sums' <- train_batch sums idx b ;;
      train_batches sums' (idx + 1) bs'
  end.

Definition train_epoch_with : M (Q * Q) :=
  emit (EvSetTrainMode true) ;;
  emit (EvSetTrainMode true) ;;
  let tot_len := List.length train_dataloader in
  '(gen_epoch_loss, dis_epoch_loss) <-
     train_batches (0, 0)%Q 0 train_dataloader ;;
  g <- div_len gen_epoch_loss tot_len ;;
  let gen_epoch_loss := py_round3 g in
  d <- div_len dis_epoch_loss tot_len ;;
  let dis_epoch_loss := py_round3 d in
  ret (gen_epoch_loss, gen_epoch_loss).

(** The body of the loop of [valid_epoch], lines 191-196. *)
Definition valid_batch (sums : Q * Q) (b : batch) : M (Q * Q) :=
  '(input_ids, attention_mask, labels) <- split_batch b ;;
  '(gen_loss, dis_loss) <- losses_of input_ids attention_mask labels ;;
  g <- item gen_loss ;;
  ret (fst sums + g, snd sums + dis_loss)%Q.

Fixpoint valid_batches (sums : Q * Q) (bs : list batch) : M (Q * Q) :=
  match bs with
  | [] => ret sums
  | b :: bs' =>
      sums' <- valid_batch sums b ;;
      valid_batches sums' bs'
  end.

Definition valid_epoch_with : M (Q * Q) :=
  emit (EvSetTrainMode false) ;;
  emit (EvSetTrainMode false) ;;
  let tot_len := List.length valid_dataloader in
  '(gen_epoch_loss, dis_epoch_loss) <-
     valid_batches (0, 0)%Q valid_dataloader ;;
  g <- div_len gen_epoch_loss tot_len ;;
  let gen_epoch_loss := py_round3 g in
  d <- div_len dis_epoch_loss tot_len ;;
  let dis_epoch_loss := py_round3 d in
  ret (gen_epoch_loss, gen_epoch_loss).

End EpochPasses.

(** [train_epoch] and [valid_epoch] as written. *)
Definition train_epoch : M (Q * Q) := train_epoch_with call_get_losses.

Definition valid_epoch : M (Q * Q) := valid_epoch_with call_get_losses.

(** Lines 105-113 of [train]: [#save best generator states] and
    [#save best discriminator states]. *)
Definition save_best_states (gen_best_loss dis_best_loss : pyfloat)
    (epoch : Z) (gen_curr_loss dis_curr_loss : Q) : M (pyfloat * pyfloat) :=
  gen_best <- (if fge gen_best_loss gen_curr_loss then
                 save_ckpt epoch (ckpt config) "generator" "gen_optimizer" ;;
                 ret (Fin gen_curr_loss)
               else ret gen_best_loss) ;;
  dis_best <- (if fge dis_best_loss dis_curr_loss then
                 save_ckpt epoch (ckpt config) "discriminator" "dis_optimizer" ;;
                 ret (Fin dis_curr_loss)
               else ret dis_best_loss) ;;
  ret (gen_best, dis_best).

(** The local variables of [train]. *)
Record locals : Type := {
  gen_best_loss : pyfloat;
  dis_best_loss : pyfloat;
  records : list dict
}.

Definition init_locals : locals :=
  {| gen_best_loss := PosInf; dis_best_loss := PosInf; records := [] |}.

Section EpochLoop.

(** The epoch loop for any pair of epoch passes. *)
Variable train_pass valid_pass : M (Q * Q).

Definition record_vals (epoch : Z) (tr va : Q * Q) (lr_now : Q)
    : list pyval :=
  [VInt epoch; VFloat (fst tr); VFloat (snd tr);
   VFloat (fst va); VFloat (snd va);
   VFloat lr_now; VFloat dis_lr; VStr (train_time epoch)].

(** Lines 100-113: the scheduler step and the two checkpoints.  Line
    102 reads [gen_loss], a name that is bound nowhere in [train] or the
    module. *)
Definition schedule_and_save (l : locals) (epoch : Z) (record_dict : dict)
    : M (pyfloat * pyfloat) :=
  g <- getitem record_dict "gen_valid_loss" ;;
  gen_curr_loss <- as_float g ;;
  d <- getitem record_dict "dis_valid_loss" ;;
  dis_curr_loss <- as_float d ;;
  gen_loss <- raise (NameError "gen_loss") ;;
  emit (EvSchedulerStep gen_loss) ;;
  save_best_states (gen_best_loss l) (dis_best_loss l) epoch
    gen_curr_loss dis_curr_loss.

(** One iteration of the loop of [train], lines 89-113. *)
Definition epoch_body (l : locals) (epoch : Z) : M (locals * bool) :=
  tr <- train_pass ;;
  va <- valid_pass ;;
  lr_now <- (fun log => Ok log (gen_lr (scheduler_metrics log))) ;;
  let record_dict := zip record_keys (record_vals epoch tr va lr_now) in
  let records' := records l ++ [record_dict] in
  print_epoch (n_epochs config) record_dict ;;
  '(gen_best, dis_best) <- schedule_and_save l epoch record_dict ;;
  ret ({| gen_best_loss := gen_best; dis_best_loss := dis_best;
          records := records' |}, false).

Definition train_with : M locals :=
  l <- for_break epoch_body (py_range 1 (n_epochs config + 1)) init_locals ;;
  emit (EvJsonDump (records l) (record_path config)) ;;
  ret l.

End EpochLoop.

(** [Trainer.train] as written. *)
Definition train : M locals := train_with train_epoch valid_epoch.

End Trainer.

End Adversarial.

(* ================================================================= *)
(** ** Specification-level notions *)

Module Spec.

(** The early-stop policy as the specification words it, on the sequence
    of validation losses alone: the countdown starts at [p0], goes back
    to [p0] on a loss strictly below the previous one, goes down by one
    otherwise, and the run halts when going down brings it to zero.
    Returns the countdown after each epoch that runs and whether the run
    halted. *)
Fixpoint early_stop_policy (p0 c : Z) (prev : pyfloat) (vs : list Q)
    : list Z * bool :=
  match vs with
  | [] => ([], false)
  | v :: vs' =>
      if fgt prev v then
        let '(t, h) := early_stop_policy p0 p0 (Fin v) vs' in (p0 :: t, h)
      else if c - 1 =? 0 then ([c - 1], true)
      else
        let '(t, h) := early_stop_policy p0 (c - 1) (Fin v) vs' in
        ((c - 1) :: t, h)
  end.

(** The number of batch indices [idx] in [0 .. n-1] on which line 163,
    [(idx + 1) % w == 0], holds. *)
Definition boundaries (w : Z) (n : nat) : list Z :=
  filter (fun idx => (idx + 1) mod w =? 0) (py_range 0 (Z.of_nat n)).

(** A computation that adds none of the events selected by [p] to the
    log, whether it returns or raises. *)
Definition silent (p : event -> bool) {A : Type} (m : M A) : Prop :=
  forall log, filter p (log_of (m log)) = filter p log.

(** The validation loss of [e] is strictly below that of every epoch
    of [js]. *)
Definition below_all (val : Z -> Q) (js : list Z) (e : Z) : bool :=
  forallb (fun j => Qgtb (val j) (val e)) js.

(** Epoch [i] improves on the epoch before it; the first epoch always
    does, there being none before it. *)
Definition improves (val : Z -> Q) (i : Z) : bool :=
  (i =? 1) || Qgtb (val (i - 1)) (val i).

(** A running total as the passes accumulate it: from 0, one addition
    per batch. *)
Definition total (qs : list Q) : Q := fold_left Qplus qs 0%Q.

Section Runs.

Context {L : Type}.
Variable body : L -> Z -> M (L * bool).

(** [runs l log done b l' log']: from locals [l] and log [log] the loop
    executes exactly the epochs [done], none of them raising, and ends
    in [l'] and [log']; [b] tells whether the last one broke out. *)
Inductive runs : L -> list event -> list Z -> bool -> L -> list event -> Prop :=
| runs_nil : forall l log, runs l log [] false l log
| runs_break : forall l log e l1 log1,
    body l e log = Ok log1 (l1, true) ->
    runs l log [e] true l1 log1
| runs_next : forall l log e l1 log1 es b l2 log2,
    body l e log = Ok log1 (l1, false) ->
    runs l1 log1 es b l2 log2 ->
    runs l log (e :: es) b l2 log2.

End Runs.

End Spec.

(* ================================================================= *)
(** ** Concrete runs *)

Module Scenario.

(** A per-epoch oracle from a list of losses: epoch [e] yields the
    [e]-th loss, and perplexity is not tracked. *)
Definition losses (qs : list Q) (epoch : Z) : Q * Q :=
  (nth (Z.to_nat (epoch - 1)) qs 0%Q, 0%Q).

Definition constant_lr (_ : list Q) : Q := (1 # 1000)%Q.

Definition no_time (_ : Z) : string := "0m 0s"%string.

Definition standard_config (n : Z) (stop : bool) (p : Z) : Standard.Config :=
  {| Standard.clip := 1%Q;
     Standard.n_epochs := n;
     Standard.iters_to_accumulate := 1;
     Standard.lr := (1 # 1000)%Q;
     Standard.early_stop := stop;
     Standard.patience := p;
     Standard.ckpt := "ckpt/model.pt"%string;
     Standard.train_type := "standard"%string |}.

(** [TrainerBase.train] on a configuration and a list of validation
    losses, from an empty log. *)
Definition standard_run (n : Z) (stop : bool) (p : Z) (valid : list Q)
    : outcome Standard.locals :=
  Standard.train (standard_config n stop p) (losses []) (losses valid)
    constant_lr no_time [].

(** A batch of four examples of two tokens each, and collaborators
    that answer any call: the generator samples one row per input row,
    its supervised loss is 1, the discriminator answers 1/2 for every
    row it is given, the criterion says 2, and [randperm n] is
    [n-1, ..., 0]. *)
Definition adversarial_config (n w : Z) : Adversarial.Config :=
  {| Adversarial.src := "src"%string;
     Adversarial.trg := "trg"%string;
     Adversarial.task := "nmt"%string;
     Adversarial.model_name := "gen"%string;
     Adversarial.clip := 1%Q;
     Adversarial.n_epochs := n;
     Adversarial.iters_to_accumulate := w;
     Adversarial.ckpt := "ckpt/model.pt"%string |}.

Definition ids4 : Adversarial.tensor2 := [[5; 6]; [7; 8]; [9; 10]; [11; 12]].

Definition mask4 : Adversarial.tensor2 := [[1; 1]; [1; 1]; [1; 1]; [1; 1]].

Definition labels4 : Adversarial.tensor2 :=
  [[21; 22]; [23; 24]; [25; 26]; [27; 28]].

Definition batch4 : Adversarial.batch :=
  [("src_ids", ids4); ("src_mask", mask4); ("trg_ids", labels4)]%string.

Definition generate (input_ids : Adversarial.tensor2) (max_new_tokens : nat)
    : Adversarial.tensor2 :=
  map (fun _ => repeat 0 max_new_tokens) input_ids.

Definition generator_loss (_ _ _ : Adversarial.tensor2) : Q := 1%Q.

Definition discriminator (inputs : Adversarial.tensor2) : list Q :=
  map (fun _ => (1 # 2)%Q) inputs.

Definition criterion (_ : list Q) (_ : list nat) : Q := 2%Q.

Definition randperm (n : nat) : list nat := rev (seq 0 n).

(** An epoch pass that is handed the losses of every batch without
    calling [get_losses]: generator 1, discriminator 2. *)
Definition fixed_losses (_ _ _ : Adversarial.tensor2) : M (list Q * Q) :=
  ret ([1%Q], 2%Q).

End Scenario.

(* ================================================================= *)
(** ** Facts about the effect log and the loop combinator *)

Lemma scheduler_metrics_app (a b : list event) :
  scheduler_metrics (a ++ b) = scheduler_metrics a ++ scheduler_metrics b.
Proof. unfold scheduler_metrics. apply flat_map_app. Qed.

Lemma saved_app (a b : list event) : saved (a ++ b) = saved a ++ saved b.
Proof. unfold saved. apply flat_map_app. Qed.

Lemma dumped_app (a b : list event) : dumped (a ++ b) = dumped a ++ dumped b.
Proof. unfold dumped. apply flat_map_app. Qed.

Lemma early_stopped_app (a b : list event) :
  early_stopped (a ++ b) = early_stopped a || early_stopped b.
Proof. unfold early_stopped. apply existsb_app. Qed.

Lemma optimizer_steps_app (a b : list event) :
  optimizer_steps (a ++ b) = (optimizer_steps a + optimizer_steps b)%nat.
Proof.
  unfold optimizer_steps. now rewrite filter_app, length_app.
Qed.

Lemma Qgtb_lt (a b : Q) : Qgtb a b = true <-> (b < a)%Q.
Proof.
  unfold Qgtb. rewrite negb_true_iff.
  split; intro H.
  - apply Qnot_le_lt. intro Hle. apply Qle_bool_iff in Hle. congruence.
  - destruct (Qle_bool a b) eqn:E; [|reflexivity].
    apply Qle_bool_iff in E. exfalso. revert E. now apply Qlt_not_le.
Qed.

Lemma Qgtb_le (a b : Q) : Qgtb a b = false <-> (a <= b)%Q.
Proof.
  unfold Qgtb. rewrite negb_false_iff. apply Qle_bool_iff.
Qed.

Lemma py_range_length (lo hi : Z) :
  List.length (py_range lo hi) = Z.to_nat (hi - lo).
Proof. unfold py_range. now rewrite length_map, length_seq. Qed.

Lemma py_range_cons (lo hi : Z) :
  lo < hi -> py_range lo hi = lo :: py_range (lo + 1) hi.
Proof.
  intro H. unfold py_range.
  replace (Z.to_nat (hi - lo)) with (S (Z.to_nat (hi - (lo + 1)))) by lia.
  cbn [seq map]. f_equal; [lia|].
  rewrite <- seq_shift, map_map.
  apply map_ext. intro i. lia.
Qed.

Lemma py_range_nil (lo hi : Z) : hi <= lo -> py_range lo hi = [].
Proof.
  intro H. unfold py_range.
  replace (Z.to_nat (hi - lo)) with O by lia. reflexivity.
Qed.

(** A prefix of [range(lo, hi)] is a shorter range. *)
Lemma py_range_prefix (lo hi : Z) (done rest : list Z) :
  py_range lo hi = done ++ rest ->
  done = py_range lo (lo + Z.of_nat (List.length done)).
Proof.
  revert lo. induction done as [|e done IH]; intros lo H.
  - cbn. rewrite py_range_nil by lia. reflexivity.
  - destruct (Z_lt_le_dec lo hi) as [Hlt|Hle].
    + rewrite py_range_cons in H by assumption.
      cbn [app] in H. injection H as He Hrest. subst e.
      rewrite (py_range_cons lo) by (cbn [List.length]; lia).
      f_equal. rewrite (IH _ Hrest) at 1.
      f_equal. cbn [List.length]. lia.
    + rewrite py_range_nil in H by assumption. discriminate.
Qed.

Section LoopFacts.

Context {L : Type}.
Variable body : L -> Z -> M (L * bool).

(** The loop over a list of epochs whose body never raises returns, and
    it has executed a prefix of the list: all of it unless the last
    executed epoch broke out. *)
Lemma for_break_runs :
  (forall l e log, exists log' r, body l e log = Ok log' r) ->
  forall es l log,
  exists done rest b log' l',
    es = done ++ rest /\
    for_break body es l log = Ok log' l' /\
    Spec.runs body l log done b l' log' /\
    (b = false -> rest = []).
Proof.
  intros Hok es. induction es as [|e es IH]; intros l log.
  - exists [], [], false, log, l. repeat split. constructor.
  - destruct (Hok l e log) as (log1 & [l1 brk] & Hb).
    cbn [for_break]. unfold bind at 1. rewrite Hb. cbn [snd fst].
    destruct brk.
    + exists [e], es, true, log1, l1. repeat split.
      * now constructor.
      * discriminate.
    + destruct (IH l1 log1) as (done & rest & b & log' & l' & He & Hf & Hr & Hrest).
      exists (e :: done), rest, b, log', l'. repeat split.
      * cbn. now rewrite He.
      * exact Hf.
      * econstructor; eassumption.
      * exact Hrest.
Qed.

End LoopFacts.

(* ================================================================= *)
(** ** [TrainerBase.train] of [src/train/trainer.py] *)

Section StandardFacts.

Import Standard.

Variable config : Config.
Variable train_epoch valid_epoch : Z -> Q * Q.
Variable learning_rate : list Q -> Q.
Variable train_time : Z -> string.

Local Abbreviation body :=
  (epoch_body config train_epoch valid_epoch learning_rate train_time).
Local Abbreviation val_loss epoch := (fst (valid_epoch epoch)).
Local Abbreviation the_ckpt epoch :=
  ({| ck_epoch := epoch; ck_model_state_dict := "model";
      ck_optimizer_state_dict := "optimizer" |}, ckpt config).

(** What one iteration of the epoch loop does, from any locals and any
    log: it never raises, appends one record, steps the scheduler with
    the validation loss, and updates the best score, the checkpoint and
    the early-stop variables as the source branches say. *)
Lemma epoch_body_spec (l : locals) (epoch : Z) (log : list event) :
  exists log' l' brk rd,
    body l epoch log = Ok log' (l', brk) /\
    records l' = records l ++ [rd] /\
    lookup rd "epoch" = Some (VInt epoch) /\
    lookup rd "valid_loss" = Some (VFloat (val_loss epoch)) /\
    scheduler_metrics log' = scheduler_metrics log ++ [val_loss epoch] /\
    best_loss l' = (if fgt (best_loss l) (val_loss epoch)
                    then Fin (val_loss epoch) else best_loss l) /\
    saved log' = saved log ++ (if fgt (best_loss l) (val_loss epoch)
                               then [the_ckpt epoch] else []) /\
    early_stopped log' = early_stopped log || brk /\
    (early_stop config = false ->
       brk = false /\ l_patience l' = l_patience l /\
       prev_loss l' = prev_loss l) /\
    (early_stop config = true ->
       if fgt (prev_loss l) (val_loss epoch)
       then brk = false /\ l_patience l' = patience config /\
            prev_loss l' = Fin (val_loss epoch)
       else l_patience l' = l_patience l - 1 /\
            brk = (l_patience l - 1 =? 0) /\
            (brk = false -> prev_loss l' = Fin (val_loss epoch))).
Proof.
  unfold epoch_body, read_lr, record_vals.
  destruct (train_epoch epoch) as [tl tp], (valid_epoch epoch) as [vl vp].
  cbn. unfold save_best_model, early_stopping.
  destruct (fgt (best_loss l) vl) eqn:Eb;
    destruct (early_stop config) eqn:Ee;
    [ destruct (fgt (prev_loss l) vl) eqn:Ep;
      [| destruct (l_patience l - 1 =? 0) eqn:Ez ] |
    | destruct (fgt (prev_loss l) vl) eqn:Ep;
      [| destruct (l_patience l - 1 =? 0) eqn:Ez ] | ];
    cbn;
    (do 4 eexists; split; [reflexivity|]);
    cbn [records best_loss prev_loss l_patience];
    rewrite ?scheduler_metrics_app, ?saved_app, ?early_stopped_app;
    cbn; rewrite ?app_nil_r, ?orb_false_r, ?Ez;
    repeat split; try reflexivity; try discriminate; auto.
Qed.

Lemma epoch_body_total (l : locals) (e : Z) (log : list event) :
  exists log' r, body l e log = Ok log' r.
Proof.
  destruct (epoch_body_spec l e log) as (log' & l' & brk & rd & H & _).
  now exists log', (l', brk).
Qed.

Lemma last_cons_default {A : Type} (x d : A) (t : list A) :
  last (x :: t) d = last t x.
Proof.
  revert x d. induction t as [|y t IH]; intros x d; [reflexivity|].
  change (last (x :: y :: t) d) with (last (y :: t) d).
  now rewrite !IH.
Qed.

(** The records appended by a run carry the epochs it executed, in
    order. *)
Lemma runs_history l log done b l' log' :
  Spec.runs body l log done b l' log' ->
  exists rds,
    records l' = records l ++ rds /\
    epoch_fields rds = map (fun e => Some (VInt e)) done.
Proof.
  induction 1 as [l log | l log e l1 log1 Hb
                 | l log e l1 log1 es b l2 log2 Hb Hr IH].
  - exists []. now rewrite app_nil_r.
  - destruct (epoch_body_spec l e log)
      as (log' & l' & brk & rd & H & Hrec & Hep & _).
    rewrite Hb in H. injection H as <- <- <-.
    exists [rd]. split; [assumption|]. cbn. now rewrite Hep.
  - destruct (epoch_body_spec l e log)
      as (log' & l' & brk & rd & H & Hrec & Hep & _).
    rewrite Hb in H. injection H as <- <- <-.
    destruct IH as (rds & Hrds & Hf).
    exists (rd :: rds). split.
    + rewrite Hrds, Hrec, <- app_assoc. reflexivity.
    + cbn. now rewrite Hep, <- Hf.
Qed.

Lemma runs_history_length l log done b l' log' :
  Spec.runs body l log done b l' log' ->
  List.length (records l') = (List.length (records l) + List.length done)%nat.
Proof.
  intro H. destruct (runs_history _ _ _ _ _ _ H) as (rds & Hr & Hf).
  rewrite Hr, length_app. f_equal.
  apply (f_equal (@List.length _)) in Hf.
  unfold epoch_fields in Hf. now rewrite !length_map in Hf.
Qed.

(** The scheduler is stepped once per executed epoch, with that epoch's
    validation loss. *)
Lemma runs_scheduler l log done b l' log' :
  Spec.runs body l log done b l' log' ->
  scheduler_metrics log' =
  scheduler_metrics log ++ map (fun e => val_loss e) done.
Proof.
  induction 1 as [l log | l log e l1 log1 Hb
                 | l log e l1 log1 es b l2 log2 Hb Hr IH].
  - now rewrite app_nil_r.
  - destruct (epoch_body_spec l e log)
      as (log' & l' & brk & rd & H & _ & _ & _ & Hs & _).
    rewrite Hb in H. injection H as <- <- <-. exact Hs.
  - destruct (epoch_body_spec l e log)
      as (log' & l' & brk & rd & H & _ & _ & _ & Hs & _).
    rewrite Hb in H. injection H as <- <- <-.
    rewrite IH, Hs, <- app_assoc. reflexivity.
Qed.

(** The early-stop message is printed exactly by the epoch that breaks
    out. *)
Lemma runs_early_stopped l log done b l' log' :
  Spec.runs body l log done b l' log' ->
  early_stopped log' = early_stopped log || b.
Proof.
  induction 1 as [l log | l log e l1 log1 Hb
                 | l log e l1 log1 es b l2 log2 Hb Hr IH].
  - now rewrite orb_false_r.
  - destruct (epoch_body_spec l e log)
      as (log' & l' & brk & rd & H & _ & _ & _ & _ & _ & _ & Hs & _).
    rewrite Hb in H. injection H as <- <- <-. exact Hs.
  - destruct (epoch_body_spec l e log)
      as (log' & l' & brk & rd & H & _ & _ & _ & _ & _ & _ & Hs & _).
    rewrite Hb in H. injection H as <- <- <-.
    rewrite IH, Hs, orb_false_r. reflexivity.
Qed.

(** With early stopping enabled a run follows the policy of the
    specification on the validation losses of the epochs offered to
    it. *)
Lemma runs_policy l log done b l' log' :
  early_stop config = true ->
  Spec.runs body l log done b l' log' ->
  forall rest, (b = false -> rest = []) ->
  exists trace,
    Spec.early_stop_policy (patience config) (l_patience l) (prev_loss l)
      (map (fun e => val_loss e) (done ++ rest)) = (trace, b) /\
    List.length trace = List.length done /\
    last trace (l_patience l) = l_patience l'.
Proof.
  intros Hes.
  induction 1 as [l log | l log e l1 log1 Hb
                 | l log e l1 log1 es b l2 log2 Hb Hr IH];
    intros rest Hrest.
  - rewrite Hrest by reflexivity. exists []. now repeat split.
  - destruct (epoch_body_spec l e log)
      as (log' & l' & brk & rd & H & _ & _ & _ & _ & _ & _ & _ & _ & Hs).
    rewrite Hb in H. injection H as <- <- <-. specialize (Hs Hes).
    cbn [app map Spec.early_stop_policy].
    destruct (fgt (prev_loss l) (val_loss e)).
    + destruct Hs as (Hf & _). discriminate.
    + destruct Hs as (Hp & Hz & _). rewrite <- Hz.
      exists [l_patience l - 1]. repeat split. cbn. now rewrite Hp.
  - destruct (epoch_body_spec l e log)
      as (log' & l' & brk & rd & H & _ & _ & _ & _ & _ & _ & _ & _ & Hs).
    rewrite Hb in H. injection H as <- <- <-. specialize (Hs Hes).
    destruct (IH rest Hrest) as (trace & Ht & Hlen & Hlast).
    cbn [app map Spec.early_stop_policy].
    destruct (fgt (prev_loss l) (val_loss e)).
    + destruct Hs as (_ & Hp & Hprev). rewrite Hp, Hprev in Ht.
      rewrite Ht. exists (patience config :: trace). repeat split.
      * cbn. now rewrite Hlen.
      * rewrite last_cons_default, <- Hp. exact Hlast.
    + destruct Hs as (Hp & Hz & Hprev). rewrite <- Hz.
      rewrite Hp, (Hprev eq_refl) in Ht. rewrite Ht.
      exists (l_patience l - 1 :: trace). repeat split.
      * cbn. now rewrite Hlen.
      * rewrite last_cons_default, <- Hp. exact Hlast.
Qed.

Lemma epoch_body_dumped (l : locals) (epoch : Z) (log log' : list event) r :
  body l epoch log = Ok log' r -> dumped log' = dumped log.
Proof.
  unfold epoch_body, read_lr, record_vals.
  destruct (train_epoch epoch) as [tl tp], (valid_epoch epoch) as [vl vp].
  cbn. unfold save_best_model, early_stopping.
  destruct (fgt (best_loss l) vl);
    destruct (early_stop config);
    try destruct (fgt (prev_loss l) vl);
    try destruct (l_patience l - 1 =? 0);
    cbn; intro H; injection H as <- _;
    rewrite ?dumped_app; cbn; now rewrite ?app_nil_r.
Qed.

Lemma runs_dumped l log done b l' log' :
  Spec.runs body l log done b l' log' -> dumped log' = dumped log.
Proof.
  induction 1 as [l log | l log e l1 log1 Hb
                 | l log e l1 log1 es b l2 log2 Hb Hr IH].
  - reflexivity.
  - eapply epoch_body_dumped; eassumption.
  - rewrite IH. eapply epoch_body_dumped; eassumption.
Qed.

(** A run that breaks out leaves the countdown at zero; with a non-zero
    configured patience a run that does not break out leaves it
    non-zero. *)
Lemma runs_countdown l log done b l' log' :
  early_stop config = true ->
  Spec.runs body l log done b l' log' ->
  (b = true -> l_patience l' = 0) /\
  (patience config <> 0 -> l_patience l <> 0 -> b = false ->
   l_patience l' <> 0).
Proof.
  intros Hes.
  induction 1 as [l log | l log e l1 log1 Hb
                 | l log e l1 log1 es b l2 log2 Hb Hr IH].
  - split; [discriminate | auto].
  - destruct (epoch_body_spec l e log)
      as (log' & l' & brk & rd & H & _ & _ & _ & _ & _ & _ & _ & _ & Hs).
    rewrite Hb in H. injection H as <- <- <-. specialize (Hs Hes).
    split; [intros _ | discriminate].
    destruct (fgt (prev_loss l) (val_loss e)).
    + destruct Hs as (Hf & _). discriminate.
    + destruct Hs as (Hp & Hz & _). symmetry in Hz.
      apply Z.eqb_eq in Hz. lia.
  - destruct (epoch_body_spec l e log)
      as (log' & l' & brk & rd & H & _ & _ & _ & _ & _ & _ & _ & _ & Hs).
    rewrite Hb in H. injection H as <- <- <-. specialize (Hs Hes).
    destruct IH as (IH1 & IH2). split; [exact IH1|].
    intros Hp0 Hl Hbf. apply IH2; try assumption.
    destruct (fgt (prev_loss l) (val_loss e)).
    + destruct Hs as (_ & Hp & _). now rewrite Hp.
    + destruct Hs as (Hp & Hz & _). symmetry in Hz.
      apply Z.eqb_neq in Hz. lia.
Qed.

(** Without early stopping no epoch breaks out. *)
Lemma runs_no_early_stop l log done b l' log' :
  early_stop config = false ->
  Spec.runs body l log done b l' log' -> b = false.
Proof.
  intros Hes.
  induction 1 as [l log | l log e l1 log1 Hb
                 | l log e l1 log1 es b l2 log2 Hb Hr IH].
  - reflexivity.
  - destruct (epoch_body_spec l e log)
      as (log' & l' & brk & rd & H & _ & _ & _ & _ & _ & _ & _ & Hs & _).
    rewrite Hb in H. injection H as <- <- <-.
    destruct (Hs Hes) as (Hf & _). discriminate.
  - exact IH.
Qed.

(** With a patience of zero or less the countdown stays at or below
    zero, so decrementing never brings it to zero. *)
Lemma runs_nonpositive l log done b l' log' :
  early_stop config = true ->
  patience config <= 0 ->
  Spec.runs body l log done b l' log' ->
  l_patience l <= 0 ->
  b = false /\ l_patience l' <= 0.
Proof.
  intros Hes Hp0.
  induction 1 as [l log | l log e l1 log1 Hb
                 | l log e l1 log1 es b l2 log2 Hb Hr IH]; intro Hl.
  - now split.
  - destruct (epoch_body_spec l e log)
      as (log' & l' & brk & rd & H & _ & _ & _ & _ & _ & _ & _ & _ & Hs).
    rewrite Hb in H. injection H as <- <- <-. specialize (Hs Hes).
    destruct (fgt (prev_loss l) (val_loss e)).
    + destruct Hs as (Hf & _). discriminate.
    + destruct Hs as (Hp & Hz & _). symmetry in Hz.
      apply Z.eqb_eq in Hz. lia.
  - destruct (epoch_body_spec l e log)
      as (log' & l' & brk & rd & H & _ & _ & _ & _ & _ & _ & _ & _ & Hs).
    rewrite Hb in H. injection H as <- <- <-. specialize (Hs Hes).
    apply IH.
    destruct (fgt (prev_loss l) (val_loss e)).
    + destruct Hs as (_ & Hp & _). lia.
    + destruct Hs as (Hp & _). lia.
Qed.

(** [train] runs the loop from the initial locals and then dumps the
    records. *)
Lemma train_runs (log0 : list event) :
  exists done rest b log l,
    py_range 1 (n_epochs config + 1) = done ++ rest /\
    (b = false -> rest = []) /\
    Spec.runs body (init_locals config) log0 done b l log /\
    train config train_epoch valid_epoch learning_rate train_time log0 =
      Ok (log ++ [EvJsonDump (records l) (record_path config)]) l.
Proof.
  destruct (for_break_runs body epoch_body_total
              (py_range 1 (n_epochs config + 1)) (init_locals config) log0)
    as (done & rest & b & log & l & He & Hf & Hr & Hrest).
  exists done, rest, b, log, l. repeat split; try assumption.
  unfold train, epoch_loop. unfold bind at 1. rewrite Hf. reflexivity.
Qed.

(** C1: with early stopping enabled, for every sequence of validation
    losses: the countdown starts at the configured patience; an epoch
    whose validation loss is strictly below the previous one sets it
    back to the patience and never halts, any other epoch decrements it
    by one and halts exactly when the decrement reaches zero; the whole
    run follows the policy of the specification on the losses, and the
    History holds one record per epoch run, the halting epoch included.
    With patience 2 and losses 1.0, 1.1, 1.2, 1.3 over 4 epochs the run
    halts after epoch 3 with 3 records. *)
Theorem early_stop_countdown :
  early_stop config = true ->
  l_patience (init_locals config) = patience config /\
  (forall l epoch log, exists log' l' brk,
     body l epoch log = Ok log' (l', brk) /\
     List.length (records l') = S (List.length (records l)) /\
     if fgt (prev_loss l) (val_loss epoch)
     then l_patience l' = patience config /\ brk = false
     else l_patience l' = l_patience l - 1 /\
          (brk = true <-> l_patience l' = 0)) /\
  (exists log l trace halted,
     train config train_epoch valid_epoch learning_rate train_time [] =
       Ok log l /\
     Spec.early_stop_policy (patience config) (patience config) PosInf
       (map (fun e => val_loss e) (py_range 1 (n_epochs config + 1))) =
       (trace, halted) /\
     List.length (records l) = List.length trace /\
     l_patience l = last trace (patience config) /\
     early_stopped log = halted /\
     (halted = true -> l_patience l = 0) /\
     (patience config <> 0 -> l_patience l = 0 -> halted = true) /\
     (halted = false ->
      List.length (records l) = Z.to_nat (n_epochs config))) /\
  (exists log l,
     Scenario.standard_run 4 true 2 [1; 11 # 10; 12 # 10; 13 # 10]%Q =
       Ok log l /\
     early_stopped log = true /\
     List.length (records l) = 3%nat /\
     epoch_fields (records l) =
       [Some (VInt 1); Some (VInt 2); Some (VInt 3)]).
Proof.
  intro Hes. split; [reflexivity|]. split; [|split].
  - intros l epoch log.
    destruct (epoch_body_spec l epoch log)
      as (log' & l' & brk & rd & H & Hrec & _ & _ & _ & _ & _ & _ & _ & Hs).
    exists log', l', brk. split; [exact H|]. split.
    + rewrite Hrec, length_app. cbn. lia.
    + specialize (Hs Hes).
      destruct (fgt (prev_loss l) (val_loss epoch)).
      * tauto.
      * destruct Hs as (Hp & Hz & _). split; [exact Hp|].
        rewrite Hz, Hp. apply Z.eqb_eq.
  - destruct (train_runs []) as (done & rest & b & log & l & He & Hrest & Hr & Ht).
    destruct (runs_policy _ _ _ _ _ _ Hes Hr rest Hrest) as (trace & Hpol & Hlen & Hlast).
    destruct (runs_countdown _ _ _ _ _ _ Hes Hr) as (Hz1 & Hz2).
    exists (log ++ [EvJsonDump (records l) (record_path config)]), l, trace, b.
    split; [exact Ht|]. rewrite He. split; [exact Hpol|].
    rewrite (runs_history_length _ _ _ _ _ _ Hr). cbn [init_locals records List.length].
    split; [now rewrite Hlen|]. split; [now rewrite <- Hlast|].
    split.
    { rewrite early_stopped_app, (runs_early_stopped _ _ _ _ _ _ Hr).
      cbn. now rewrite orb_false_r. }
    split; [exact Hz1|]. split.
    { intros Hp0 Hzero. destruct b; [reflexivity|].
      exfalso. now apply (Hz2 Hp0 Hp0 eq_refl). }
    intro Hb. rewrite (Hrest Hb), app_nil_r in He.
    rewrite <- He, py_range_length. f_equal. lia.
  - vm_compute. do 2 eexists. repeat split.
Qed.

(** C10: with early stopping enabled and a patience of zero, an epoch
    run with the countdown at or below zero never halts and leaves it at
    or below zero (a non-improving one takes it one lower, so from zero
    to -1); hence the run executes every epoch, History has [n_epochs]
    records and the early-stop message is never printed. *)
Theorem patience_zero_never_halts :
  early_stop config = true ->
  patience config = 0 ->
  (forall l epoch log, l_patience l <= 0 ->
   exists log' l',
     body l epoch log = Ok log' (l', false) /\
     l_patience l' <= 0 /\
     (fgt (prev_loss l) (val_loss epoch) = false ->
      l_patience l' = l_patience l - 1)) /\
  (exists log l,
     train config train_epoch valid_epoch learning_rate train_time [] =
       Ok log l /\
     List.length (records l) = Z.to_nat (n_epochs config) /\
     epoch_fields (records l) =
       map (fun e => Some (VInt e)) (py_range 1 (n_epochs config + 1)) /\
     early_stopped log = false /\
     dumped log = [records l]).
Proof.
  intros Hes Hp0. split.
  - intros l epoch log Hl.
    destruct (epoch_body_spec l epoch log)
      as (log' & l' & brk & rd & H & _ & _ & _ & _ & _ & _ & _ & _ & Hs).
    specialize (Hs Hes). exists log', l'.
    destruct (fgt (prev_loss l) (val_loss epoch)).
    + destruct Hs as (-> & Hp & _). split; [exact H|]. split; [lia|discriminate].
    + destruct Hs as (Hp & Hz & _).
      assert (brk = false) as ->.
      { rewrite Hz. apply Z.eqb_neq. lia. }
      split; [exact H|]. split; [lia|auto].
  - destruct (train_runs []) as (done & rest & b & log & l & He & Hrest & Hr & Ht).
    assert (Hinit : l_patience (init_locals config) <= 0) by (cbn; lia).
    destruct (runs_nonpositive _ _ _ _ _ _ Hes ltac:(lia) Hr Hinit) as (-> & _).
    rewrite (Hrest eq_refl), app_nil_r in He.
    exists (log ++ [EvJsonDump (records l) (record_path config)]), l.
    split; [exact Ht|].
    destruct (runs_history _ _ _ _ _ _ Hr) as (rds & Hrds & Hf).
    cbn [init_locals records app] in Hrds.
    split.
    { rewrite (runs_history_length _ _ _ _ _ _ Hr), <- He, py_range_length.
      cbn. f_equal. lia. }
    split; [now rewrite Hrds, Hf, He|].
    split.
    { rewrite early_stopped_app, (runs_early_stopped _ _ _ _ _ _ Hr).
      reflexivity. }
    rewrite dumped_app, (runs_dumped _ _ _ _ _ _ Hr). reflexivity.
Qed.

(** C8 (amended): every epoch appends exactly one record, carrying its
    epoch number, to the History; the run serialises the History once,
    it holds the records of epochs 1..k in order with k at most
    [n_epochs]; it is strictly shorter than [n_epochs] only if early
    stopping fired, and when early stopping does not fire it has exactly
    [n_epochs] records (early stopping that fires in the last epoch
    leaves all [n_epochs] records).  With [n_epochs] = 3 and early
    stopping disabled the serialised History has the epoch fields
    1, 2, 3. *)
Theorem history_length :
  (forall l epoch log, exists log' l' brk rd,
     body l epoch log = Ok log' (l', brk) /\
     records l' = records l ++ [rd] /\
     lookup rd "epoch" = Some (VInt epoch)) /\
  (exists log l,
     train config train_epoch valid_epoch learning_rate train_time [] =
       Ok log l /\
     dumped log = [records l] /\
     let k := List.length (records l) in
     epoch_fields (records l) =
       map (fun e => Some (VInt e)) (py_range 1 (1 + Z.of_nat k)) /\
     (k <= Z.to_nat (n_epochs config))%nat /\
     ((k < Z.to_nat (n_epochs config))%nat -> early_stopped log = true) /\
     (early_stopped log = false -> k = Z.to_nat (n_epochs config)) /\
     (early_stopped log = true ->
      early_stop config = true /\ (0 < k)%nat /\ l_patience l = 0)) /\
  (exists log l,
     Scenario.standard_run 3 false 0 [1; 2; 3]%Q = Ok log l /\
     List.length (records l) = 3%nat /\
     map epoch_fields (dumped log) =
       [[Some (VInt 1); Some (VInt 2); Some (VInt 3)]]).
Proof.
  split; [|split].
  - intros l epoch log.
    destruct (epoch_body_spec l epoch log)
      as (log' & l' & brk & rd & H & Hrec & Hep & _).
    now exists log', l', brk, rd.
  - destruct (train_runs []) as (done & rest & b & log & l & He & Hrest & Hr & Ht).
    exists (log ++ [EvJsonDump (records l) (record_path config)]), l.
    split; [exact Ht|].
    destruct (runs_history _ _ _ _ _ _ Hr) as (rds & Hrds & Hf).
    cbn [init_locals records app] in Hrds.
    pose proof (runs_history_length _ _ _ _ _ _ Hr) as Hlen.
    cbn [init_locals records List.length Nat.add] in Hlen.
    pose proof (runs_early_stopped _ _ _ _ _ _ Hr) as Hstop.
    cbn [early_stopped existsb orb] in Hstop.
    assert (Hfull : List.length (done ++ rest) = Z.to_nat (n_epochs config)).
    { rewrite <- He, py_range_length. f_equal. lia. }
    rewrite length_app in Hfull.
    split.
    { rewrite dumped_app, (runs_dumped _ _ _ _ _ _ Hr). reflexivity. }
    cbv zeta. rewrite early_stopped_app, Hstop, Hlen. cbn [early_stopped existsb].
    rewrite orb_false_r.
    split.
    { rewrite Hrds, Hf. f_equal.
      rewrite (py_range_prefix _ _ _ _ He) at 1. f_equal. }
    split; [lia|]. split.
    { intro Hlt. destruct b; [reflexivity|].
      rewrite (Hrest eq_refl) in Hfull. cbn in Hfull. lia. }
    split.
    { intros ->. rewrite (Hrest eq_refl) in Hfull. cbn in Hfull. lia. }
    intros ->.
    destruct (early_stop config) eqn:Hes.
    + split; [reflexivity|]. split.
      * inversion Hr; subst; cbn; lia.
      * now apply (runs_countdown _ _ _ _ _ _ Hes Hr).
    + pose proof (runs_no_early_stop _ _ _ _ _ _ Hes Hr). discriminate.
  - vm_compute. do 2 eexists. repeat split.
Qed.

(** The scheduler of the single-model trainer is stepped once per epoch
    run, with that epoch's validation loss. *)
Lemma standard_scheduler_steps :
  exists log l,
    train config train_epoch valid_epoch learning_rate train_time [] =
      Ok log l /\
    scheduler_metrics log =
      map (fun e => val_loss e)
        (py_range 1 (1 + Z.of_nat (List.length (records l)))).
Proof.
  destruct (train_runs []) as (done & rest & b & log & l & He & Hrest & Hr & Ht).
  exists (log ++ [EvJsonDump (records l) (record_path config)]), l.
  split; [exact Ht|].
  rewrite scheduler_metrics_app, (runs_scheduler _ _ _ _ _ _ Hr).
  cbn. rewrite app_nil_r. f_equal.
  rewrite (runs_history_length _ _ _ _ _ _ Hr). cbn.
  now rewrite (py_range_prefix _ _ _ _ He) at 1.
Qed.

Lemma in_py_range (lo hi e : Z) : In e (py_range lo hi) <-> lo <= e < hi.
Proof.
  unfold py_range. rewrite in_map_iff. split.
  - intros (i & <- & Hi). apply in_seq in Hi. lia.
  - intro H. exists (Z.to_nat (e - lo)). split; [lia|].
    apply in_seq. lia.
Qed.

(** The best-score invariant over the epochs [seen] so far: the stored
    best score is the validation loss of one of them, lowest among them,
    and the last checkpoint saved to the path is that epoch's. *)
#[warnings="-inconsistent-scopes"] Local Abbreviation best_inv seen l log :=
  (match best_loss l with
   | PosInf => seen = nil /\ checkpoint_at (ckpt config) log = None
   | Fin q =>
       exists e, In e seen /\ q = val_loss e /\
         checkpoint_at (ckpt config) log = Some (fst (the_ckpt e)) /\
         forall j, In j seen -> (val_loss e <= val_loss j)%Q
   end).

Lemma epoch_body_best seen l e log log' l' brk :
  best_inv seen l log ->
  body l e log = Ok log' (l', brk) ->
  best_inv (seen ++ [e]) l' log'.
Proof.
  intros Hinv Hb.
  destruct (epoch_body_spec l e log)
    as (log1 & l1 & brk1 & rd & H & _ & _ & _ & _ & Hbest & Hsaved & _).
  rewrite Hb in H. injection H as <- <- <-.
  rewrite Hbest. unfold checkpoint_at. rewrite Hsaved, fold_left_app.
  fold (checkpoint_at (ckpt config) log).
  destruct (fgt (best_loss l) (val_loss e)) eqn:Hgt.
  - exists e. split; [apply in_or_app; right; now left|].
    split; [reflexivity|]. split.
    + cbn. now rewrite String.eqb_refl.
    + intros j Hj. apply in_app_or in Hj. destruct Hj as [Hj|[<-|[]]].
      * destruct (best_loss l) as [q|].
        -- destruct Hinv as (e0 & _ & -> & _ & Hlow).
           cbn in Hgt. apply Qgtb_lt in Hgt.
           apply Qlt_le_weak. eapply Qlt_le_trans; [exact Hgt|]. now apply Hlow.
        -- destruct Hinv as (-> & _). destruct Hj.
      * apply Qle_refl.
  - destruct (best_loss l) as [q|]; [|discriminate].
    destruct Hinv as (e0 & Hin & -> & Hck & Hlow).
    cbn in Hgt. apply Qgtb_le in Hgt.
    exists e0. split; [apply in_or_app; now left|].
    split; [reflexivity|]. split; [exact Hck|].
    intros j Hj. apply in_app_or in Hj. destruct Hj as [Hj|[<-|[]]].
    + now apply Hlow.
    + exact Hgt.
Qed.

Lemma runs_best l log done b l' log' :
  Spec.runs body l log done b l' log' ->
  forall seen, best_inv seen l log -> best_inv (seen ++ done) l' log'.
Proof.
  induction 1 as [l log | l log e l1 log1 Hb
                 | l log e l1 log1 es b l2 log2 Hb Hr IH]; intros seen Hinv.
  - now rewrite app_nil_r.
  - eapply epoch_body_best; eassumption.
  - replace (seen ++ e :: es) with ((seen ++ [e]) ++ es)
      by (now rewrite <- app_assoc).
    apply IH. eapply epoch_body_best; eassumption.
Qed.

End StandardFacts.

(** C1 at a concrete run: early stopping enabled, patience 2, four
    epochs. *)
Lemma early_stop_countdown_witness :
  Standard.early_stop (Scenario.standard_config 4 true 2) = true /\
  Standard.l_patience
    (Standard.init_locals (Scenario.standard_config 4 true 2)) = 2.
Proof.
  split; [reflexivity|].
  exact (proj1 (early_stop_countdown (Scenario.standard_config 4 true 2)
                  (Scenario.losses [])
                  (Scenario.losses [1; 11 # 10; 12 # 10; 13 # 10]%Q)
                  Scenario.constant_lr Scenario.no_time eq_refl)).
Defined.

(** C10 at a concrete run: patience 0, three epochs, no improvement
    after the first. *)
Lemma patience_zero_never_halts_witness :
  Standard.early_stop (Scenario.standard_config 3 true 0) = true /\
  Standard.patience (Scenario.standard_config 3 true 0) = 0 /\
  exists log l,
    Scenario.standard_run 3 true 0 [1; 2; 3]%Q = Ok log l /\
    List.length (Standard.records l) = 3%nat /\
    early_stopped log = false.
Proof.
  split; [reflexivity|]. split; [reflexivity|].
  destruct (proj2 (patience_zero_never_halts
                     (Scenario.standard_config 3 true 0)
                     (Scenario.losses []) (Scenario.losses [1; 2; 3]%Q)
                     Scenario.constant_lr Scenario.no_time
                     eq_refl eq_refl))
    as (log & l & Ht & Hlen & _ & Hstop & _).
  exists log, l. split; [exact Ht|]. split; [exact Hlen|exact Hstop].
Defined.

(** C8 as stated fails: with [n_epochs] = 2, patience 1 and validation
    losses 1.0, 1.0, early stopping fires in epoch 2 and the History has
    2 records, so "strictly shorter iff early stopping fired" is
    false. *)
Lemma history_shorter_iff_fired_fails :
  exists log l,
    Scenario.standard_run 2 true 1 [1; 1]%Q = Ok log l /\
    ~ ((List.length (Standard.records l) < Z.to_nat 2)%nat <->
       early_stopped log = true).
Proof.
  vm_compute. do 2 eexists. split; [reflexivity|].
  intros [_ H]. specialize (H eq_refl). lia.
Qed.

(* ================================================================= *)
(** ** The [Trainer] front end of [src/train/trainer.py] *)

(** C9: constructing a [Trainer] raises the assertion error exactly when
    the train type is 'alternate' or 'generative' and no tokenizer is
    supplied; with a tokenizer, or with 'standard' or 'complementary',
    the assertion does not fail.  This holds whatever the constructors
    of the strategy classes do. *)
Theorem tokenizer_required :
  forall (construct : Standard.instance -> M unit)
         (config : Standard.Config) (tokenizer : option string)
         (log : list event),
  ((exists log',
      Standard.Trainer_init construct config tokenizer log = Raise log' AssertionError)
   <->
   (Standard.train_type config = "alternate"%string \/
    Standard.train_type config = "generative"%string) /\
   tokenizer = None) /\
  (forall t log',
     Standard.Trainer_init construct config (Some t) log <> Raise log' AssertionError) /\
  (Standard.train_type config = "standard"%string \/
   Standard.train_type config = "complementary"%string ->
   forall log',
     Standard.Trainer_init construct config tokenizer log <> Raise log' AssertionError).
Proof.
  intros construct config tokenizer log.
  assert (Hmain :
    (exists log',
      Standard.Trainer_init construct config tokenizer log = Raise log' AssertionError)
    <->
    (Standard.train_type config = "alternate"%string \/
     Standard.train_type config = "generative"%string) /\
    tokenizer = None).
  { unfold Standard.Trainer_init, Standard.str_in, Standard.py_assert.
    cbn [existsb].
    destruct (String.eqb_spec (Standard.train_type config) "alternate") as [Ea|Ea];
      destruct (String.eqb_spec (Standard.train_type config) "generative") as [Eg|Eg];
      destruct tokenizer as [t|]; cbn; split;
      try (intros (log' & H); discriminate);
      try (intros ([H|H] & H'); congruence);
      try (intros _; split; [tauto|reflexivity]);
      try (intros _; eexists; reflexivity). }
  split; [exact Hmain|]. split.
  - intros t log' H.
    assert (Hs : exists log', Standard.Trainer_init construct config (Some t) log =
                              Raise log' AssertionError) by (now exists log').
    clear Hmain. revert Hs.
    unfold Standard.Trainer_init, Standard.str_in, Standard.py_assert.
    destruct (existsb _ _); cbn; intros (l' & Hl); discriminate.
  - intros Hty log' H.
    assert (Hs : exists log', Standard.Trainer_init construct config tokenizer log =
                              Raise log' AssertionError) by (now exists log').
    apply Hmain in Hs. destruct Hs as ([Ha|Hg] & _), Hty as [Hs|Hc]; congruence.
Qed.

(** Whenever the assertion passes, construction stops at line 129: the
    call hands five arguments to a method that takes four besides
    [self]. *)
Lemma Trainer_init_arity :
  forall (construct : Standard.instance -> M unit)
         (config : Standard.Config) (t : string) (log : list event),
    Standard.Trainer_init construct config (Some t) log =
    Raise log (TypeError "_get_trainer_instance").
Proof.
  intros construct config t log.
  unfold Standard.Trainer_init, Standard.str_in, Standard.py_assert.
  destruct (existsb _ _); reflexivity.
Qed.

(* ================================================================= *)
(** ** Computations that leave some kind of event out of the log *)

Section Silent.

Variable p : event -> bool.

Lemma silent_ret {A : Type} (a : A) : Spec.silent p (ret a).
Proof. intro log. reflexivity. Qed.

Lemma silent_raise {A : Type} (e : pyerr) : Spec.silent p (@raise A e).
Proof. intro log. reflexivity. Qed.

Lemma silent_emit (ev : event) : p ev = false -> Spec.silent p (emit ev).
Proof.
  intros H log. cbn. rewrite filter_app. cbn. rewrite H. apply app_nil_r.
Qed.

Lemma silent_bind {A B : Type} (m : M A) (k : A -> M B) :
  Spec.silent p m -> (forall a, Spec.silent p (k a)) ->
  Spec.silent p (bind m k).
Proof.
  intros Hm Hk log. unfold bind. specialize (Hm log).
  destruct (m log) as [log' a | log' e]; cbn in Hm.
  - now rewrite Hk.
  - exact Hm.
Qed.

Lemma silent_getitem (d : dict) (k : string) : Spec.silent p (getitem d k).
Proof.
  unfold getitem. destruct (lookup d k); [apply silent_ret | apply silent_raise].
Qed.

Lemma silent_as_float (v : pyval) : Spec.silent p (as_float v).
Proof. destruct v; first [apply silent_ret | apply silent_raise]. Qed.

Lemma silent_call_method {A : Type} (name : string) (n_params n_args : nat)
    (body : M A) :
  Spec.silent p body -> Spec.silent p (call_method name n_params n_args body).
Proof.
  intro H. unfold call_method.
  destruct (Nat.eqb _ _); [exact H | apply silent_raise].
Qed.

Lemma silent_for_break {L : Type} (body : L -> Z -> M (L * bool)) :
  (forall l e, Spec.silent p (body l e)) ->
  forall es l, Spec.silent p (for_break body es l).
Proof.
  intros Hb es. induction es as [|e es IH]; intro l.
  - apply silent_ret.
  - cbn [for_break]. apply silent_bind; [apply Hb|].
    intros [l' brk]. cbn [snd fst]. destruct brk; [apply silent_ret | apply IH].
Qed.

End Silent.

Lemma scheduler_metrics_filter (log : list event) :
  scheduler_metrics (filter is_scheduler_step log) = scheduler_metrics log.
Proof.
  unfold scheduler_metrics.
  induction log as [|ev log IH]; [reflexivity|].
  destruct ev; cbn; try exact IH. now f_equal.
Qed.

Lemma silent_scheduler_metrics {A : Type} (m : M A) (log : list event) :
  Spec.silent is_scheduler_step m ->
  scheduler_metrics (log_of (m log)) = scheduler_metrics log.
Proof.
  intro H. rewrite <- (scheduler_metrics_filter (log_of (m log))), H.
  apply scheduler_metrics_filter.
Qed.

Lemma saved_filter (log : list event) :
  saved (filter is_torch_save log) = saved log.
Proof.
  unfold saved.
  induction log as [|ev log IH]; [reflexivity|].
  destruct ev; cbn; try exact IH. now f_equal.
Qed.

Lemma silent_saved {A : Type} (m : M A) (log : list event) :
  Spec.silent is_torch_save m ->
  saved (log_of (m log)) = saved log.
Proof.
  intro H. rewrite <- (saved_filter (log_of (m log))), H.
  apply saved_filter.
Qed.

Lemma silent_optimizer_steps {A : Type} (m : M A) (log : list event) :
  Spec.silent is_optimizer_step m ->
  optimizer_steps (log_of (m log)) = optimizer_steps log.
Proof. intro H. unfold optimizer_steps. now rewrite H. Qed.

(* ================================================================= *)
(** ** [get_losses] of [src/module/train.py] *)

Lemma zip_length {A B : Type} (xs : list A) (ys : list B) :
  List.length xs = List.length ys ->
  List.length (zip xs ys) = List.length ys.
Proof.
  revert ys. induction xs as [|x xs IH]; intros [|y ys] H; try discriminate.
  - reflexivity.
  - cbn. f_equal. apply IH. now injection H.
Qed.

(** Joining along the last dimension leaves the number of rows as it
    was. *)
Lemma cat_last_size0 (a b t : Adversarial.tensor2) (log log' : list event) :
  Adversarial.cat_last a b log = Ok log' t ->
  Adversarial.size0 t = Adversarial.size0 b /\ log' = log.
Proof.
  unfold Adversarial.cat_last, Adversarial.size0.
  destruct (Nat.eqb_spec (List.length a) (List.length b)) as [E|E];
    [|discriminate].
  intro H. injection H as <- <-. split; [|reflexivity].
  rewrite length_map. now apply zip_length.
Qed.

(** Indexing rows succeeds only when every index is a row. *)
Lemma index_rows_bound (t : Adversarial.tensor2) (indices : list nat)
    (log log' : list event) (r : Adversarial.tensor2) :
  Adversarial.index_rows t indices log = Ok log' r ->
  forall i, In i indices -> (i < Adversarial.size0 t)%nat.
Proof.
  revert log log' r.
  induction indices as [|j indices IH]; intros log log' r H i Hi.
  - destruct Hi.
  - cbn [Adversarial.index_rows] in H.
    destruct (nth_error t j) as [row|] eqn:E; [|discriminate].
    unfold bind in H.
    destruct (Adversarial.index_rows t indices log) as [log1 rows|log1 e] eqn:E1;
      [|discriminate].
    destruct Hi as [<-|Hi].
    + apply nth_error_Some. congruence.
    + eapply IH; eassumption.
Qed.

Lemma index_rows_log (t : Adversarial.tensor2) (indices : list nat)
    (log : list event) :
  log_of (Adversarial.index_rows t indices log) = log.
Proof.
  induction indices as [|j indices IH]; [reflexivity|].
  cbn [Adversarial.index_rows].
  destruct (nth_error t j); [|reflexivity].
  unfold bind.
  destruct (Adversarial.index_rows t indices log); exact IH.
Qed.

Lemma filter_length_perm {A : Type} (f : A -> bool) (l l' : list A) :
  Permutation l l' ->
  List.length (filter f l) = List.length (filter f l').
Proof.
  induction 1 as [| x l l' _ IH | x y l | l l' l'' _ IH1 _ IH2].
  - reflexivity.
  - cbn. destruct (f x); cbn; now rewrite IH.
  - cbn. destruct (f x), (f y); reflexivity.
  - now rewrite IH1.
Qed.

Lemma filter_none {A : Type} (f : A -> bool) (l : list A) :
  (forall x, In x l -> f x = false) -> filter f l = [].
Proof.
  induction l as [|x l IH]; intro H; [reflexivity|].
  cbn. rewrite (H x) by now left.
  apply IH. intros y Hy. apply H. now right.
Qed.

Lemma filter_all {A : Type} (f : A -> bool) (l : list A) :
  (forall x, In x l -> f x = true) -> filter f l = l.
Proof.
  induction l as [|x l IH]; intro H; [reflexivity|].
  cbn. rewrite (H x) by now left.
  f_equal. apply IH. intros y Hy. apply H. now right.
Qed.

(** Among the indices [0 .. 2b-1], in any order, those strictly above
    [b] number [b - 1]. *)
Lemma masked_gt_count (indices : list nat) (b : nat) :
  Permutation indices (seq 0 (b * 2)) ->
  List.length (Adversarial.masked_gt indices b) = (b - 1)%nat.
Proof.
  intro Hp. unfold Adversarial.masked_gt.
  rewrite (filter_length_perm _ _ _ Hp).
  destruct b as [|b]; [reflexivity|].
  replace (S b * 2)%nat with (S (S b) + b)%nat by lia.
  rewrite seq_app, filter_app, length_app.
  rewrite filter_none, filter_all.
  - rewrite length_seq. cbn. lia.
  - intros x Hx. apply in_seq in Hx. apply Nat.ltb_lt. lia.
  - intros x Hx. apply in_seq in Hx. apply Nat.ltb_ge. lia.
Qed.

Section GetLossesFacts.

Import Adversarial.

Variable generate : tensor2 -> nat -> tensor2.
Variable generator_loss : tensor2 -> tensor2 -> tensor2 -> Q.
Variable discriminator : tensor2 -> list Q.
Variable criterion : list Q -> list nat -> Q.
Variable randperm : nat -> list nat.

(** [dis_batch] adds nothing to the log. *)
Lemma dis_batch_log (input_ids labels : tensor2) (log : list event) :
  log_of (dis_batch generate randperm input_ids labels log) = log.
Proof.
  unfold dis_batch, bind.
  destruct (cat_last _ labels log) as [log1 t|log1 e] eqn:Ec.
  - apply cat_last_size0 in Ec as (_ & ->).
    pose proof (index_rows_log t (randperm (size0 input_ids * 2)) log) as Hl.
    destruct (index_rows t _ log); exact Hl.
  - unfold cat_last in Ec. destruct (Nat.eqb _ _); [discriminate|].
    now injection Ec as <- _.
Qed.

(** For a batch of at least one example and any permutation drawn,
    lines 127-131 raise: the joined tensor has as many rows as the
    labels, and the permutation holds the index [2b - 1]. *)
Lemma dis_batch_raises (input_ids labels : tensor2) (log : list event) :
  (1 <= size0 input_ids)%nat ->
  size0 labels = size0 input_ids ->
  Permutation (randperm (size0 input_ids * 2)) (seq 0 (size0 input_ids * 2)) ->
  exists e, dis_batch generate randperm input_ids labels log = Raise log e.
Proof.
  intros Hb Hl Hp.
  pose proof (dis_batch_log input_ids labels log) as Hlog.
  destruct (dis_batch generate randperm input_ids labels log)
    as [log' r|log' e] eqn:E; cbn in Hlog; subst log'.
  - exfalso. unfold dis_batch, bind in E.
    destruct (cat_last _ labels log) as [log1 t|log1 e] eqn:Ec; [|discriminate].
    apply cat_last_size0 in Ec as (Hsz & ->).
    destruct (index_rows t _ log) as [log2 rows|log2 e] eqn:Ei; [|discriminate].
    assert (Hin : In (size0 input_ids * 2 - 1)%nat
                     (randperm (size0 input_ids * 2))).
    { eapply Permutation_in; [symmetry; exact Hp|]. apply in_seq. lia. }
    pose proof (index_rows_bound _ _ _ _ _ Ei _ Hin). lia.
  - now exists e.
Qed.

(** [get_losses] adds nothing to the log. *)
Lemma get_losses_log (input_ids attention_mask labels : tensor2)
    (log : list event) :
  log_of (get_losses generate generator_loss discriminator criterion randperm
            input_ids attention_mask labels log) = log.
Proof.
  unfold get_losses, bind.
  pose proof (dis_batch_log input_ids labels log) as Hl.
  destruct (dis_batch generate randperm input_ids labels log)
    as [log' [di dl]|log' e]; exact Hl.
Qed.

(** What [get_losses] returns, when it returns, is what lines 133-142
    compute from some discriminator input and labels. *)
Lemma get_losses_returns (input_ids attention_mask labels : tensor2)
    (log log' : list event) (r : list Q * Q) :
  get_losses generate generator_loss discriminator criterion randperm
    input_ids attention_mask labels log = Ok log' r ->
  exists dis_inputs dis_labels,
    r = autocast_losses generator_loss discriminator criterion
          input_ids attention_mask labels dis_inputs dis_labels.
Proof.
  unfold get_losses, bind.
  destruct (dis_batch generate randperm input_ids labels log)
    as [log1 [di dl]|log1 e]; [|discriminate].
  intro H. injection H as _ <-. now exists di, dl.
Qed.

(** C4, what the code does: for every batch of [b >= 1] examples and
    every permutation of [0 .. 2b-1] drawn, the tensor joined on line
    127 has [b] rows, not [2b]; the label vector of line 131 has [b - 1]
    entries, the permutation entries above [b]; and [get_losses] raises
    on line 130 instead of returning. *)
Theorem discriminator_batch_shapes
    (input_ids attention_mask labels : tensor2) (log : list event) :
  (1 <= size0 input_ids)%nat ->
  size0 labels = size0 input_ids ->
  Permutation (randperm (size0 input_ids * 2)) (seq 0 (size0 input_ids * 2)) ->
  (forall t log',
     cat_last (generate input_ids (size_last labels)) labels log = Ok log' t ->
     size0 t = size0 input_ids) /\
  List.length (masked_gt (randperm (size0 input_ids * 2)) (size0 input_ids)) =
    (size0 input_ids - 1)%nat /\
  exists e,
    get_losses generate generator_loss discriminator criterion randperm
      input_ids attention_mask labels log = Raise log e.
Proof.
  intros Hb Hl Hp. split; [|split].
  - intros t log' H. apply cat_last_size0 in H as (H & _). congruence.
  - now apply masked_gt_count.
  - destruct (dis_batch_raises input_ids labels log Hb Hl Hp) as (e & He).
    exists e. unfold get_losses, bind. now rewrite He.
Qed.

(** C5, what the code does: [get_losses] hands back no generator loss
    for any batch of at least one example: lines 127-131 raise before
    the losses are computed, whatever permutation is drawn, and the log
    is left as it was.  Where it does return, the value in the
    generator's position is not the supervised loss: it is, element by
    element, the supervised loss plus the discriminator's output (line
    142), one element per discriminator output, and so the supervised
    loss only where that output is zero; the second value is the
    criterion on the discriminator's output.  On the batch of four
    examples [get_losses] raises [IndexError]. *)
Theorem get_losses_generator_value :
  (forall (input_ids attention_mask labels : tensor2) (log : list event),
     (1 <= size0 input_ids)%nat ->
     size0 labels = size0 input_ids ->
     Permutation (randperm (size0 input_ids * 2))
                 (seq 0 (size0 input_ids * 2)) ->
     exists e,
       get_losses generate generator_loss discriminator criterion randperm
         input_ids attention_mask labels log = Raise log e) /\
  (forall (input_ids attention_mask labels : tensor2)
          (log log' : list event) (r : list Q * Q),
     get_losses generate generator_loss discriminator criterion randperm
       input_ids attention_mask labels log = Ok log' r ->
     exists dis_inputs dis_labels,
       let gen_loss := generator_loss input_ids attention_mask labels in
       let dis_logit := discriminator dis_inputs in
       Forall2 (fun x z => x = (gen_loss + z)%Q) (fst r) dis_logit /\
       snd r = criterion dis_logit dis_labels /\
       (Forall (fun x => (x == gen_loss)%Q) (fst r) <->
        Forall (fun z => (z == 0)%Q) dis_logit)) /\
  get_losses Scenario.generate Scenario.generator_loss
    Scenario.discriminator Scenario.criterion Scenario.randperm
    Scenario.ids4 Scenario.mask4 Scenario.labels4 [] = Raise [] IndexError.
Proof.
  split; [|split; [|reflexivity]].
  - intros input_ids attention_mask labels log Hb Hl Hp.
    destruct (dis_batch_raises input_ids labels log Hb Hl Hp) as (e & He).
    exists e. unfold get_losses, bind. now rewrite He.
  - intros input_ids attention_mask labels log log' r H.
    apply get_losses_returns in H as (di & dl & ->).
    exists di, dl. cbv zeta. unfold autocast_losses. cbn [fst snd].
    split; [|split; [reflexivity|]].
    + generalize (generator_loss input_ids attention_mask labels) as g.
      generalize (discriminator di) as zs.
      intros zs g. induction zs as [|z zs IH]; constructor; auto.
    + generalize (generator_loss input_ids attention_mask labels) as g.
      generalize (discriminator di) as zs.
      intros zs g. unfold add_scalar. rewrite Forall_map.
      split; apply Forall_impl; intros z Hz; lra.
Qed.

End GetLossesFacts.

(** C4 at a batch of four: the joined tensor has four rows, the label
    vector is the three indices 7, 6, 5, and [get_losses] raises
    [IndexError]. *)
Lemma discriminator_batch_shapes_witness :
  (1 <= Adversarial.size0 Scenario.ids4)%nat /\
  Adversarial.size0 Scenario.labels4 = Adversarial.size0 Scenario.ids4 /\
  Permutation (Scenario.randperm 8) (seq 0 8) /\
  (forall t log',
     Adversarial.cat_last (Scenario.generate Scenario.ids4 2) Scenario.labels4 []
       = Ok log' t -> Adversarial.size0 t = 4%nat) /\
  List.length (Adversarial.masked_gt (Scenario.randperm 8) 4) = 3%nat /\
  (exists e,
     Adversarial.get_losses Scenario.generate Scenario.generator_loss
       Scenario.discriminator Scenario.criterion Scenario.randperm
       Scenario.ids4 Scenario.mask4 Scenario.labels4 [] = Raise [] e) /\
  Adversarial.masked_gt (Scenario.randperm 8) 4 = [7; 6; 5]%nat /\
  Adversarial.get_losses Scenario.generate Scenario.generator_loss
    Scenario.discriminator Scenario.criterion Scenario.randperm
    Scenario.ids4 Scenario.mask4 Scenario.labels4 [] = Raise [] IndexError.
Proof.
  assert (Hp : Permutation (Scenario.randperm 8) (seq 0 8)).
  { unfold Scenario.randperm. symmetry. apply Permutation_rev. }
  assert (Hb : (1 <= Adversarial.size0 Scenario.ids4)%nat) by (cbn; lia).
  destruct (discriminator_batch_shapes Scenario.generate
              Scenario.generator_loss Scenario.discriminator
              Scenario.criterion Scenario.randperm
              Scenario.ids4 Scenario.mask4 Scenario.labels4 []
              Hb eq_refl Hp) as (Hcat & Hlen & Hraise).
  split; [exact Hb|]. split; [reflexivity|]. split; [exact Hp|].
  split; [exact Hcat|]. split; [exact Hlen|]. split; [exact Hraise|].
  split; reflexivity.
Defined.

(* ================================================================= *)
(** ** [train_epoch] and [valid_epoch] of [src/module/train.py] *)

(** The count the specification gives for optimizer steps is the number
    of batch indices on which the boundary test of line 163 holds. *)
Lemma boundary_step (w n : Z) :
  1 <= w -> 0 <= n ->
  (n + 1) / w = n / w + (if (n + 1) mod w =? 0 then 1 else 0).
Proof.
  intros Hw Hn.
  pose proof (Z.div_mod n w ltac:(lia)) as Hdm.
  pose proof (Z.mod_pos_bound n w ltac:(lia)) as Hr.
  destruct (Z.eq_dec (n mod w + 1) w) as [E|E].
  - assert (Hm : (n + 1) mod w = 0).
    { symmetry. apply (Z.mod_unique _ _ (n / w + 1)); lia. }
    rewrite Hm. cbn.
    symmetry. apply (Z.div_unique _ _ _ 0); lia.
  - assert (Hm : (n + 1) mod w = n mod w + 1).
    { symmetry. apply (Z.mod_unique _ _ (n / w)); lia. }
    rewrite Hm.
    destruct (Z.eqb_spec (n mod w + 1) 0) as [E0|E0]; [lia|].
    symmetry. apply (Z.div_unique _ _ _ (n mod w + 1)); lia.
Qed.

Lemma py_range_snoc (lo : Z) (n : nat) :
  py_range lo (lo + Z.of_nat (S n)) =
  py_range lo (lo + Z.of_nat n) ++ [lo + Z.of_nat n].
Proof.
  unfold py_range.
  replace (Z.to_nat (lo + Z.of_nat (S n) - lo)) with (S n) by lia.
  replace (Z.to_nat (lo + Z.of_nat n - lo)) with n by lia.
  rewrite seq_S, map_app. reflexivity.
Qed.

Lemma boundaries_count (w : Z) (n : nat) :
  1 <= w ->
  Z.of_nat (List.length (Spec.boundaries w n)) = Z.of_nat n / w /\
  forall idx, In idx (Spec.boundaries w n) <->
              0 <= idx < Z.of_nat n /\ (idx + 1) mod w = 0.
Proof.
  intro Hw. split.
  - unfold Spec.boundaries. induction n as [|n IH].
    + reflexivity.
    + change (Z.of_nat (S n)) with (0 + Z.of_nat (S n)) at 1.
      rewrite py_range_snoc, filter_app, length_app, Nat2Z.inj_add.
      cbn [Z.add] in *. rewrite IH.
      replace (Z.of_nat (S n)) with (Z.of_nat n + 1) by lia.
      rewrite boundary_step by lia.
      f_equal. cbn [filter].
      destruct ((Z.of_nat n + 1) mod w =? 0); reflexivity.
  - intro idx. unfold Spec.boundaries.
    rewrite filter_In, in_py_range, Z.eqb_eq. reflexivity.
Qed.

(** On a window boundary the first attribute read that the trainer does
    not have is [self.optimizer], before anything is done. *)
Lemma window_boundary_raises (config : Adversarial.Config) (log : list event) :
  Adversarial.window_boundary config log =
  Raise log (AttributeError "optimizer").
Proof. reflexivity. Qed.

(** The call of [get_losses] as both passes write it hands [self] twice. *)
Lemma call_get_losses_raises generate generator_loss discriminator criterion
    randperm input_ids attention_mask labels (log : list event) :
  Adversarial.call_get_losses generate generator_loss discriminator criterion
    randperm input_ids attention_mask labels log =
  Raise log (TypeError "get_losses").
Proof. reflexivity. Qed.

Section PassFacts.

Import Adversarial.

Variable config : Config.
Variable losses_of : tensor2 -> tensor2 -> tensor2 -> M (list Q * Q).

(** The kind of event looked for: none that the passes themselves
    emit before a window boundary. *)
Variable p : event -> bool.
Hypothesis p_mode : forall b, p (EvSetTrainMode b) = false.
Hypothesis p_backward : forall s, p (EvBackward s) = false.
Hypothesis losses_silent : forall i a l, Spec.silent p (losses_of i a l).

Lemma silent_batch_get (b : batch) (k : string) : Spec.silent p (batch_get b k).
Proof.
  unfold batch_get.
  destruct (batch_lookup b k); [apply silent_ret | apply silent_raise].
Qed.

Lemma silent_split_batch (b : batch) : Spec.silent p (split_batch config b).
Proof.
  unfold split_batch.
  repeat (apply silent_bind; [apply silent_batch_get | intro]).
  apply silent_ret.
Qed.

Lemma silent_window_boundary : Spec.silent p (window_boundary config).
Proof. intro log. now rewrite window_boundary_raises. Qed.

Lemma silent_item (t : list Q) : Spec.silent p (item t).
Proof.
  destruct t as [|x [|y t]]; first [apply silent_ret | apply silent_raise].
Qed.

Lemma silent_div_len (q : Q) (n : nat) : Spec.silent p (div_len q n).
Proof. destruct n; [apply silent_raise | apply silent_ret]. Qed.

Lemma silent_backward which t : Spec.silent p (backward which t).
Proof.
  destruct t as [|x [|y t]]; cbn [backward];
    [apply silent_raise | apply silent_emit, p_backward | apply silent_raise].
Qed.

Lemma silent_train_batch sums idx b :
  Spec.silent p (train_batch config losses_of sums idx b).
Proof.
  unfold train_batch.
  apply silent_bind; [apply silent_split_batch | intros [[input_ids mask] labels]].
  apply silent_bind; [apply losses_silent | intros [gen_loss dis_loss]].
  apply silent_bind; [apply silent_backward | intros _].
  apply silent_bind; [apply silent_emit, p_backward | intros _].
  apply silent_bind.
  { unfold py_mod. destruct (_ =? 0); [apply silent_raise | apply silent_ret]. }
  intro r. apply silent_bind.
  { destruct (r =? 0); [apply silent_window_boundary | apply silent_ret]. }
  intros _. apply silent_bind; [apply silent_item | intro; apply silent_ret].
Qed.

Lemma silent_train_batches bs : forall sums idx,
  Spec.silent p (train_batches config losses_of sums idx bs).
Proof.
  induction bs as [|b bs IH]; intros sums idx.
  - apply silent_ret.
  - cbn [train_batches].
    apply silent_bind; [apply silent_train_batch | intro; apply IH].
Qed.

Lemma silent_train_epoch_with dl :
  Spec.silent p (train_epoch_with config dl losses_of).
Proof.
  unfold train_epoch_with.
  apply silent_bind; [apply silent_emit, p_mode | intros _].
  apply silent_bind; [apply silent_emit, p_mode | intros _].
  apply silent_bind; [apply silent_train_batches | intros [g d]].
  apply silent_bind; [apply silent_div_len | intro].
  apply silent_bind; [apply silent_div_len | intro].
  apply silent_ret.
Qed.

Lemma silent_valid_batch sums b :
  Spec.silent p (valid_batch config losses_of sums b).
Proof.
  unfold valid_batch.
  apply silent_bind; [apply silent_split_batch | intros [[input_ids mask] labels]].
  apply silent_bind; [apply losses_silent | intros [gen_loss dis_loss]].
  apply silent_bind; [apply silent_item | intro; apply silent_ret].
Qed.

Lemma silent_valid_batches bs : forall sums,
  Spec.silent p (valid_batches config losses_of sums bs).
Proof.
  induction bs as [|b bs IH]; intros sums.
  - apply silent_ret.
  - cbn [valid_batches].
    apply silent_bind; [apply silent_valid_batch | intro; apply IH].
Qed.

Lemma silent_valid_epoch_with dl :
  Spec.silent p (valid_epoch_with config dl losses_of).
Proof.
  unfold valid_epoch_with.
  apply silent_bind; [apply silent_emit, p_mode | intros _].
  apply silent_bind; [apply silent_emit, p_mode | intros _].
  apply silent_bind; [apply silent_valid_batches | intros [g d]].
  apply silent_bind; [apply silent_div_len | intro].
  apply silent_bind; [apply silent_div_len | intro].
  apply silent_ret.
Qed.

(** Both passes return the generator's figure twice. *)
Lemma train_epoch_with_pair dl log log' a b :
  train_epoch_with config dl losses_of log = Ok log' (a, b) -> a = b.
Proof.
  unfold train_epoch_with, bind. cbn [emit].
  destruct (train_batches _ _ _ _ _ _) as [log1 [g d]|]; [|discriminate].
  destruct (div_len g _ log1) as [log2 g'|]; [|discriminate].
  destruct (div_len d _ log2) as [log3 d'|]; [|discriminate].
  cbn. intro H. injection H as _ <- <-. reflexivity.
Qed.

Lemma valid_epoch_with_pair dl log log' a b :
  valid_epoch_with config dl losses_of log = Ok log' (a, b) -> a = b.
Proof.
  unfold valid_epoch_with, bind. cbn [emit].
  destruct (valid_batches _ _ _ _ _) as [log1 [g d]|]; [|discriminate].
  destruct (div_len g _ log1) as [log2 g'|]; [|discriminate].
  destruct (div_len d _ log2) as [log3 d'|]; [|discriminate].
  cbn. intro H. injection H as _ <- <-. reflexivity.
Qed.

End PassFacts.

Section WrittenPasses.

Import Adversarial.

Variable config : Config.
Variable generate : tensor2 -> nat -> tensor2.
Variable generator_loss : tensor2 -> tensor2 -> tensor2 -> Q.
Variable discriminator : tensor2 -> list Q.
Variable criterion : list Q -> list nat -> Q.
Variable randperm : nat -> list nat.

Local Abbreviation the_call :=
  (call_get_losses generate generator_loss discriminator criterion randperm).

Lemma silent_the_call (p : event -> bool) i a l : Spec.silent p (the_call i a l).
Proof. intro log. now rewrite call_get_losses_raises. Qed.

Lemma split_batch_log (b : batch) (log : list event) :
  log_of (split_batch config b log) = log.
Proof.
  unfold split_batch, bind, batch_get.
  repeat (match goal with
          | |- context [batch_lookup ?b ?k] => destruct (batch_lookup b k)
          end; cbn; try reflexivity).
Qed.

(** The first batch of either pass as written ends the pass: with a
    missing field, or with the extra argument of the [get_losses]
    call. *)
Lemma train_batch_raises sums idx b (log : list event) :
  exists e, train_batch config the_call sums idx b log = Raise log e.
Proof.
  unfold train_batch, bind.
  pose proof (split_batch_log b log) as Hl.
  destruct (split_batch config b log) as [log1 [[i a] l]|log1 e];
    cbn in Hl; subst log1.
  - rewrite call_get_losses_raises. now eexists.
  - now eexists.
Qed.

Lemma valid_batch_raises sums b (log : list event) :
  exists e, valid_batch config the_call sums b log = Raise log e.
Proof.
  unfold valid_batch, bind.
  pose proof (split_batch_log b log) as Hl.
  destruct (split_batch config b log) as [log1 [[i a] l]|log1 e];
    cbn in Hl; subst log1.
  - rewrite call_get_losses_raises. now eexists.
  - now eexists.
Qed.

(** As written, neither pass returns: an empty dataloader divides by
    zero, any other stops at its first batch. *)
Lemma train_epoch_raises (dl : list batch) (log : list event) :
  exists log' e,
    train_epoch config generate generator_loss discriminator criterion
      randperm dl log = Raise log' e.
Proof.
  unfold train_epoch, train_epoch_with, bind. cbn [emit].
  destruct dl as [|b bs].
  - cbn. now do 2 eexists.
  - cbn [train_batches]. unfold bind.
    destruct (train_batch_raises (0, 0)%Q 0 b
                ((log ++ [EvSetTrainMode true]) ++ [EvSetTrainMode true]))
      as (e & ->).
    now do 2 eexists.
Qed.

Lemma valid_epoch_raises (dl : list batch) (log : list event) :
  exists log' e,
    valid_epoch config generate generator_loss discriminator criterion
      randperm dl log = Raise log' e.
Proof.
  unfold valid_epoch, valid_epoch_with, bind. cbn [emit].
  destruct dl as [|b bs].
  - cbn. now do 2 eexists.
  - cbn [valid_batches]. unfold bind.
    destruct (valid_batch_raises (0, 0)%Q b
                ((log ++ [EvSetTrainMode false]) ++ [EvSetTrainMode false]))
      as (e & ->).
    now do 2 eexists.
Qed.

(** C3, what the code does: as written [train_epoch] raises before any
    optimizer step, for every dataloader; and for any way of obtaining
    the losses that itself steps no optimizer, the pass steps none
    either, because a window boundary raises on [self.optimizer].  With
    a window of 1 and one batch, index 0 is a boundary and the pass
    raises there with no step taken. *)
Theorem train_epoch_never_steps (dl : list batch) (log : list event) :
  (exists log' e,
     train_epoch config generate generator_loss discriminator criterion
       randperm dl log = Raise log' e /\
     optimizer_steps log' = optimizer_steps log) /\
  (forall losses_of,
     (forall i a l, Spec.silent is_optimizer_step (losses_of i a l)) ->
     optimizer_steps (log_of (train_epoch_with config dl losses_of log)) =
     optimizer_steps log) /\
  (Spec.boundaries 1 1 = [0] /\
   exists log',
     train_epoch_with (Scenario.adversarial_config 1 1) [Scenario.batch4]
       Scenario.fixed_losses [] = Raise log' (AttributeError "optimizer") /\
     optimizer_steps log' = 0%nat).
Proof.
  split; [|split].
  - destruct (train_epoch_raises dl log) as (log' & e & H).
    exists log', e. split; [exact H|].
    change log' with (log_of (@Raise (Q * Q) log' e)). rewrite <- H.
    apply silent_optimizer_steps.
    apply silent_train_epoch_with; try reflexivity.
    intros i a l. apply silent_the_call.
  - intros losses_of Hs. apply silent_optimizer_steps.
    now apply silent_train_epoch_with.
  - split; [reflexivity|]. vm_compute. eexists. split; reflexivity.
Qed.

(** C6, what the code does: whenever either pass returns, for any way
    of obtaining the losses, the two values returned are the same one,
    the generator's; as written neither pass returns at all.  With one
    batch of generator loss 1 and discriminator loss 2, [valid_epoch]
    returns 1 and 1, and [train_epoch] with a window of 2 returns 1/2
    and 1/2. *)
Theorem epoch_passes_return_generator_twice (dl : list batch)
    (log : list event) :
  (forall losses_of log' a b,
     train_epoch_with config dl losses_of log = Ok log' (a, b) -> a = b) /\
  (forall losses_of log' a b,
     valid_epoch_with config dl losses_of log = Ok log' (a, b) -> a = b) /\
  (exists log' e,
     train_epoch config generate generator_loss discriminator criterion
       randperm dl log = Raise log' e) /\
  (exists log' e,
     valid_epoch config generate generator_loss discriminator criterion
       randperm dl log = Raise log' e) /\
  (exists log' a,
     valid_epoch_with (Scenario.adversarial_config 1 1) [Scenario.batch4]
       Scenario.fixed_losses [] = Ok log' (a, a) /\ (a == 1)%Q) /\
  (exists log' a,
     train_epoch_with (Scenario.adversarial_config 1 2) [Scenario.batch4]
       Scenario.fixed_losses [] = Ok log' (a, a) /\ (a == 1 # 2)%Q).
Proof.
  split; [|split; [|split; [|split; [|split]]]].
  - intros losses_of log' a b. apply train_epoch_with_pair.
  - intros losses_of log' a b. apply valid_epoch_with_pair.
  - apply train_epoch_raises.
  - apply valid_epoch_raises.
  - vm_compute. do 2 eexists. split; reflexivity.
  - vm_compute. do 2 eexists. split; reflexivity.
Qed.

End WrittenPasses.

(* ================================================================= *)
(** ** [Trainer.train] of [src/module/train.py] *)

Section AdversarialTrain.

Import Adversarial.

Variable config : Config.
Variable gen_lr : list Q -> Q.
Variable dis_lr : Q.
Variable train_time : Z -> string.

(** The record of an epoch is keyed in the order generator-train,
    generator-valid, discriminator-train, discriminator-valid, while its
    values come in the order of the two passes: the key
    ['gen_valid_loss'] holds the second value of [train_epoch], and
    ['dis_valid_loss'] the second value of [valid_epoch]. *)
Lemma record_dict_keys (epoch : Z) (tr va : Q * Q) (lr_now : Q) :
  let record_dict :=
    zip record_keys (record_vals dis_lr train_time epoch tr va lr_now) in
  lookup record_dict "gen_valid_loss" = Some (VFloat (snd tr)) /\
  lookup record_dict "dis_train_loss" = Some (VFloat (fst va)) /\
  lookup record_dict "dis_valid_loss" = Some (VFloat (snd va)) /\
  lookup record_dict "train_loss" = None.
Proof. repeat split. Qed.

(** Once both passes have returned, the iteration stops in
    [print_epoch], whose second line reads a key the record does not
    have. *)
Lemma epoch_body_after_passes (train_pass valid_pass : M (Q * Q))
    (l : locals) (epoch : Z) (log log1 log2 : list event) (tr va : Q * Q) :
  train_pass log = Ok log1 tr ->
  valid_pass log1 = Ok log2 va ->
  epoch_body config gen_lr dis_lr train_time train_pass valid_pass l epoch log =
  Raise (log2 ++ [EvPrint [VInt epoch; VInt (n_epochs config);
                           VStr (train_time epoch)]])
        (KeyError "train_loss").
Proof.
  intros Ht Hv. unfold epoch_body, bind at 1. rewrite Ht.
  unfold bind at 1. rewrite Hv. reflexivity.
Qed.

(** An iteration of the loop never completes. *)
Lemma epoch_body_raises (train_pass valid_pass : M (Q * Q))
    (l : locals) (epoch : Z) (log : list event) :
  exists log' e,
    epoch_body config gen_lr dis_lr train_time train_pass valid_pass
      l epoch log = Raise log' e.
Proof.
  destruct (train_pass log) as [log1 tr|log1 e] eqn:Ht.
  - destruct (valid_pass log1) as [log2 va|log2 e] eqn:Hv.
    + rewrite (epoch_body_after_passes _ _ _ _ _ _ _ _ _ Ht Hv).
      now do 2 eexists.
    + unfold epoch_body, bind at 1. rewrite Ht.
      unfold bind at 1. rewrite Hv. now do 2 eexists.
  - unfold epoch_body, bind at 1. rewrite Ht. now do 2 eexists.
Qed.

(** What the loop adds to the log besides the events of the passes
    is what [print_epoch] prints before it raises. *)
Lemma silent_epoch_body (p : event -> bool)
    (train_pass valid_pass : M (Q * Q)) (l : locals) (epoch : Z) :
  (forall fields, p (EvPrint fields) = false) ->
  Spec.silent p train_pass ->
  Spec.silent p valid_pass ->
  Spec.silent p
    (epoch_body config gen_lr dis_lr train_time train_pass valid_pass l epoch).
Proof.
  intros Hp Ht Hv log.
  pose proof (Ht log) as Ht'.
  destruct (train_pass log) as [log1 tr|log1 e] eqn:Et; cbn in Ht'.
  - pose proof (Hv log1) as Hv'.
    destruct (valid_pass log1) as [log2 va|log2 e] eqn:Ev; cbn in Hv'.
    + rewrite (epoch_body_after_passes _ _ _ _ _ _ _ _ _ Et Ev).
      cbn [log_of]. rewrite filter_app. cbn [filter]. rewrite Hp, app_nil_r.
      congruence.
    + unfold epoch_body, bind at 1. rewrite Et.
      unfold bind at 1. rewrite Ev. cbn. congruence.
  - unfold epoch_body, bind at 1. rewrite Et. exact Ht'.
Qed.

Lemma silent_train_with (p : event -> bool)
    (train_pass valid_pass : M (Q * Q)) :
  (forall fields, p (EvPrint fields) = false) ->
  (forall records path, p (EvJsonDump records path) = false) ->
  Spec.silent p train_pass ->
  Spec.silent p valid_pass ->
  Spec.silent p
    (train_with config gen_lr dis_lr train_time train_pass valid_pass).
Proof.
  intros Hp Hd Ht Hv. unfold train_with.
  apply silent_bind.
  - apply silent_for_break. intros l e. now apply silent_epoch_body.
  - intro l. apply silent_bind; [apply silent_emit, Hd | intro; apply silent_ret].
Qed.

(** The loop of the generator/discriminator trainer adds to the log
    only what its passes add, what [print_epoch] prints and the history
    written at the end; as written, the passes add changes of mode
    and nothing else. *)
Lemma silent_train (p : event -> bool)
    (generate : tensor2 -> nat -> tensor2)
    (generator_loss : tensor2 -> tensor2 -> tensor2 -> Q)
    (discriminator : tensor2 -> list Q)
    (criterion : list Q -> list nat -> Q)
    (randperm : nat -> list nat)
    (train_dataloader valid_dataloader : list batch) :
  (forall fields, p (EvPrint fields) = false) ->
  (forall records path, p (EvJsonDump records path) = false) ->
  (forall b, p (EvSetTrainMode b) = false) ->
  (forall s, p (EvBackward s) = false) ->
  Spec.silent p
    (train config generate generator_loss discriminator criterion
       randperm train_dataloader valid_dataloader gen_lr dis_lr train_time).
Proof.
  intros. unfold train. apply silent_train_with; try assumption.
  - apply silent_train_epoch_with; try assumption.
    intros i a l. apply silent_the_call.
  - apply silent_valid_epoch_with; try assumption.
    intros i a l. apply silent_the_call.
Qed.

(** C7, what the code does in the generator/discriminator trainer: no
    iteration of the epoch loop completes, for any pair of passes; the
    scheduler is never stepped, with the passes as written or with any
    passes that do not step it themselves; the value under
    ['gen_valid_loss'] is the second value of the training pass; lines
    100-102 raise [NameError] on every record this trainer assembles;
    and with passes that return, the first epoch ends in [print_epoch]
    with a [KeyError]. *)
Theorem adversarial_scheduler_never_stepped
    (generate : tensor2 -> nat -> tensor2)
    (generator_loss : tensor2 -> tensor2 -> tensor2 -> Q)
    (discriminator : tensor2 -> list Q)
    (criterion : list Q -> list nat -> Q)
    (randperm : nat -> list nat)
    (train_dataloader valid_dataloader : list batch)
    (log : list event) :
  (forall train_pass valid_pass l epoch log0, exists log' e,
     epoch_body config gen_lr dis_lr train_time train_pass valid_pass
       l epoch log0 = Raise log' e) /\
  scheduler_metrics
    (log_of (train config generate generator_loss discriminator criterion
               randperm train_dataloader valid_dataloader
               gen_lr dis_lr train_time log)) = scheduler_metrics log /\
  (forall train_pass valid_pass,
     Spec.silent is_scheduler_step train_pass ->
     Spec.silent is_scheduler_step valid_pass ->
     scheduler_metrics
       (log_of (train_with config gen_lr dis_lr train_time
                  train_pass valid_pass log)) = scheduler_metrics log) /\
  (forall epoch tr va lr_now,
     lookup (zip record_keys
               (record_vals dis_lr train_time epoch tr va lr_now))
       "gen_valid_loss" = Some (VFloat (snd tr))) /\
  (forall l epoch tr va lr_now log0,
     schedule_and_save config l epoch
       (zip record_keys (record_vals dis_lr train_time epoch tr va lr_now))
       log0 = Raise log0 (NameError "gen_loss")) /\
  train_with (Scenario.adversarial_config 1 1) Scenario.constant_lr 1%Q
    Scenario.no_time (ret (1, 1)%Q) (ret (1, 1)%Q) [] =
  Raise [EvPrint [VInt 1; VInt 1; VStr "0m 0s"]] (KeyError "train_loss").
Proof.
  split; [|split; [|split; [|split; [|split]]]].
  - intros. apply epoch_body_raises.
  - apply silent_scheduler_metrics. unfold train.
    apply silent_train_with; try reflexivity.
    + apply silent_train_epoch_with; try reflexivity.
      intros i a l. apply silent_the_call.
    + apply silent_valid_epoch_with; try reflexivity.
      intros i a l. apply silent_the_call.
  - intros tp vp Ht Hv. apply silent_scheduler_metrics.
    now apply silent_train_with.
  - reflexivity.
  - reflexivity.
  - reflexivity.
Qed.

End AdversarialTrain.

(* ================================================================= *)
(** ** [measure_time], the static method of both files *)

(** Dividing by 60 and truncating is truncating and then dividing. *)
Lemma py_int_div60 (e : Q) : py_int (e / 60) = py_int e ÷ 60.
Proof.
  unfold py_int. destruct e as [n d]. cbn.
  rewrite Z.mul_1_r, Pos2Z.inj_mul.
  now rewrite Z.quot_quot by lia.
Qed.

Lemma quot_sign (n d : Z) :
  0 < d -> (0 <= n -> 0 <= n ÷ d) /\ (n <= 0 -> n ÷ d <= 0).
Proof.
  intro Hd. split; intro Hn.
  - now apply Z.quot_pos.
  - rewrite <- (Z.quot_0_l d) by lia. now apply Z.quot_le_mono.
Qed.

(** Cutting [n / d] towards zero, taking out the whole sixties and
    cutting again gives the remainder of the first cut. *)
Lemma trunc_split (n d : Z) :
  0 < d -> (n + - (n ÷ d ÷ 60 * 60) * d) ÷ d = Z.rem (n ÷ d) 60.
Proof.
  intro Hd.
  pose proof (Z.quot_rem' n d) as Hn.
  pose proof (Z.quot_rem' (n ÷ d) 60) as HT.
  destruct (quot_sign n d Hd) as (Hpos & Hneg).
  assert (E : n + - (n ÷ d ÷ 60 * 60) * d =
              Z.rem (n ÷ d) 60 * d + Z.rem n d).
  { rewrite Hn at 1. rewrite HT at 1. ring. }
  rewrite E, Z.quot_add_l; [rewrite Z.rem_quot by lia; lia | lia |].
  destruct (Z.le_ge_cases 0 n) as [H0|H0].
  - pose proof (Z.rem_nonneg n d ltac:(lia) H0).
    pose proof (Z.rem_nonneg (n ÷ d) 60 ltac:(lia) (Hpos H0)).
    apply Z.mul_nonneg_nonneg; [|assumption].
    apply Z.add_nonneg_nonneg; [|assumption].
    apply Z.mul_nonneg_nonneg; lia.
  - pose proof (Z.rem_nonpos n d ltac:(lia) H0).
    pose proof (Z.rem_nonpos (n ÷ d) 60 ltac:(lia) (Hneg H0)).
    apply Z.mul_nonpos_nonpos; [|assumption].
    apply Z.add_nonpos_nonpos; [|assumption].
    apply Z.mul_nonpos_nonneg; lia.
Qed.

Lemma py_int_sub60 (e : Q) :
  py_int (e - inject_Z (py_int e ÷ 60) * 60) = Z.rem (py_int e) 60.
Proof.
  unfold py_int. destruct e as [n d].
  cbn [Qnum Qden Qminus Qplus Qopp Qmult inject_Z].
  rewrite !Z.mul_1_r, !Pos.mul_1_r.
  now apply trunc_split.
Qed.

Lemma measure_time_closed (start_time end_time : Q) :
  let whole := py_int (end_time - start_time) in
  measure_time start_time end_time =
  (str_of_int (whole ÷ 60) ++ "m " ++ str_of_int (Z.rem whole 60) ++ "s")%string.
Proof.
  cbv zeta. unfold measure_time.
  now rewrite py_int_div60, py_int_sub60.
Qed.

Lemma py_int_sign (x : Q) :
  ((0 <= x)%Q -> 0 <= py_int x) /\ ((x <= 0)%Q -> py_int x <= 0).
Proof.
  unfold py_int, Qle. destruct x as [n d]. cbn [Qnum Qden].
  rewrite !Z.mul_1_r, !Z.mul_0_l.
  destruct (quot_sign n (Z.pos d) ltac:(lia)) as (Hpos & Hneg).
  split; assumption.
Qed.

Lemma rem60_bounds (T : Z) :
  -60 < Z.rem T 60 < 60 /\
  (0 <= T -> 0 <= T ÷ 60 /\ 0 <= Z.rem T 60 < 60) /\
  (T <= 0 -> T ÷ 60 <= 0 /\ -60 < Z.rem T 60 <= 0).
Proof.
  destruct (quot_sign T 60 ltac:(lia)) as (Hpos & Hneg).
  assert (H1 : 0 <= T -> 0 <= Z.rem T 60 < 60)
    by (intro; apply Z.rem_bound_pos; lia).
  assert (H2 : T <= 0 -> -60 < Z.rem T 60 <= 0)
    by (intro; apply (Z.rem_bound_pos_neg T 60); lia).
  split; [|split].
  - destruct (Z.le_ge_cases 0 T) as [H|H];
      [specialize (H1 H)|specialize (H2 H)]; lia.
  - intro H. split; auto.
  - intro H. split; auto.
Qed.

(** Of a float that is not negative, [int] is the floor. *)
Lemma py_int_floor (x : Q) : (0 <= x)%Q -> py_int x = Qfloor x.
Proof.
  unfold py_int, Qle. destruct x as [n d]. cbn. rewrite Z.mul_1_r.
  intro H. apply Z.quot_div_nonneg; lia.
Qed.

Lemma string_of_uint_numeric (u : Decimal.uint) :
  all_numeric (NilEmpty.string_of_uint u) = true.
Proof. induction u; cbn; auto. Qed.

Lemma str_of_int_numeric (n : Z) : all_numeric (str_of_int n) = true.
Proof.
  unfold str_of_int, NilZero.string_of_int, NilZero.string_of_uint.
  destruct (Z.to_int n) as [u|u]; destruct u; cbn;
    auto using string_of_uint_numeric.
Qed.

Lemma str_of_int_inj (a b : Z) : str_of_int a = str_of_int b -> a = b.
Proof.
  unfold str_of_int. intro H.
  assert (Hnil : forall z, Z.to_int z <> Decimal.Pos Decimal.Nil /\
                           Z.to_int z <> Decimal.Neg Decimal.Nil).
  { intros [|p|p]; cbn; split; try discriminate;
      intro E; injection E; apply DecimalPos.Unsigned.to_uint_nonnil. }
  apply (f_equal NilZero.int_of_string) in H.
  rewrite !NilZero.isi in H by apply Hnil.
  injection H as H. apply (f_equal Z.of_int) in H.
  now rewrite !DecimalZ.of_to in H.
Qed.

(** Two texts that agree after a separator which occurs in neither
    head have the same head and the same tail. *)
Lemma split_at_separator (c : ascii) (s1 s2 t1 t2 : string) :
  numeric c = false ->
  all_numeric s1 = true -> all_numeric s2 = true ->
  (s1 ++ String c t1 = s2 ++ String c t2)%string ->
  s1 = s2 /\ t1 = t2.
Proof.
  intros Hc. revert s2.
  induction s1 as [|a s1 IH]; intros [|b s2] H1 H2 H; cbn in *.
  - injection H as ->. now split.
  - injection H as <- _. apply andb_prop in H2 as (H2 & _). congruence.
  - injection H as -> _. apply andb_prop in H1 as (H1 & _). congruence.
  - injection H as -> H.
    apply andb_prop in H1 as (_ & H1). apply andb_prop in H2 as (_ & H2).
    destruct (IH s2 H1 H2 H) as (-> & ->). now split.
Qed.

Lemma rendered_time_inj (m1 s1 m2 s2 : Z) :
  (str_of_int m1 ++ "m " ++ str_of_int s1 ++ "s")%string =
  (str_of_int m2 ++ "m " ++ str_of_int s2 ++ "s")%string ->
  m1 = m2 /\ s1 = s2.
Proof.
  intro H.
  apply (split_at_separator "m") in H as (Hm & H);
    try apply str_of_int_numeric; try reflexivity.
  injection H as H.
  apply (split_at_separator "s") in H as (Hs & _);
    try apply str_of_int_numeric; try reflexivity.
  split; now apply str_of_int_inj.
Qed.

(** X1: [measure_time] renders the whole seconds elapsed (the
    difference of the two clock readings, cut towards zero) as minutes
    and seconds: the minutes are the whole seconds divided by 60 and are
    not reduced to hours, the seconds are the remainder; for a clock
    that did not go backwards the whole seconds are the floor of the
    difference and the seconds are in 0..59, and for one that did both
    numbers are zero or negative. *)
Theorem measure_time_whole_seconds (start_time end_time : Q) :
  let whole := py_int (end_time - start_time) in
  measure_time start_time end_time =
    (str_of_int (whole ÷ 60) ++ "m " ++ str_of_int (Z.rem whole 60) ++ "s")%string /\
  60 * (whole ÷ 60) + Z.rem whole 60 = whole /\
  -60 < Z.rem whole 60 < 60 /\
  ((start_time <= end_time)%Q ->
   (inject_Z whole <= end_time - start_time < inject_Z whole + 1)%Q /\
   0 <= whole ÷ 60 /\ 0 <= Z.rem whole 60 < 60) /\
  ((end_time <= start_time)%Q -> whole ÷ 60 <= 0 /\ -60 < Z.rem whole 60 <= 0).
Proof.
  cbv zeta. split; [apply measure_time_closed|].
  destruct (py_int_sign (end_time - start_time)) as (Hpos & Hneg).
  destruct (rem60_bounds (py_int (end_time - start_time)))
    as (Hb & Hbpos & Hbneg).
  split; [|split; [|split]].
  - symmetry. apply Z.quot_rem'.
  - exact Hb.
  - intro H. assert (H0 : 0 <= py_int (end_time - start_time))
      by (apply Hpos; lra).
    split; [|exact (Hbpos H0)].
    rewrite py_int_floor by lra. split; [apply Qfloor_le|].
    rewrite <- (inject_Z_plus _ 1). apply Qlt_floor.
  - intro H. apply Hbneg. apply Hneg. lra.
Qed.

(** X2: the text [measure_time] returns determines the whole seconds
    elapsed and nothing more: two pairs of clock readings are rendered
    the same exactly when their whole seconds are equal. *)
Theorem measure_time_same_text (s1 e1 s2 e2 : Q) :
  measure_time s1 e1 = measure_time s2 e2 <->
  py_int (e1 - s1) = py_int (e2 - s2).
Proof.
  rewrite !measure_time_closed. cbv zeta. split.
  - intro H. apply rendered_time_inj in H as (Hm & Hs).
    rewrite (Z.quot_rem' (py_int (e1 - s1)) 60),
            (Z.quot_rem' (py_int (e2 - s2)) 60).
    now rewrite Hm, Hs.
  - now intros ->.
Qed.

(* ================================================================= *)
(** ** The record path of [src/train/trainer.py] *)

Lemma strip_prefix_length (p s r : string) :
  Standard.strip_prefix p s = Some r ->
  String.length s = (String.length p + String.length r)%nat.
Proof.
  revert s. induction p as [|a p IH]; intros s H; cbn in H.
  - now injection H as ->.
  - destruct s as [|b s]; [discriminate|].
    destruct (Ascii.eqb a b); [|discriminate].
    cbn. f_equal. now apply IH.
Qed.

Lemma append_length (a b : string) :
  String.length (a ++ b) = (String.length a + String.length b)%nat.
Proof. induction a as [|c a IH]; cbn; [reflexivity|now rewrite IH]. Qed.

(** Text in which [old] does not occur is left as it is. *)
Lemma replace_fuel_absent (fuel : nat) (old new s : string) :
  Standard.occurs old s = false -> Standard.replace_fuel fuel old new s = s.
Proof.
  revert s. induction fuel as [|fuel IH]; intros s H; [reflexivity|].
  cbn [Standard.replace_fuel].
  destruct s as [|c s]; cbn [Standard.occurs] in H;
    destruct (Standard.strip_prefix old _); try discriminate; [reflexivity|].
  f_equal. now apply IH.
Qed.

(** The fuel [replace] starts with is enough: any larger amount gives
    the same text. *)
Lemma replace_fuel_enough (old new : string) :
  old <> EmptyString ->
  forall f1 f2 s,
    (String.length s < f1)%nat -> (String.length s < f2)%nat ->
    Standard.replace_fuel f1 old new s = Standard.replace_fuel f2 old new s.
Proof.
  intros Hold f1.
  induction f1 as [|f1 IH]; intros f2 s H1 H2; [lia|].
  destruct f2 as [|f2]; [lia|].
  cbn [Standard.replace_fuel].
  destruct (Standard.strip_prefix old s) as [rest|] eqn:E.
  - f_equal. apply strip_prefix_length in E.
    destruct old as [|a old]; [congruence|]. cbn in E.
    apply IH; lia.
  - destruct s as [|c s]; [reflexivity|]. f_equal.
    cbn in H1, H2. apply IH; lia.
Qed.

Lemma replace_hit (old new s rest : string) :
  old <> EmptyString ->
  Standard.strip_prefix old s = Some rest ->
  Standard.replace old new s = (new ++ Standard.replace old new rest)%string.
Proof.
  intros Hold E. unfold Standard.replace at 1.
  cbn [Standard.replace_fuel]. rewrite E. f_equal.
  apply strip_prefix_length in E.
  destruct old as [|a old]; [congruence|]. cbn in E.
  apply replace_fuel_enough; [congruence|lia|lia].
Qed.

Lemma replace_miss (old new : string) (c : ascii) (s : string) :
  old <> EmptyString ->
  Standard.strip_prefix old (String c s) = None ->
  Standard.replace old new (String c s) = String c (Standard.replace old new s).
Proof.
  intros Hold E. unfold Standard.replace at 1.
  cbn [Standard.replace_fuel]. rewrite E. reflexivity.
Qed.

(** An occurrence of [".pt"] cannot begin inside a text that has none
    and end in a [".pt"] that follows it. *)
Lemma pt_no_straddle (c : ascii) (a b : string) :
  Standard.strip_prefix ".pt" (String c a) = None ->
  Standard.strip_prefix ".pt" (String c a ++ ".pt" ++ b) = None.
Proof.
  intro H. cbn [append Standard.strip_prefix] in *.
  destruct (Ascii.eqb "." c); [|reflexivity].
  destruct a as [|c2 a]; cbn [append Standard.strip_prefix] in *; [reflexivity|].
  destruct (Ascii.eqb "p" c2); [|reflexivity].
  destruct a as [|c3 a]; cbn [append Standard.strip_prefix] in *; [reflexivity|].
  destruct (Ascii.eqb "t" c3); [discriminate|reflexivity].
Qed.

Lemma replace_pt_app (a b : string) :
  Standard.occurs ".pt" a = false ->
  Standard.replace ".pt" ".json" (a ++ ".pt" ++ b) =
  (a ++ ".json" ++ Standard.replace ".pt" ".json" b)%string.
Proof.
  induction a as [|c a IH]; intro H.
  - change (Standard.replace ".pt" ".json" (".pt" ++ b) =
            (".json" ++ Standard.replace ".pt" ".json" b)%string).
    now apply replace_hit.
  - cbn [Standard.occurs] in H.
    destruct (Standard.strip_prefix ".pt" (String c a)) eqn:E; [discriminate|].
    change (String c a ++ ".pt" ++ b)%string
      with (String c (a ++ ".pt" ++ b))%string.
    rewrite replace_miss; [|discriminate|].
    + cbn [append]. f_equal. now apply IH.
    + now apply (pt_no_straddle c a b).
Qed.

Lemma replace_pt_length (s : string) :
  (String.length s + (if Standard.occurs ".pt" s then 2 else 0) <=
   String.length (Standard.replace ".pt" ".json" s))%nat.
Proof.
  remember (String.length s) as n eqn:Hn.
  revert s Hn. induction n as [n IH] using lt_wf_ind. intros s Hn. subst n.
  destruct (Standard.strip_prefix ".pt" s) as [rest|] eqn:E.
  - rewrite (replace_hit ".pt" ".json" s rest ltac:(discriminate) E),
      append_length.
    pose proof (strip_prefix_length _ _ _ E) as Hl. cbn in Hl.
    assert (Ho : Standard.occurs ".pt" s = true).
    { destruct s; cbn [Standard.occurs]; now rewrite E. }
    rewrite Ho.
    specialize (IH (String.length rest) ltac:(lia) rest eq_refl).
    cbn [String.length]. lia.
  - destruct s as [|c s].
    + cbn. lia.
    + rewrite replace_miss; [|discriminate|assumption].
      cbn [Standard.occurs]. rewrite E. cbn [String.length].
      specialize (IH (String.length s) ltac:(cbn; lia) s eq_refl). lia.
Qed.

Lemma replace_pt_fixed (s : string) :
  Standard.replace ".pt" ".json" s = s <-> Standard.occurs ".pt" s = false.
Proof.
  pose proof (replace_pt_length s) as Hl. split; intro H.
  - rewrite H in Hl. destruct (Standard.occurs ".pt" s); [lia|reflexivity].
  - unfold Standard.replace. now apply replace_fuel_absent.
Qed.

(** X3: the record path is the checkpoint path with every [".pt"]
    replaced by [".json"], left to right: the text before the first
    [".pt"] is kept, and what follows it is treated the same way.  So a
    checkpoint path [stem.pt] with no other [".pt"] gives [stem.json],
    and a [".pt"] in a directory name is replaced as well. *)
Theorem record_path_replaces_every_pt (config : Standard.Config)
    (a b : string) :
  Standard.occurs ".pt" a = false ->
  Standard.ckpt config = (a ++ ".pt" ++ b)%string ->
  Standard.record_path config =
    (a ++ ".json" ++ Standard.replace ".pt" ".json" b)%string /\
  (b = EmptyString ->
   Standard.record_path config = (a ++ ".json")%string) /\
  (Standard.occurs ".pt" b = false ->
   Standard.record_path config = (a ++ ".json" ++ b)%string).
Proof.
  intros Ha Hc. unfold Standard.record_path. rewrite Hc, replace_pt_app by assumption.
  split; [reflexivity|]. split.
  - now intros ->.
  - intro Hb. unfold Standard.replace. now rewrite replace_fuel_absent.
Qed.

(** X4: the record path is the checkpoint path itself exactly when
    [".pt"] occurs nowhere in the checkpoint path; otherwise it is a
    longer text. *)
Theorem record_path_is_ckpt_iff (config : Standard.Config) :
  (Standard.record_path config = Standard.ckpt config <->
   Standard.occurs ".pt" (Standard.ckpt config) = false) /\
  (Standard.occurs ".pt" (Standard.ckpt config) = true ->
   (String.length (Standard.ckpt config) + 2 <=
    String.length (Standard.record_path config))%nat).
Proof.
  unfold Standard.record_path. split; [apply replace_pt_fixed|].
  pose proof (replace_pt_length (Standard.ckpt config)) as Hl.
  intro H. now rewrite H in Hl.
Qed.

(** X3 at the checkpoint path [ckpt/model.pt]. *)
Lemma record_path_replaces_every_pt_witness :
  Standard.record_path (Scenario.standard_config 1 false 0) =
  "ckpt/model.json"%string.
Proof.
  exact (proj1 (proj2 (record_path_replaces_every_pt
                         (Scenario.standard_config 1 false 0)
                         "ckpt/model" "" eq_refl eq_refl)) eq_refl).
Defined.

(* ================================================================= *)
(** ** More on [TrainerBase.train] of [src/train/trainer.py] *)

Lemma py_range_last (lo hi : Z) :
  lo <= hi -> py_range lo (hi + 1) = py_range lo hi ++ [hi].
Proof.
  intro H.
  replace (hi + 1) with (lo + Z.of_nat (S (Z.to_nat (hi - lo)))) by lia.
  rewrite py_range_snoc. do 2 f_equal; lia.
Qed.

(** A run of consecutive epochs, taken apart at its first one. *)
Lemma py_range_cons_inv (lo e : Z) (es : list Z) :
  e :: es = py_range lo (lo + Z.of_nat (List.length (e :: es))) ->
  e = lo /\ es = py_range (lo + 1) (lo + 1 + Z.of_nat (List.length es)).
Proof.
  intro H. rewrite py_range_cons in H by (cbn [List.length]; lia).
  injection H as -> H. split; [reflexivity|].
  rewrite H at 1. f_equal. cbn [List.length]. lia.
Qed.

Lemma file_at_snoc (path : string) (log : list event) (ev : event) :
  file_at path (log ++ [ev]) =
  match written ev with
  | Some (p, f) => if String.eqb p path then Some f else file_at path log
  | None => file_at path log
  end.
Proof. unfold file_at. rewrite fold_left_app. reflexivity. Qed.

Lemma checkpoint_at_snoc (path : string) (log : list event) (ev : event) :
  checkpoint_at path (log ++ [ev]) =
  match ev with
  | EvTorchSave ck p =>
      if String.eqb p path then Some ck else checkpoint_at path log
  | _ => checkpoint_at path log
  end.
Proof.
  unfold checkpoint_at. rewrite saved_app, fold_left_app.
  destruct ev; reflexivity.
Qed.

(** Until a history is dumped, the only files written are checkpoints. *)
Lemma file_at_checkpoint (path : string) (log : list event) :
  dumped log = [] ->
  file_at path log = option_map CheckpointFile (checkpoint_at path log).
Proof.
  induction log as [|ev log IH] using rev_ind; intro H; [reflexivity|].
  rewrite dumped_app in H. apply app_eq_nil in H as (H1 & H2).
  rewrite file_at_snoc, checkpoint_at_snoc, (IH H1).
  destruct ev; try reflexivity; try discriminate.
  cbn [written]. now destruct (String.eqb path0 path).
Qed.

(** The checkpoint a path holds is one that was saved there. *)
Lemma checkpoint_at_in (path : string) (log : list event) (ck : checkpoint) :
  checkpoint_at path log = Some ck -> In (ck, path) (saved log).
Proof.
  induction log as [|ev log IH] using rev_ind; [discriminate|].
  rewrite checkpoint_at_snoc, saved_app. intro H. apply in_or_app.
  destruct ev; try (left; now apply IH).
  destruct (String.eqb_spec path0 path) as [->|_].
  - injection H as ->. right. now left.
  - left. now apply IH.
Qed.

Section StandardRuns.

Import Standard.

Variable config : Config.
Variable train_epoch valid_epoch : Z -> Q * Q.
Variable learning_rate : list Q -> Q.
Variable train_time : Z -> string.

Local Abbreviation body :=
  (epoch_body config train_epoch valid_epoch learning_rate train_time).
Local Abbreviation run :=
  (train config train_epoch valid_epoch learning_rate train_time).
Local Abbreviation val := (fun e => fst (valid_epoch e)).
Local Abbreviation the_ckpt epoch :=
  ({| ck_epoch := epoch; ck_model_state_dict := "model";
      ck_optimizer_state_dict := "optimizer" |}).

(** The record [train] appends in epoch [e] when the scheduler has been
    stepped with [metrics] so far. *)
Local Abbreviation record_of e metrics :=
  [("epoch", VInt e);
   ("train_loss", VFloat (fst (train_epoch e)));
   ("train_ppl", VFloat (snd (train_epoch e)));
   ("valid_loss", VFloat (fst (valid_epoch e)));
   ("valid_ppl", VFloat (snd (valid_epoch e)));
   ("learning_rate", VFloat (learning_rate metrics));
   ("train_time", VStr (train_time e))]%string.

Lemma epoch_body_record (l : locals) (e : Z) (log log' : list event) r :
  body l e log = Ok log' r ->
  records (fst r) = records l ++ [record_of e (scheduler_metrics log)].
Proof.
  unfold epoch_body, read_lr, record_vals.
  destruct (train_epoch e) as [tl tp], (valid_epoch e) as [vl vp].
  cbn. unfold save_best_model, early_stopping.
  destruct (fgt (best_loss l) vl);
    destruct (early_stop config);
    try destruct (fgt (prev_loss l) vl);
    try destruct (l_patience l - 1 =? 0);
    cbn; intro H; injection H as _ <-; reflexivity.
Qed.

(** The records a run appends, when the scheduler has been stepped with
    the validation losses of the epochs before it. *)
Lemma runs_records l log done b l' log' :
  Spec.runs body l log done b l' log' ->
  forall lo,
    done = py_range lo (lo + Z.of_nat (List.length done)) ->
    1 <= lo ->
    scheduler_metrics log = map val (py_range 1 lo) ->
    records l' =
    records l ++ map (fun e => record_of e (map val (py_range 1 e))) done.
Proof.
  induction 1 as [l log | l log e l1 log1 Hb
                 | l log e l1 log1 es b l2 log2 Hb Hr IH];
    intros lo Hdone Hlo Hm.
  - now rewrite app_nil_r.
  - apply py_range_cons_inv in Hdone as (-> & _).
    pose proof (epoch_body_record _ _ _ _ _ Hb) as Hrec. cbn [fst] in Hrec.
    now rewrite Hrec, Hm.
  - apply py_range_cons_inv in Hdone as (-> & Hes).
    pose proof (epoch_body_record _ _ _ _ _ Hb) as Hrec. cbn [fst] in Hrec.
    rewrite (IH (lo + 1) Hes ltac:(lia)).
    + rewrite Hrec, Hm, <- app_assoc. reflexivity.
    + destruct (epoch_body_spec config train_epoch valid_epoch learning_rate
                  train_time l lo log)
        as (log' & l' & brk & rd & H & _ & _ & _ & Hs & _).
      rewrite Hb in H. injection H as <- <- <-.
      rewrite Hs, Hm, py_range_last by lia. now rewrite map_app.
Qed.

(** X5: the History of a run, record by record: the record of epoch [e]
    holds [e], the two values of that epoch's training pass, the two of
    its validation pass, the learning rate as the scheduler set it from
    the validation losses of epochs 1 to [e - 1] (this epoch's own loss
    is handed to the scheduler only after the record is built), and the
    epoch's time; the dumped History is this list. *)
Theorem history_records :
  exists log l,
    run [] = Ok log l /\
    records l =
      map (fun e => record_of e (map val (py_range 1 e)))
        (py_range 1 (1 + Z.of_nat (List.length (records l)))) /\
    dumped log = [records l].
Proof.
  destruct (train_runs config train_epoch valid_epoch learning_rate train_time [])
    as (done & rest & b & log & l & He & Hrest & Hr & Ht).
  exists (log ++ [EvJsonDump (records l) (record_path config)]), l.
  split; [exact Ht|].
  pose proof (py_range_prefix _ _ _ _ He) as Hdone.
  pose proof (runs_history_length _ _ _ _ _ _ _ _ _ _ _ Hr) as Hlen.
  cbn [init_locals records List.length Nat.add] in Hlen.
  split.
  - rewrite (runs_records _ _ _ _ _ _ Hr 1 Hdone ltac:(lia) eq_refl).
    cbn [init_locals records app]. rewrite length_map. now rewrite <- Hdone.
  - rewrite dumped_app, (runs_dumped _ _ _ _ _ _ _ _ _ _ _ Hr). reflexivity.
Qed.

(** X6: with [n_epochs] zero or negative no epoch runs: nothing is
    printed, no checkpoint is written, the scheduler is not stepped, and
    the one effect of [train] is to dump an empty History to the record
    path. *)
Theorem train_without_epochs (log : list event) :
  n_epochs config <= 0 ->
  run log = Ok (log ++ [EvJsonDump [] (record_path config)])
               (init_locals config).
Proof.
  intro H. unfold train, epoch_loop.
  now rewrite py_range_nil by lia.
Qed.

(** With early stopping disabled a run leaves the countdown and the
    previous loss as they were. *)
Lemma runs_untouched l log done b l' log' :
  early_stop config = false ->
  Spec.runs body l log done b l' log' ->
  l_patience l' = l_patience l /\ prev_loss l' = prev_loss l.
Proof.
  intros Hes.
  induction 1 as [l log | l log e l1 log1 Hb
                 | l log e l1 log1 es b l2 log2 Hb Hr IH].
  - now split.
  - destruct (epoch_body_spec config train_epoch valid_epoch learning_rate
                train_time l e log)
      as (log' & l' & brk & rd & H & _ & _ & _ & _ & _ & _ & _ & Hs & _).
    rewrite Hb in H. injection H as <- <- <-.
    destruct (Hs Hes) as (Hf & _). discriminate.
  - destruct (epoch_body_spec config train_epoch valid_epoch learning_rate
                train_time l e log)
      as (log' & l' & brk & rd & H & _ & _ & _ & _ & _ & _ & _ & Hs & _).
    rewrite Hb in H. injection H as <- <- <-.
    destruct (Hs Hes) as (_ & Hp & Hv). destruct IH as (IH1 & IH2).
    split; congruence.
Qed.

(** X7: with early stopping disabled every configured epoch runs,
    whatever the losses: the History has [n_epochs] records for epochs
    1 to [n_epochs], the early-stop message is never printed, and the
    countdown and the previous loss are never touched. *)
Theorem every_epoch_runs_without_early_stop :
  early_stop config = false ->
  exists log l,
    run [] = Ok log l /\
    epoch_fields (records l) =
      map (fun e => Some (VInt e)) (py_range 1 (n_epochs config + 1)) /\
    List.length (records l) = Z.to_nat (n_epochs config) /\
    early_stopped log = false /\
    l_patience l = patience config /\
    prev_loss l = PosInf.
Proof.
  intro Hes.
  destruct (train_runs config train_epoch valid_epoch learning_rate train_time [])
    as (done & rest & b & log & l & He & Hrest & Hr & Ht).
  exists (log ++ [EvJsonDump (records l) (record_path config)]), l.
  split; [exact Ht|].
  pose proof (runs_no_early_stop _ _ _ _ _ _ _ _ _ _ _ Hes Hr) as ->.
  rewrite (Hrest eq_refl), app_nil_r in He.
  destruct (runs_history _ _ _ _ _ _ _ _ _ _ _ Hr) as (rds & Hrds & Hf).
  cbn [init_locals records app] in Hrds.
  destruct (runs_untouched _ _ _ _ _ _ Hes Hr) as (Hp & Hv).
  split; [now rewrite Hrds, Hf, He|]. split.
  { rewrite (runs_history_length _ _ _ _ _ _ _ _ _ _ _ Hr), <- He, py_range_length.
    cbn. f_equal. lia. }
  split.
  { rewrite early_stopped_app, (runs_early_stopped _ _ _ _ _ _ _ _ _ _ _ Hr).
    reflexivity. }
  split; assumption.
Qed.

(** The best-score invariant over the epochs [seen] so far. *)
#[warnings="-inconsistent-scopes"] Local Abbreviation best_of seen l log :=
  (match best_loss l with
   | PosInf => seen = nil /\ checkpoint_at (ckpt config) log = None
   | Fin q =>
       exists e, In e seen /\ q = val e /\
         checkpoint_at (ckpt config) log = Some (the_ckpt e) /\
         forall j, In j seen -> (val e <= val j)%Q
   end).

(** Under the invariant, the test of line 92 asks whether the loss is
    strictly below that of every epoch seen. *)
Lemma best_test seen l log (v : Z) :
  best_of seen l log ->
  fgt (best_loss l) (val v) = Spec.below_all val seen v.
Proof.
  unfold Spec.below_all. destruct (best_loss l) as [q|].
  - intros (e0 & Hin & -> & _ & Hlow). cbn [fgt].
    destruct (Qgtb (val e0) (val v)) eqn:E.
    + symmetry. apply forallb_forall. intros j Hj.
      apply Qgtb_lt. apply Qgtb_lt in E.
      eapply Qlt_le_trans; [exact E|]. now apply Hlow.
    + symmetry. apply not_true_is_false. intro Hall.
      rewrite forallb_forall in Hall. specialize (Hall e0 Hin). congruence.
  - intros (-> & _). reflexivity.
Qed.

Lemma runs_saved_epochs l log done b l' log' :
  Spec.runs body l log done b l' log' ->
  forall lo,
    done = py_range lo (lo + Z.of_nat (List.length done)) ->
    1 <= lo ->
    best_of (py_range 1 lo) l log ->
    saved log' =
    saved log ++
    map (fun e => (the_ckpt e, ckpt config))
      (filter (fun e => Spec.below_all val (py_range 1 e) e) done).
Proof.
  induction 1 as [l log | l log e l1 log1 Hb
                 | l log e l1 log1 es b l2 log2 Hb Hr IH];
    intros lo Hdone Hlo Hinv.
  - now rewrite app_nil_r.
  - apply py_range_cons_inv in Hdone as (-> & _).
    destruct (epoch_body_spec config train_epoch valid_epoch learning_rate
                train_time l lo log)
      as (log' & l' & brk & rd & H & _ & _ & _ & _ & _ & Hs & _).
    rewrite Hb in H. injection H as <- <- <-.
    rewrite Hs, (best_test _ _ _ lo Hinv). cbn [filter].
    now destruct (Spec.below_all _ _ _).
  - apply py_range_cons_inv in Hdone as (-> & Hes).
    destruct (epoch_body_spec config train_epoch valid_epoch learning_rate
                train_time l lo log)
      as (log' & l' & brk & rd & H & _ & _ & _ & _ & _ & Hs & _).
    rewrite Hb in H. injection H as <- <- <-.
    rewrite (IH (lo + 1) Hes ltac:(lia)).
    + rewrite Hs, (best_test _ _ _ lo Hinv), <- app_assoc. cbn [filter].
      now destruct (Spec.below_all _ _ _).
    + rewrite py_range_last by lia.
      exact (epoch_body_best config train_epoch valid_epoch learning_rate
               train_time _ _ _ _ _ _ _ Hinv Hb).
Qed.

(** X8: a checkpoint is written in exactly the epochs whose validation
    loss is strictly below that of every earlier epoch of the run, in
    that order and always to the configured checkpoint path, each
    holding its epoch number; in particular the first epoch always
    writes one, and an epoch that only equals the best so far writes
    none. *)
Theorem checkpoints_at_new_minima :
  exists log l,
    run [] = Ok log l /\
    saved log =
      map (fun e => (the_ckpt e, ckpt config))
        (filter (fun e => Spec.below_all val (py_range 1 e) e)
           (py_range 1 (1 + Z.of_nat (List.length (records l))))).
Proof.
  destruct (train_runs config train_epoch valid_epoch learning_rate train_time [])
    as (done & rest & b & log & l & He & Hrest & Hr & Ht).
  exists (log ++ [EvJsonDump (records l) (record_path config)]), l.
  split; [exact Ht|].
  pose proof (py_range_prefix _ _ _ _ He) as Hdone.
  pose proof (runs_history_length _ _ _ _ _ _ _ _ _ _ _ Hr) as Hlen.
  cbn [init_locals records List.length Nat.add] in Hlen.
  rewrite saved_app. cbn [saved flat_map app]. rewrite app_nil_r.
  rewrite (runs_saved_epochs _ _ _ _ _ _ Hr 1 Hdone ltac:(lia)
             (conj eq_refl eq_refl)).
  cbn [saved flat_map app]. now rewrite Hlen, <- Hdone.
Qed.

(** X9: what the two paths hold after a run.  The record path holds
    the History.  The checkpoint path holds the last checkpoint written
    when [".pt"] occurs in it; when it does not, the record path is the
    checkpoint path and the History is written over the checkpoint. *)
Theorem files_after_train :
  exists log l,
    run [] = Ok log l /\
    file_at (record_path config) log = Some (JsonFile (records l)) /\
    file_at (ckpt config) log =
      if occurs ".pt" (ckpt config)
      then option_map CheckpointFile (checkpoint_at (ckpt config) log)
      else Some (JsonFile (records l)).
Proof.
  destruct (train_runs config train_epoch valid_epoch learning_rate train_time [])
    as (done & rest & b & log & l & He & Hrest & Hr & Ht).
  exists (log ++ [EvJsonDump (records l) (record_path config)]), l.
  split; [exact Ht|].
  rewrite !file_at_snoc, checkpoint_at_snoc. cbn [written].
  rewrite String.eqb_refl. split; [reflexivity|].
  destruct (occurs ".pt" (ckpt config)) eqn:Ho.
  - destruct (String.eqb_spec (record_path config) (ckpt config)) as [E|E].
    + apply replace_pt_fixed in E. congruence.
    + apply file_at_checkpoint.
      now rewrite (runs_dumped _ _ _ _ _ _ _ _ _ _ _ Hr).
  - apply replace_pt_fixed in Ho. unfold record_path. rewrite Ho.
    now rewrite String.eqb_refl.
Qed.

(** After [e] epochs none of which halted the run: the previous loss is
    that of epoch [e]; the countdown is the patience less the number [s]
    of epochs, the last ones, that did not improve on their
    predecessor; and the epoch before those did improve. *)
#[warnings="-inconsistent-scopes"] Local Abbreviation streak_inv e l :=
  (prev_loss l = (if e =? 0 then PosInf else Fin (val e)) /\
   (1 <= patience config -> 1 <= l_patience l) /\
   exists s,
     l_patience l = patience config - s /\ 0 <= s /\
     (e = 0 -> s = 0) /\
     (1 <= e -> s < e /\ Spec.improves val (e - s) = true) /\
     forall i, e - s < i <= e -> Spec.improves val i = false).

Lemma prev_test e l :
  0 <= e ->
  prev_loss l = (if e =? 0 then PosInf else Fin (val e)) ->
  fgt (prev_loss l) (val (e + 1)) = Spec.improves val (e + 1).
Proof.
  intros He ->. unfold Spec.improves.
  destruct (Z.eqb_spec e 0) as [->|Hne]; [reflexivity|].
  destruct (Z.eqb_spec (e + 1) 1) as [E|_]; [lia|].
  cbn [fgt orb]. now rewrite Z.add_simpl_r.
Qed.

(** One epoch under early stopping, from a state that satisfies the
    invariant for [e] epochs. *)
Lemma streak_step e l log log' l' brk :
  early_stop config = true ->
  0 <= e ->
  streak_inv e l ->
  body l (e + 1) log = Ok log' (l', brk) ->
  (brk = false -> streak_inv (e + 1) l') /\
  (brk = true ->
   patience config <= e /\
   Spec.improves val (e + 1 - patience config) = true /\
   forall i, e + 1 - patience config < i <= e + 1 ->
             Spec.improves val i = false).
Proof.
  intros Hes He (Hprev & Hpos & s & Hc & Hs0 & Hzero & Hone & Hwin) Hb.
  destruct (epoch_body_spec config train_epoch valid_epoch learning_rate
              train_time l (e + 1) log)
    as (log1 & l1 & brk1 & rd & H & _ & _ & _ & _ & _ & _ & _ & _ & Hstep).
  rewrite Hb in H. injection H as <- <- <-. specialize (Hstep Hes).
  rewrite (prev_test e l He Hprev) in Hstep.
  destruct (Spec.improves val (e + 1)) eqn:Himp.
  - destruct Hstep as (-> & Hp & Hv). split; [intros _ | discriminate].
    split. { rewrite Hv. destruct (Z.eqb_spec (e + 1) 0); [lia|reflexivity]. }
    split; [lia|].
    exists 0.
    split; [lia|]. split; [lia|]. split; [lia|]. split.
    + intros _. split; [lia|]. now rewrite Z.sub_0_r.
    + intros i Hi. lia.
  - destruct Hstep as (Hp & Hbrk & Hv).
    assert (He1 : 1 <= e).
    { destruct (Z.eq_dec e 0) as [->|]; [|lia].
      unfold Spec.improves in Himp. cbn in Himp. discriminate. }
    destruct (Hone He1) as (Hse & Himp0).
    assert (Hwin' : forall i, e + 1 - (s + 1) < i <= e + 1 ->
                              Spec.improves val i = false).
    { intros i Hi. destruct (Z.eq_dec i (e + 1)) as [->|]; [exact Himp|].
      apply Hwin. lia. }
    split; intro Hbf; rewrite Hbrk in Hbf.
    + apply Z.eqb_neq in Hbf.
      split. { rewrite Hv by (rewrite Hbrk; now apply Z.eqb_neq).
               destruct (Z.eqb_spec (e + 1) 0); [lia|reflexivity]. }
      split; [intro H1; specialize (Hpos H1); lia|].
      exists (s + 1). repeat split; try lia.
      * now replace (e + 1 - (s + 1)) with (e - s) by lia.
      * exact Hwin'.
    + apply Z.eqb_eq in Hbf.
      assert (Hps : patience config = s + 1) by lia.
      rewrite Hps. split; [lia|]. split.
      * now replace (e + 1 - (s + 1)) with (e - s) by lia.
      * exact Hwin'.
Qed.

Lemma streak_no_window e l :
  1 <= patience config -> 1 <= e ->
  streak_inv e l ->
  exists i, e - patience config < i <= e /\ 1 <= i /\
            Spec.improves val i = true.
Proof.
  intros Hp He (_ & Hpos & s & Hc & Hs0 & _ & Hone & _).
  destruct (Hone He) as (Hse & Himp). specialize (Hpos Hp).
  exists (e - s). repeat split; try lia. exact Himp.
Qed.

Lemma runs_streak l log done b l' log' :
  early_stop config = true ->
  1 <= patience config ->
  Spec.runs body l log done b l' log' ->
  forall lo,
    done = py_range (lo + 1) (lo + 1 + Z.of_nat (List.length done)) ->
    0 <= lo ->
    streak_inv lo l ->
    let k := lo + Z.of_nat (List.length done) in
    (forall e, lo < e <= k -> e < k \/ b = false ->
       exists i, e - patience config < i <= e /\ 1 <= i /\
                 Spec.improves val i = true) /\
    (b = true ->
     patience config < k /\
     Spec.improves val (k - patience config) = true /\
     forall i, k - patience config < i <= k -> Spec.improves val i = false).
Proof.
  intros Hes Hp.
  induction 1 as [l log | l log e l1 log1 Hb
                 | l log e l1 log1 es b l2 log2 Hb Hr IH];
    intros lo Hdone Hlo Hinv; cbv zeta.
  - cbn [List.length]. split; [intros e He; lia|discriminate].
  - apply py_range_cons_inv in Hdone as (-> & _).
    destruct (streak_step lo l log log1 l1 true Hes Hlo Hinv Hb) as (_ & Hbrk).
    cbn [List.length]. replace (lo + Z.of_nat 1) with (lo + 1) by lia.
    split; [intros e He [Hlt|Hf]; [lia|discriminate]|].
    intros _. destruct (Hbrk eq_refl) as (H1 & H2 & H3).
    split; [lia|]. now split.
  - apply py_range_cons_inv in Hdone as (-> & Hes').
    destruct (streak_step lo l log log1 l1 false Hes Hlo Hinv Hb) as (Hnext & _).
    specialize (Hnext eq_refl).
    destruct (IH (lo + 1) Hes' ltac:(lia) Hnext) as (IH1 & IH2).
    replace (lo + Z.of_nat (List.length (lo + 1 :: es)))
      with (lo + 1 + Z.of_nat (List.length es))
      by (cbn [List.length]; lia).
    split; [|exact IH2].
    intros e He Hor. destruct (Z.eq_dec e (lo + 1)) as [->|Hne].
    + apply (streak_no_window (lo + 1) l1 Hp ltac:(lia) Hnext).
    + apply IH1; [lia|exact Hor].
Qed.

(** X10: for finite validation losses (every loss here is a rational
    number; a loss of [inf] or [nan] is not covered), with early
    stopping enabled and a patience [p] of at least 1, the run halts at
    the first epoch that ends [p] epochs in a row none of which improved
    on the epoch before it (the comparison is with the previous epoch's
    loss, not with the best one; the first epoch, compared with the
    initial [float('inf')], counts as an improvement because its loss
    is finite).  If the run halts after [k] epochs then [k > p], epochs
    [k-p+1 .. k] did not improve and epoch [k-p] did; no epoch before
    the last one run, and none at all in a run that did not halt, ends
    such a row; and a run that did not halt ran every configured
    epoch. *)
Theorem early_stop_first_window :
  early_stop config = true ->
  1 <= patience config ->
  exists log l,
    run [] = Ok log l /\
    let k := Z.of_nat (List.length (records l)) in
    let p := patience config in
    (forall e, 1 <= e <= k -> e < k \/ early_stopped log = false ->
       exists i, e - p < i <= e /\ 1 <= i /\ Spec.improves val i = true) /\
    (early_stopped log = true ->
     p < k /\ Spec.improves val (k - p) = true /\
     forall i, k - p < i <= k -> Spec.improves val i = false) /\
    (early_stopped log = false -> k = Z.max 0 (n_epochs config)).
Proof.
  intros Hes Hp.
  destruct (train_runs config train_epoch valid_epoch learning_rate train_time [])
    as (done & rest & b & log & l & He & Hrest & Hr & Ht).
  exists (log ++ [EvJsonDump (records l) (record_path config)]), l.
  split; [exact Ht|]. cbv zeta.
  pose proof (py_range_prefix _ _ _ _ He) as Hdone.
  pose proof (runs_history_length _ _ _ _ _ _ _ _ _ _ _ Hr) as Hlen.
  cbn [init_locals records List.length Nat.add] in Hlen.
  assert (Hstop : early_stopped
                    (log ++ [EvJsonDump (records l) (record_path config)]) = b).
  { rewrite early_stopped_app, (runs_early_stopped _ _ _ _ _ _ _ _ _ _ _ Hr).
    cbn. now rewrite orb_false_r. }
  assert (Hinit : streak_inv 0 (init_locals config)).
  { split; [reflexivity|]. split; [cbn; lia|].
    exists 0. cbn. repeat split; try lia. }
  destruct (runs_streak _ _ _ _ _ _ Hes Hp Hr 0 Hdone ltac:(lia) Hinit)
    as (H1 & H2).
  rewrite Hstop, Hlen. cbn [Z.add] in H1, H2.
  split; [intros e He' Hor; apply H1; [lia|exact Hor]|].
  split; [exact H2|].
  intros ->. rewrite (Hrest eq_refl), app_nil_r in He.
  rewrite <- He, py_range_length. lia.
Qed.

(** After the History is written, a checkpoint path in which [".pt"]
    occurs still holds the last checkpoint saved there. *)
Lemma file_at_after_dump (log : list event) (rs : list dict) :
  dumped log = [] ->
  occurs ".pt" (ckpt config) = true ->
  file_at (ckpt config) (log ++ [EvJsonDump rs (record_path config)]) =
  option_map CheckpointFile (checkpoint_at (ckpt config) log).
Proof.
  intros Hd Ho. rewrite file_at_snoc. cbn [written].
  destruct (String.eqb_spec (record_path config) (ckpt config)) as [E|E].
  - apply replace_pt_fixed in E. congruence.
  - now apply file_at_checkpoint.
Qed.

(** X22: early stopping and checkpointing together, for finite
    validation losses (every loss here is a rational number; a loss of
    [inf] or [nan] is not covered) and a checkpoint path in which
    [".pt"] occurs (otherwise the History is written over the
    checkpoint).  An epoch that does not improve on its predecessor
    cannot set a new best, so when a run with patience [p >= 1] halts
    after [k] epochs, the file at the checkpoint path, after the
    History has been written too, holds the checkpoint of an epoch no
    later than [k - p], the last one before the row of epochs that did
    not improve, and that epoch's validation loss is the lowest of the
    whole run. *)
Theorem halting_keeps_earlier_checkpoint :
  early_stop config = true ->
  1 <= patience config ->
  occurs ".pt" (ckpt config) = true ->
  exists log l,
    run [] = Ok log l /\
    let k := Z.of_nat (List.length (records l)) in
    (early_stopped log = true ->
     exists e,
       1 <= e <= k - patience config /\
       file_at (ckpt config) log = Some (CheckpointFile (the_ckpt e)) /\
       forall j, 1 <= j <= k -> (val e <= val j)%Q).
Proof.
  intros Hes Hp Hocc.
  destruct (train_runs config train_epoch valid_epoch learning_rate train_time [])
    as (done & rest & b & log & l & He & Hrest & Hr & Ht).
  exists (log ++ [EvJsonDump (records l) (record_path config)]), l.
  split; [exact Ht|]. cbv zeta.
  pose proof (py_range_prefix _ _ _ _ He) as Hdone.
  pose proof (runs_history_length _ _ _ _ _ _ _ _ _ _ _ Hr) as Hlen.
  cbn [init_locals records List.length Nat.add] in Hlen.
  rewrite early_stopped_app, (runs_early_stopped _ _ _ _ _ _ _ _ _ _ _ Hr).
  cbn [early_stopped existsb orb]. rewrite orb_false_r.
  rewrite (file_at_after_dump log (records l)
             (runs_dumped _ _ _ _ _ _ _ _ _ _ _ Hr) Hocc), Hlen.
  intros ->.
  assert (Hinit : streak_inv 0 (init_locals config)).
  { split; [reflexivity|]. split; [cbn; lia|].
    exists 0. cbn. repeat split; try lia. }
  destruct (runs_streak _ _ _ _ _ _ Hes Hp Hr 0 Hdone ltac:(lia) Hinit)
    as (_ & H2).
  cbn [Z.add] in H2. destruct (H2 eq_refl) as (Hpk & _ & Hwin).
  pose proof (runs_best config train_epoch valid_epoch learning_rate train_time
                _ _ _ _ _ _ Hr [] (conj eq_refl eq_refl)) as Hbest.
  cbn [app] in Hbest.
  destruct (best_loss l) as [q|].
  - destruct Hbest as (e0 & Hin & _ & Hck & Hlow).
    rewrite Hdone in Hin. apply in_py_range in Hin.
    exists e0. split; [|split; [now rewrite Hck|]].
    + split; [lia|].
      destruct (Z_le_gt_dec e0 (Z.of_nat (List.length done) - patience config))
        as [Hle|Hgt]; [exact Hle|exfalso].
      specialize (Hwin e0 ltac:(lia)).
      apply checkpoint_at_in in Hck.
      rewrite (runs_saved_epochs _ _ _ _ _ _ Hr 1 Hdone ltac:(lia)
                 (conj eq_refl eq_refl)) in Hck.
      cbn [saved flat_map app] in Hck.
      apply in_map_iff in Hck as (e1 & Heq & Hf).
      injection Heq as ->. apply filter_In in Hf as (_ & Hf).
      unfold Spec.improves in Hwin. apply orb_false_elim in Hwin as (Hne & Hq).
      apply Z.eqb_neq in Hne.
      unfold Spec.below_all in Hf. rewrite forallb_forall in Hf.
      specialize (Hf (e0 - 1)). rewrite Hf in Hq; [discriminate|].
      apply in_py_range. lia.
    + intros j Hj. apply Hlow. rewrite Hdone. apply in_py_range. lia.
  - destruct Hbest as (-> & _). cbn in Hpk. lia.
Qed.

(** X11: with early stopping enabled and a patience of zero or less
    the run never halts early: the countdown starts at or below zero and
    a decrement never brings it to zero, so every configured epoch runs
    and the early-stop message is never printed. *)
Theorem nonpositive_patience_never_halts :
  early_stop config = true ->
  patience config <= 0 ->
  exists log l,
    run [] = Ok log l /\
    List.length (records l) = Z.to_nat (n_epochs config) /\
    early_stopped log = false /\
    l_patience l <= 0.
Proof.
  intros Hes Hp.
  destruct (train_runs config train_epoch valid_epoch learning_rate train_time [])
    as (done & rest & b & log & l & He & Hrest & Hr & Ht).
  exists (log ++ [EvJsonDump (records l) (record_path config)]), l.
  split; [exact Ht|].
  assert (Hinit : l_patience (init_locals config) <= 0) by (cbn; lia).
  destruct (runs_nonpositive _ _ _ _ _ _ _ _ _ _ _ Hes Hp Hr Hinit) as (-> & Hle).
  rewrite (Hrest eq_refl), app_nil_r in He.
  split.
  { rewrite (runs_history_length _ _ _ _ _ _ _ _ _ _ _ Hr), <- He, py_range_length.
    cbn. f_equal. lia. }
  split; [|exact Hle].
  rewrite early_stopped_app, (runs_early_stopped _ _ _ _ _ _ _ _ _ _ _ Hr).
  reflexivity.
Qed.

(** X12: the scheduler is stepped exactly once in every epoch that
    runs, the halting one included, in epoch order, each time with that
    epoch's validation loss and with nothing else. *)
Theorem scheduler_stepped_every_epoch :
  exists log l,
    run [] = Ok log l /\
    scheduler_metrics log =
      map val (py_range 1 (1 + Z.of_nat (List.length (records l)))) /\
    List.length (scheduler_metrics log) = List.length (records l).
Proof.
  destruct (train_runs config train_epoch valid_epoch learning_rate train_time [])
    as (done & rest & b & log & l & He & Hrest & Hr & Ht).
  exists (log ++ [EvJsonDump (records l) (record_path config)]), l.
  split; [exact Ht|].
  pose proof (py_range_prefix _ _ _ _ He) as Hdone.
  pose proof (runs_history_length _ _ _ _ _ _ _ _ _ _ _ Hr) as Hlen.
  cbn [init_locals records List.length Nat.add] in Hlen.
  rewrite scheduler_metrics_app, (runs_scheduler _ _ _ _ _ _ _ _ _ _ _ Hr).
  cbn [scheduler_metrics flat_map app]. rewrite app_nil_r, Hlen.
  split; [now rewrite <- Hdone|]. now rewrite length_map.
Qed.

End StandardRuns.

(** X6 at a configuration of zero epochs. *)
Lemma train_without_epochs_witness :
  Standard.n_epochs (Scenario.standard_config 0 true 2) <= 0 /\
  Scenario.standard_run 0 true 2 [] =
  Ok [EvJsonDump [] "ckpt/model.json"]
     (Standard.init_locals (Scenario.standard_config 0 true 2)).
Proof.
  assert (H : Standard.n_epochs (Scenario.standard_config 0 true 2) <= 0)
    by (cbn; lia).
  split; [exact H|].
  exact (train_without_epochs (Scenario.standard_config 0 true 2)
           (Scenario.losses []) (Scenario.losses [])
           Scenario.constant_lr Scenario.no_time [] H).
Defined.

(** X7 at three epochs of rising loss. *)
Lemma every_epoch_runs_without_early_stop_witness :
  Standard.early_stop (Scenario.standard_config 3 false 1) = false /\
  exists log l,
    Scenario.standard_run 3 false 1 [1; 2; 3]%Q = Ok log l /\
    List.length (Standard.records l) = 3%nat /\
    early_stopped log = false.
Proof.
  split; [reflexivity|].
  destruct (every_epoch_runs_without_early_stop
              (Scenario.standard_config 3 false 1)
              (Scenario.losses []) (Scenario.losses [1; 2; 3]%Q)
              Scenario.constant_lr Scenario.no_time eq_refl)
    as (log & l & Ht & _ & Hlen & Hstop & _).
  exists log, l. split; [exact Ht|]. split; [exact Hlen|exact Hstop].
Defined.

(** X10 at patience 2 and the losses 3, 2, 2, 4, 1: epochs 3 and 4 do
    not improve on their predecessors, so the run halts after epoch 4
    and never sees the loss of epoch 5. *)
Lemma early_stop_first_window_witness :
  Standard.early_stop (Scenario.standard_config 5 true 2) = true /\
  1 <= Standard.patience (Scenario.standard_config 5 true 2) /\
  exists log l,
    Scenario.standard_run 5 true 2 [3; 2; 2; 4; 1]%Q = Ok log l /\
    (early_stopped log = true ->
     2 < Z.of_nat (List.length (Standard.records l))) /\
    early_stopped log = true /\
    List.length (Standard.records l) = 4%nat.
Proof.
  assert (Hp : 1 <= Standard.patience (Scenario.standard_config 5 true 2))
    by (cbn; lia).
  split; [reflexivity|]. split; [exact Hp|].
  destruct (early_stop_first_window
              (Scenario.standard_config 5 true 2)
              (Scenario.losses []) (Scenario.losses [3; 2; 2; 4; 1]%Q)
              Scenario.constant_lr Scenario.no_time eq_refl Hp)
    as (log & l & Ht & _ & H2 & _).
  exists log, l. split; [exact Ht|].
  split; [intro Hs; exact (proj1 (H2 Hs))|].
  unfold Scenario.standard_run in Ht. vm_compute in Ht.
  injection Ht as <- <-. split; reflexivity.
Defined.

(** X11 at a patience of -1 and three epochs of constant loss. *)
Lemma nonpositive_patience_never_halts_witness :
  Standard.early_stop (Scenario.standard_config 3 true (-1)) = true /\
  Standard.patience (Scenario.standard_config 3 true (-1)) <= 0 /\
  exists log l,
    Scenario.standard_run 3 true (-1) [1; 1; 1]%Q = Ok log l /\
    List.length (Standard.records l) = 3%nat /\
    early_stopped log = false.
Proof.
  assert (Hp : Standard.patience (Scenario.standard_config 3 true (-1)) <= 0)
    by (cbn; lia).
  split; [reflexivity|]. split; [exact Hp|].
  destruct (nonpositive_patience_never_halts
              (Scenario.standard_config 3 true (-1))
              (Scenario.losses []) (Scenario.losses [1; 1; 1]%Q)
              Scenario.constant_lr Scenario.no_time eq_refl Hp)
    as (log & l & Ht & Hlen & Hstop & _).
  exists log, l. split; [exact Ht|]. split; [exact Hlen|exact Hstop].
Defined.

(** X22 at patience 2 and the losses 3, 2, 2, 4, 1, with the
    checkpoint path [ckpt/model.pt]: the run halts after epoch 4 and
    the file at that path holds the checkpoint of epoch 2. *)
Lemma halting_keeps_earlier_checkpoint_witness :
  Standard.early_stop (Scenario.standard_config 5 true 2) = true /\
  1 <= Standard.patience (Scenario.standard_config 5 true 2) /\
  Standard.occurs ".pt"
    (Standard.ckpt (Scenario.standard_config 5 true 2)) = true /\
  exists log l,
    Scenario.standard_run 5 true 2 [3; 2; 2; 4; 1]%Q = Ok log l /\
    (early_stopped log = true ->
     exists e, 1 <= e <= Z.of_nat (List.length (Standard.records l)) - 2 /\
       file_at "ckpt/model.pt" log =
       Some (CheckpointFile
               {| ck_epoch := e; ck_model_state_dict := "model";
                  ck_optimizer_state_dict := "optimizer" |})) /\
    early_stopped log = true /\
    file_at "ckpt/model.pt" log =
      Some (CheckpointFile
              {| ck_epoch := 2; ck_model_state_dict := "model";
                 ck_optimizer_state_dict := "optimizer" |}).
Proof.
  assert (Hp : 1 <= Standard.patience (Scenario.standard_config 5 true 2))
    by (cbn; lia).
  split; [reflexivity|]. split; [exact Hp|]. split; [reflexivity|].
  destruct (halting_keeps_earlier_checkpoint
              (Scenario.standard_config 5 true 2)
              (Scenario.losses []) (Scenario.losses [3; 2; 2; 4; 1]%Q)
              Scenario.constant_lr Scenario.no_time eq_refl Hp eq_refl)
    as (log & l & Ht & H).
  exists log, l. split; [exact Ht|]. split.
  - intro Hs. destruct (H Hs) as (e & He & Hck & _).
    exists e. split; [exact He|exact Hck].
  - unfold Scenario.standard_run in Ht. vm_compute in Ht.
    injection Ht as <- <-. split; reflexivity.
Defined.

(* ================================================================= *)
(** ** More on the [Trainer] front end of [src/train/trainer.py] *)

(** X13: constructing the front-end [Trainer] never succeeds and has no
    effect: it raises [AssertionError] when the train type is
    'alternate' or 'generative' and no tokenizer is given, and in every
    other case it raises [TypeError] on line 129, which hands
    [_get_trainer_instance] one argument more than it takes.  No
    constructor of a strategy class is reached, so this holds whatever
    those constructors do. *)
Theorem Trainer_init_never_returns
    (construct : Standard.instance -> M unit) (config : Standard.Config)
    (tokenizer : option string) (log : list event) :
  Standard.Trainer_init construct config tokenizer log =
  Raise log
    (if Standard.str_in (Standard.train_type config)
          ["alternate"; "generative"]%string &&
        match tokenizer with Some _ => false | None => true end
     then AssertionError
     else TypeError "_get_trainer_instance").
Proof.
  unfold Standard.Trainer_init, Standard.py_assert.
  destruct (Standard.str_in _ _), tokenizer; reflexivity.
Qed.

(* ================================================================= *)
(** ** More on the generator/discriminator trainer of
       [src/module/train.py] *)

(** X15: [Trainer.__init__] never completes, whatever the library
    constructors it calls do: if none of them raises first, the first
    optimizer cannot be built because [lr] on line 78 is an unbound
    name, and the error is [NameError]. *)
Theorem adversarial_init_never_returns
    (GradScaler BCELoss : M unit) (parameters : string -> M unit)
    (AdamW : Q -> M unit) (ReduceLROnPlateau : M unit) (log : list event) :
  (exists log' e,
     Adversarial.Trainer_init GradScaler BCELoss parameters AdamW
       ReduceLROnPlateau log = Raise log' e) /\
  (forall log1 log2 log3,
     GradScaler log = Ok log1 tt ->
     BCELoss log1 = Ok log2 tt ->
     parameters "generator"%string log2 = Ok log3 tt ->
     Adversarial.Trainer_init GradScaler BCELoss parameters AdamW
       ReduceLROnPlateau log = Raise log3 (NameError "lr")).
Proof.
  unfold Adversarial.Trainer_init, bind. split.
  - destruct (GradScaler log) as [log1 []|log1 e];
      [|do 2 eexists; reflexivity].
    destruct (BCELoss log1) as [log2 []|log2 e];
      [|do 2 eexists; reflexivity].
    destruct (parameters "generator"%string log2) as [log3 []|log3 e];
      do 2 eexists; reflexivity.
  - intros log1 log2 log3 -> -> ->. reflexivity.
Qed.

(** [round(x, 3)] is within half a thousandth of [x]. *)
Lemma round_half_even_close (x : Q) :
  (x - (1 # 2) <= inject_Z (Adversarial.round_half_even x) <= x + (1 # 2))%Q.
Proof.
  unfold Adversarial.round_half_even.
  pose proof (Qfloor_le x) as Hlo. pose proof (Qlt_floor x) as Hhi.
  rewrite inject_Z_plus in Hhi.
  change (inject_Z 1) with 1%Q in Hhi.
  destruct (Qcompare_spec (x - inject_Z (Qfloor x)) (1 # 2)) as [E|E|E].
  - destruct (Z.even (Qfloor x));
      rewrite ?inject_Z_plus; change (inject_Z 1) with 1%Q; lra.
  - lra.
  - rewrite inject_Z_plus. change (inject_Z 1) with 1%Q. lra.
Qed.

Lemma py_round3_close (q : Q) :
  (q - (1 # 2000) <= Adversarial.py_round3 q <= q + (1 # 2000))%Q.
Proof.
  unfold Adversarial.py_round3.
  pose proof (round_half_even_close (q * inject_Z 1000)) as H.
  change (inject_Z 1000) with 1000%Q in *.
  set (z := inject_Z _) in *.
  assert (E : (z / 1000 == z * (1 # 1000))%Q) by reflexivity.
  rewrite E. lra.
Qed.

(** The test of line 163, [(idx + 1) % w == 0], for a window [w] of
    either sign: Python's remainder takes the sign of the divisor, and
    is zero exactly at the multiples of [w]. *)
Lemma mod_below_abs (w x : Z) : 0 < x < Z.abs w -> x mod w <> 0.
Proof.
  intros Hx Hm. apply Z.mod_divide in Hm; [|lia].
  apply Z.divide_abs_l in Hm. apply Z.divide_pos_le in Hm; lia.
Qed.

Lemma mod_abs_self (w : Z) : Z.abs w mod w = 0.
Proof.
  destruct (Z.eq_dec w 0) as [->|H]; [reflexivity|].
  apply Z.mod_divide; [exact H|].
  apply Z.divide_abs_r, Z.divide_refl.
Qed.

Section PureLosses.

Import Adversarial.

Variable config : Config.

(** The losses of a batch as a function of its three tensors, the
    generator's value being a tensor of one element. *)
Variable gen_of dis_of : tensor2 -> tensor2 -> tensor2 -> Q.

Local Abbreviation losses_of :=
  (fun i a l => ret ([gen_of i a l], dis_of i a l) : M (list Q * Q)).
Local Abbreviation gen t := (gen_of (fst (fst t)) (snd (fst t)) (snd t)).
Local Abbreviation dis t := (dis_of (fst (fst t)) (snd (fst t)) (snd t)).
Local Abbreviation w := (iters_to_accumulate config).

(** Every batch of [dl] has the three fields [split_batch] reads, and
    [ts] lists them. *)
Local Abbreviation well_formed dl ts :=
  (Forall2 (fun b t => forall log : list event,
                         split_batch config b log = Ok log t) dl ts).

Local Abbreviation backwards n :=
  (List.concat (repeat [EvBackward "gen_loss"; EvBackward "dis_loss"] n)).

Lemma valid_batches_sums bs ts : forall sums log,
  well_formed bs ts ->
  exists d,
    valid_batches config losses_of sums bs log =
    Ok log (fold_left Qplus (map (fun t => gen t) ts) (fst sums), d).
Proof.
  intros sums log H. revert sums log.
  induction H as [|b t bs ts Hb _ IH]; intros sums log.
  - exists (snd sums). now destruct sums.
  - cbn [valid_batches]. unfold bind at 1, valid_batch, bind at 1.
    rewrite Hb. destruct t as [[i a] l]. cbn.
    destruct (IH (fst sums + gen_of i a l, snd sums + dis_of i a l)%Q log)
      as (d & ->).
    now exists d.
Qed.

(** X17: over a dataloader of at least one batch, for losses that are a
    function of the batch with a one-element generator value,
    [valid_epoch] switches both models to evaluation mode and returns,
    twice, the mean of the generator's losses rounded to three decimals,
    which is within 0.0005 of the mean; the discriminator's losses do
    not enter the result. *)
Theorem valid_epoch_rounded_mean (dl : list batch)
    (ts : list (tensor2 * tensor2 * tensor2)) (log : list event) :
  well_formed dl ts ->
  dl <> [] ->
  let mean := (Spec.total (map (fun t => gen t) ts) /
               inject_Z (Z.of_nat (List.length dl)))%Q in
  valid_epoch_with config dl losses_of log =
    Ok (log ++ [EvSetTrainMode false; EvSetTrainMode false])
       (py_round3 mean, py_round3 mean) /\
  (mean - (1 # 2000) <= py_round3 mean <= mean + (1 # 2000))%Q.
Proof.
  intros Hwf Hne. cbv zeta. split; [|apply py_round3_close].
  unfold valid_epoch_with, bind at 1. cbn [emit].
  unfold bind at 1. cbn [emit]. unfold bind at 1.
  destruct (valid_batches_sums dl ts (0, 0)%Q
              ((log ++ [EvSetTrainMode false]) ++ [EvSetTrainMode false]) Hwf)
    as (d & ->).
  destruct dl as [|b dl]; [congruence|].
  cbn [List.length div_len]. cbn [bind ret fst]. unfold bind, ret.
  cbn [div_len]. rewrite <- app_assoc. reflexivity.
Qed.

(** X18: over an empty dataloader either pass raises
    [ZeroDivisionError] when it averages, after switching the models'
    mode and before returning anything, whatever the losses would have
    been. *)
Theorem passes_on_empty_dataloader
    (any_losses : tensor2 -> tensor2 -> tensor2 -> M (list Q * Q))
    (log : list event) :
  train_epoch_with config [] any_losses log =
    Raise (log ++ [EvSetTrainMode true; EvSetTrainMode true])
          ZeroDivisionError /\
  valid_epoch_with config [] any_losses log =
    Raise (log ++ [EvSetTrainMode false; EvSetTrainMode false])
          ZeroDivisionError.
Proof.
  unfold train_epoch_with, valid_epoch_with. cbn.
  now rewrite <- !app_assoc.
Qed.

Lemma train_epoch_with_eq (dl : list batch)
    (any_losses : tensor2 -> tensor2 -> tensor2 -> M (list Q * Q))
    (log : list event) :
  train_epoch_with config dl any_losses log =
  match train_batches config any_losses (0, 0)%Q 0 dl
          (log ++ [EvSetTrainMode true; EvSetTrainMode true]) with
  | Ok log1 (g, _) =>
      match dl with
      | [] => Raise log1 ZeroDivisionError
      | _ :: _ =>
          let r := py_round3 (g / inject_Z (Z.of_nat (List.length dl))) in
          Ok log1 (r, r)
      end
  | Raise log1 e => Raise log1 e
  end.
Proof.
  unfold train_epoch_with, bind. cbn [emit]. rewrite <- app_assoc.
  cbn [app].
  destruct (train_batches _ _ _ _ _ _) as [log1 [g d]|log1 e]; [|reflexivity].
  destruct dl; reflexivity.
Qed.

Lemma train_batch_inside sums idx b t (log : list event) :
  (forall log : list event, split_batch config b log = Ok log t) ->
  w <> 0 -> (idx + 1) mod w <> 0 ->
  train_batch config losses_of sums idx b log =
  Ok (log ++ backwards 1)
     (fst sums + gen t / inject_Z w, snd sums + dis t / inject_Z w)%Q.
Proof.
  intros Hb Hw Hm. unfold train_batch, bind at 1. rewrite Hb.
  destruct t as [[i a] l]. cbn [fst snd]. unfold py_mod.
  apply Z.eqb_neq in Hw, Hm. cbn. rewrite Hw. cbn. rewrite Hm. cbn.
  now rewrite <- app_assoc.
Qed.

Lemma train_batch_boundary sums idx b t (log : list event) :
  (forall log : list event, split_batch config b log = Ok log t) ->
  w <> 0 -> (idx + 1) mod w = 0 ->
  train_batch config losses_of sums idx b log =
  Raise (log ++ backwards 1) (AttributeError "optimizer").
Proof.
  intros Hb Hw Hm. unfold train_batch, bind at 1. rewrite Hb.
  destruct t as [[i a] l]. cbn [fst snd]. unfold py_mod.
  apply Z.eqb_neq in Hw. apply Z.eqb_eq in Hm.
  cbn. rewrite Hw. cbn. rewrite Hm. cbn.
  now rewrite <- app_assoc.
Qed.

Lemma train_batch_zero sums idx b t (log : list event) :
  (forall log : list event, split_batch config b log = Ok log t) ->
  w = 0 ->
  train_batch config losses_of sums idx b log =
  Raise (log ++ backwards 1) ZeroDivisionError.
Proof.
  intros Hb Hw. unfold train_batch, bind at 1. rewrite Hb.
  destruct t as [[i a] l]. cbn [fst snd]. unfold py_mod.
  cbn. rewrite Hw. cbn. now rewrite <- app_assoc.
Qed.

Lemma backwards_S (n : nat) (log : list event) :
  (log ++ backwards 1) ++ backwards n = log ++ backwards (S n).
Proof. cbn. rewrite <- app_assoc. reflexivity. Qed.

(** Batches that all come before the first window boundary. *)
Lemma train_batches_inside bs ts : forall sums idx log,
  well_formed bs ts ->
  0 <= idx -> idx + Z.of_nat (List.length bs) < Z.abs w ->
  exists d,
    train_batches config losses_of sums idx bs log =
    Ok (log ++ backwards (List.length bs))
       (fold_left Qplus (map (fun t => (gen t / inject_Z w)%Q) ts) (fst sums),
        d).
Proof.
  intros sums idx log H. revert sums idx log.
  induction H as [|b t bs ts Hb _ IH]; intros sums idx log Hidx Hlt.
  - exists (snd sums). cbn. rewrite app_nil_r. now destruct sums.
  - cbn [List.length] in Hlt. cbn [train_batches]. unfold bind at 1.
    rewrite (train_batch_inside sums idx b t log Hb) by
      (try apply mod_below_abs; lia).
    destruct (IH (fst sums + gen t / inject_Z w, snd sums + dis t / inject_Z w)%Q
                (idx + 1) (log ++ backwards 1) ltac:(lia) ltac:(lia))
      as (d & ->).
    exists d. now rewrite backwards_S.
Qed.

(** Batches that reach the first window boundary. *)
Lemma train_batches_boundary bs ts : forall sums idx log,
  well_formed bs ts ->
  0 <= idx < Z.abs w -> Z.abs w <= idx + Z.of_nat (List.length bs) ->
  train_batches config losses_of sums idx bs log =
  Raise (log ++ backwards (Z.to_nat (Z.abs w - idx)))
        (AttributeError "optimizer").
Proof.
  intros sums idx log H. revert sums idx log.
  induction H as [|b t bs ts Hb _ IH]; intros sums idx log Hidx Hge.
  - cbn [List.length] in Hge. lia.
  - cbn [List.length] in Hge. cbn [train_batches]. unfold bind at 1.
    destruct (Z.eq_dec (idx + 1) (Z.abs w)) as [E|E].
    + rewrite (train_batch_boundary sums idx b t log Hb) by
        (try (rewrite E; apply mod_abs_self); lia).
      replace (Z.to_nat (Z.abs w - idx)) with 1%nat by lia. reflexivity.
    + rewrite (train_batch_inside sums idx b t log Hb) by
        (try apply mod_below_abs; lia).
      rewrite IH by lia. rewrite backwards_S.
      replace (S (Z.to_nat (Z.abs w - (idx + 1))))
        with (Z.to_nat (Z.abs w - idx)) by lia.
      reflexivity.
Qed.

(** X19: over a dataloader of [N >= 1] batches, for losses that are a
    function of the batch with a one-element generator value,
    [train_epoch] completes exactly when the dataloader is shorter than
    the absolute value of the accumulation window [w], which may be
    negative ([(idx + 1) % w] is zero at the multiples of [w], whatever
    its sign): with [w <> 0] and [|w| <= N] it raises [AttributeError]
    for [self.optimizer] at batch index [|w| - 1], after [2|w|]
    backward calls and no optimizer step; with [w = 0] it raises
    [ZeroDivisionError] in the first batch; with [N < |w|] it returns,
    twice, the rounded mean of the generator's losses each divided by
    [w]. *)
Theorem train_epoch_by_window (dl : list batch)
    (ts : list (tensor2 * tensor2 * tensor2)) (log : list event) :
  well_formed dl ts ->
  dl <> [] ->
  let N := List.length dl in
  let modes := [EvSetTrainMode true; EvSetTrainMode true] in
  (w = 0 ->
   train_epoch_with config dl losses_of log =
     Raise (log ++ modes ++ backwards 1) ZeroDivisionError) /\
  (w <> 0 -> Z.abs w <= Z.of_nat N ->
   train_epoch_with config dl losses_of log =
     Raise (log ++ modes ++ backwards (Z.to_nat (Z.abs w)))
           (AttributeError "optimizer") /\
   optimizer_steps (log ++ modes ++ backwards (Z.to_nat (Z.abs w))) =
     optimizer_steps log) /\
  (Z.of_nat N < Z.abs w ->
   let mean := (Spec.total (map (fun t => (gen t / inject_Z w)%Q) ts) /
                inject_Z (Z.of_nat N))%Q in
   train_epoch_with config dl losses_of log =
     Ok (log ++ modes ++ backwards N) (py_round3 mean, py_round3 mean)) /\
  ((exists log' r, train_epoch_with config dl losses_of log = Ok log' r) <->
   Z.of_nat N < Z.abs w).
Proof.
  intros Hwf Hne. cbv zeta.
  assert (Hzero : w = 0 ->
            train_epoch_with config dl losses_of log =
            Raise (log ++ [EvSetTrainMode true; EvSetTrainMode true] ++
                   backwards 1) ZeroDivisionError).
  { intro Hw. rewrite train_epoch_with_eq.
    destruct Hwf as [|b t bs ts' Hb Hwf]; [congruence|].
    cbn [train_batches]. unfold bind.
    rewrite (train_batch_zero (0, 0)%Q 0 b t _ Hb Hw).
    now rewrite <- app_assoc. }
  assert (Hbound : w <> 0 -> Z.abs w <= Z.of_nat (List.length dl) ->
            train_epoch_with config dl losses_of log =
            Raise (log ++ [EvSetTrainMode true; EvSetTrainMode true] ++
                   backwards (Z.to_nat (Z.abs w)))
                  (AttributeError "optimizer")).
  { intros Hw Hle. rewrite train_epoch_with_eq.
    rewrite (train_batches_boundary dl ts (0, 0)%Q 0 _ Hwf) by lia.
    now rewrite <- app_assoc, Z.sub_0_r. }
  assert (Hin : Z.of_nat (List.length dl) < Z.abs w ->
            train_epoch_with config dl losses_of log =
            Ok (log ++ [EvSetTrainMode true; EvSetTrainMode true] ++
                backwards (List.length dl))
               (py_round3
                  (Spec.total (map (fun t => (gen t / inject_Z w)%Q) ts) /
                   inject_Z (Z.of_nat (List.length dl))),
                py_round3
                  (Spec.total (map (fun t => (gen t / inject_Z w)%Q) ts) /
                   inject_Z (Z.of_nat (List.length dl))))).
  { intro Hw. rewrite train_epoch_with_eq.
    destruct (train_batches_inside dl ts (0, 0)%Q 0
                (log ++ [EvSetTrainMode true; EvSetTrainMode true])
                Hwf ltac:(lia) ltac:(lia)) as (d & ->).
    destruct dl as [|b dl']; [congruence|].
    cbv zeta. now rewrite <- app_assoc. }
  split; [exact Hzero|]. split; [|split; [exact Hin|]].
  - intros Hw Hle. split; [now apply Hbound|].
    rewrite !optimizer_steps_app.
    assert (Hb : forall n, optimizer_steps (backwards n) = 0%nat).
    { intro n. induction n as [|n IHn]; [reflexivity|exact IHn]. }
    rewrite Hb. cbn. lia.
  - split.
    + intros (log' & r & H).
      destruct (Z_lt_le_dec (Z.of_nat (List.length dl)) (Z.abs w))
        as [Hlt|Hle]; [exact Hlt|exfalso].
      destruct (Z.eq_dec w 0) as [Hw|Hw].
      * rewrite (Hzero Hw) in H. discriminate.
      * rewrite (Hbound Hw Hle) in H. discriminate.
    + intro Hlt. rewrite (Hin Hlt). now do 2 eexists.
Qed.

End PureLosses.

(** X17 at one batch of four examples with generator loss 1. *)
Lemma valid_epoch_rounded_mean_witness :
  exists r,
    Adversarial.valid_epoch_with (Scenario.adversarial_config 1 1)
      [Scenario.batch4] (fun i a l => ret ([1%Q], 2%Q)) [] =
    Ok [EvSetTrainMode false; EvSetTrainMode false] (r, r) /\
    (r == 1)%Q.
Proof.
  assert (Hwf : Forall2
            (fun b t => forall log : list event,
               Adversarial.split_batch (Scenario.adversarial_config 1 1) b log =
               Ok log t)
            [Scenario.batch4]
            [(Scenario.ids4, Scenario.mask4, Scenario.labels4)]).
  { repeat constructor. }
  eexists. split.
  - exact (proj1 (valid_epoch_rounded_mean (Scenario.adversarial_config 1 1)
                    (fun _ _ _ => 1%Q) (fun _ _ _ => 2%Q)
                    [Scenario.batch4]
                    [(Scenario.ids4, Scenario.mask4, Scenario.labels4)] []
                    Hwf ltac:(discriminate))).
  - reflexivity.
Defined.

(** X19 at one batch: with a window of 1 the first batch is a window
    boundary; with a window of -2 there is none and the pass returns. *)
Lemma train_epoch_by_window_witness :
  Adversarial.train_epoch_with (Scenario.adversarial_config 1 1)
    [Scenario.batch4] (fun i a l => ret ([1%Q], 2%Q)) [] =
  Raise [EvSetTrainMode true; EvSetTrainMode true;
         EvBackward "gen_loss"; EvBackward "dis_loss"]
        (AttributeError "optimizer") /\
  exists r,
    Adversarial.train_epoch_with (Scenario.adversarial_config 1 (-2))
      [Scenario.batch4] (fun i a l => ret ([1%Q], 2%Q)) [] =
    Ok [EvSetTrainMode true; EvSetTrainMode true;
        EvBackward "gen_loss"; EvBackward "dis_loss"] (r, r) /\
    (r == - (1 # 2))%Q.
Proof.
  assert (Hwf : Forall2
            (fun b t => forall log : list event,
               Adversarial.split_batch (Scenario.adversarial_config 1 1) b log =
               Ok log t)
            [Scenario.batch4]
            [(Scenario.ids4, Scenario.mask4, Scenario.labels4)]).
  { repeat constructor. }
  split.
  - destruct (train_epoch_by_window (Scenario.adversarial_config 1 1)
                (fun _ _ _ => 1%Q) (fun _ _ _ => 2%Q)
                [Scenario.batch4]
                [(Scenario.ids4, Scenario.mask4, Scenario.labels4)] []
                Hwf ltac:(discriminate)) as (_ & H & _).
    apply H; cbn; lia.
  - assert (Hwf' : Forall2
              (fun b t => forall log : list event,
                 Adversarial.split_batch (Scenario.adversarial_config 1 (-2))
                   b log = Ok log t)
              [Scenario.batch4]
              [(Scenario.ids4, Scenario.mask4, Scenario.labels4)]).
    { repeat constructor. }
    destruct (train_epoch_by_window (Scenario.adversarial_config 1 (-2))
                (fun _ _ _ => 1%Q) (fun _ _ _ => 2%Q)
                [Scenario.batch4]
                [(Scenario.ids4, Scenario.mask4, Scenario.labels4)] []
                Hwf' ltac:(discriminate)) as (_ & _ & H & _).
    eexists. split; [apply H; cbn; lia | reflexivity].
Defined.

Section AdversarialLoop.

Import Adversarial.

Variable config : Config.
Variable gen_lr : list Q -> Q.
Variable dis_lr : Q.
Variable train_time : Z -> string.

(** X20: [Trainer.train] completes exactly when [n_epochs] is zero or
    negative, and then its one effect is to dump an empty History to
    [ckpt/<task>_<model_name>.json]: with at least one epoch the first
    iteration raises, with the passes as written or with any others. *)
Theorem adversarial_train_returns_iff
    (train_pass valid_pass : M (Q * Q)) (log : list event) :
  ((exists log' l,
      train_with config gen_lr dis_lr train_time train_pass valid_pass log =
      Ok log' l) <->
   n_epochs config <= 0) /\
  (n_epochs config <= 0 ->
   train_with config gen_lr dis_lr train_time train_pass valid_pass log =
   Ok (log ++ [EvJsonDump []
                 ("ckpt/" ++ task config ++ "_" ++ model_name config ++ ".json")])
      init_locals) /\
  (forall generate generator_loss discriminator criterion randperm
          train_dataloader valid_dataloader,
     (exists log' l,
        train config generate generator_loss discriminator criterion randperm
          train_dataloader valid_dataloader gen_lr dis_lr train_time log =
        Ok log' l) <->
     n_epochs config <= 0).
Proof.
  assert (Hzero : forall tp vp,
            n_epochs config <= 0 ->
            train_with config gen_lr dis_lr train_time tp vp log =
            Ok (log ++ [EvJsonDump [] (record_path config)]) init_locals).
  { intros tp vp H. unfold train_with. now rewrite py_range_nil by lia. }
  assert (Hiff : forall tp vp,
            (exists log' l,
               train_with config gen_lr dis_lr train_time tp vp log =
               Ok log' l) <-> n_epochs config <= 0).
  { intros tp vp. split.
    - intros (log' & l & H).
      destruct (Z_le_gt_dec (n_epochs config) 0) as [Hle|Hgt]; [exact Hle|].
      exfalso. unfold train_with in H.
      rewrite py_range_cons in H by lia. cbn [for_break] in H.
      unfold bind at 1 2 in H.
      destruct (epoch_body_raises config gen_lr dis_lr train_time tp vp
                  init_locals 1 log) as (log1 & e & He).
      rewrite He in H. discriminate.
    - intro H. rewrite (Hzero tp vp H). now do 2 eexists. }
  split; [apply Hiff|]. split; [apply Hzero|].
  intros. apply Hiff.
Qed.

End AdversarialLoop.

(** X21: [split_batch] returns the three tensors stored under
    [<src>_ids], [<src>_mask] and [<trg>_ids], and has no effect; when
    one of them is missing it raises [KeyError] for the first missing
    one in that order; and when source and target are the same language
    the labels it returns are the input ids. *)
Theorem split_batch_fields (config : Adversarial.Config)
    (b : Adversarial.batch) (log : list event) :
  let ids := (Adversarial.src config ++ "_ids")%string in
  let mask := (Adversarial.src config ++ "_mask")%string in
  let trg_ids := (Adversarial.trg config ++ "_ids")%string in
  (forall i a l,
     Adversarial.split_batch config b log = Ok log (i, a, l) <->
     Adversarial.batch_lookup b ids = Some i /\
     Adversarial.batch_lookup b mask = Some a /\
     Adversarial.batch_lookup b trg_ids = Some l) /\
  ((exists e, Adversarial.split_batch config b log = Raise log e) <->
   Adversarial.batch_lookup b ids = None \/
   Adversarial.batch_lookup b mask = None \/
   Adversarial.batch_lookup b trg_ids = None) /\
  (Adversarial.batch_lookup b ids = None ->
   Adversarial.split_batch config b log = Raise log (KeyError ids)) /\
  (Adversarial.batch_lookup b ids <> None ->
   Adversarial.batch_lookup b mask = None ->
   Adversarial.split_batch config b log = Raise log (KeyError mask)) /\
  (Adversarial.batch_lookup b ids <> None ->
   Adversarial.batch_lookup b mask <> None ->
   Adversarial.batch_lookup b trg_ids = None ->
   Adversarial.split_batch config b log = Raise log (KeyError trg_ids)) /\
  (Adversarial.src config = Adversarial.trg config ->
   forall i a l,
     Adversarial.split_batch config b log = Ok log (i, a, l) -> l = i).
Proof.
  cbv zeta. unfold Adversarial.split_batch, Adversarial.batch_get, bind.
  split; [|split; [|split; [|split; [|split]]]].
  - intros i a l.
    destruct (Adversarial.batch_lookup b _) as [i'|];
      [destruct (Adversarial.batch_lookup b _) as [a'|];
       [destruct (Adversarial.batch_lookup b _) as [l'|]|]|];
      cbn; split; try discriminate; try (intros (H1 & H2 & H3); discriminate).
    + intro H. injection H as -> -> ->. now repeat split.
    + intros (H1 & H2 & H3). unfold ret. congruence.
  - destruct (Adversarial.batch_lookup b _) as [i'|];
      [destruct (Adversarial.batch_lookup b _) as [a'|];
       [destruct (Adversarial.batch_lookup b _) as [l'|]|]|];
      cbn; split;
      try (intros (e & H); discriminate);
      try (intros [H|[H|H]]; discriminate);
      try (intros _; eexists; reflexivity); tauto.
  - intros ->. reflexivity.
  - intros H1 ->. destruct (Adversarial.batch_lookup b _); [reflexivity|congruence].
  - intros H1 H2 ->.
    destruct (Adversarial.batch_lookup b _); [|congruence].
    destruct (Adversarial.batch_lookup b _); [reflexivity|congruence].
  - intros Hst i a l. rewrite <- Hst.
    destruct (Adversarial.batch_lookup b (Adversarial.src config ++ "_ids"))
      as [i'|]; [|discriminate].
    destruct (Adversarial.batch_lookup b _) as [a'|]; [|discriminate].
    cbn. intro H. now injection H as -> _ ->.
Qed.

(* ================================================================= *)
(** ** What steers [TrainerBase.train] *)

(** Two loops whose bodies keep a relation between their states, and
    break out together, end in related states. *)
Lemma for_break_related {L1 L2 : Type}
    (body1 : L1 -> Z -> M (L1 * bool)) (body2 : L2 -> Z -> M (L2 * bool))
    (R Q : L1 -> list event -> L2 -> list event -> Prop) :
  (forall l1 log1 l2 log2, R l1 log1 l2 log2 -> Q l1 log1 l2 log2) ->
  (forall l1 log1 l2 log2 e,
     R l1 log1 l2 log2 ->
     exists l1' log1' l2' log2' brk,
       body1 l1 e log1 = Ok log1' (l1', brk) /\
       body2 l2 e log2 = Ok log2' (l2', brk) /\
       Q l1' log1' l2' log2' /\
       (brk = false -> R l1' log1' l2' log2')) ->
  forall es l1 log1 l2 log2,
    R l1 log1 l2 log2 ->
    exists l1' log1' l2' log2',
      for_break body1 es l1 log1 = Ok log1' l1' /\
      for_break body2 es l2 log2 = Ok log2' l2' /\
      Q l1' log1' l2' log2'.
Proof.
  intros HRQ Hstep es.
  induction es as [|e es IH]; intros l1 log1 l2 log2 HR.
  - exists l1, log1, l2, log2. repeat split. now apply HRQ.
  - destruct (Hstep l1 log1 l2 log2 e HR)
      as (l1' & log1' & l2' & log2' & brk & H1 & H2 & HQ & HR').
    cbn [for_break]. unfold bind. rewrite H1, H2. cbn [fst snd].
    destruct brk.
    + exists l1', log1', l2', log2'. now repeat split.
    + apply IH. now apply HR'.
Qed.

Section ValidationLossOnly.

Import Standard.

Variable config : Config.
Variable train_epoch1 valid_epoch1 train_epoch2 valid_epoch2 : Z -> Q * Q.
Variable learning_rate1 learning_rate2 : list Q -> Q.
Variable train_time1 train_time2 : Z -> string.

Local Abbreviation body1 :=
  (epoch_body config train_epoch1 valid_epoch1 learning_rate1 train_time1).
Local Abbreviation body2 :=
  (epoch_body config train_epoch2 valid_epoch2 learning_rate2 train_time2).

(** What two runs have in common when nothing but the validation loss
    steers them. *)
Local Abbreviation alike l1 log1 l2 log2 :=
  (best_loss l1 = best_loss l2 /\
   l_patience l1 = l_patience l2 /\
   epoch_fields (records l1) = epoch_fields (records l2) /\
   scheduler_metrics log1 = scheduler_metrics log2 /\
   saved log1 = saved log2 /\
   early_stopped log1 = early_stopped log2).

Lemma epoch_body_alike l1 log1 l2 log2 e :
  (forall e, fst (valid_epoch1 e) = fst (valid_epoch2 e)) ->
  prev_loss l1 = prev_loss l2 /\ alike l1 log1 l2 log2 ->
  exists l1' log1' l2' log2' brk,
    body1 l1 e log1 = Ok log1' (l1', brk) /\
    body2 l2 e log2 = Ok log2' (l2', brk) /\
    alike l1' log1' l2' log2' /\
    (brk = false ->
     prev_loss l1' = prev_loss l2' /\ alike l1' log1' l2' log2').
Proof.
  intros Hval (Hprev & Hbest & Hpat & Hep & Hsm & Hsv & Hst).
  destruct (epoch_body_spec config train_epoch1 valid_epoch1 learning_rate1
              train_time1 l1 e log1)
    as (log1' & l1' & brk1 & rd1 & H1 & Hr1 & He1 & _ & Hs1 & Hb1 & Hv1 & Ht1
        & Hoff1 & Hon1).
  destruct (epoch_body_spec config train_epoch2 valid_epoch2 learning_rate2
              train_time2 l2 e log2)
    as (log2' & l2' & brk2 & rd2 & H2 & Hr2 & He2 & _ & Hs2 & Hb2 & Hv2 & Ht2
        & Hoff2 & Hon2).
  rewrite <- Hval, <- Hbest in Hb2, Hv2. rewrite <- Hval in Hs2.
  rewrite <- Hval, <- Hprev, <- Hpat in Hon2. rewrite <- Hpat, <- Hprev in Hoff2.
  assert (Hbrk : brk1 = brk2 /\ l_patience l1' = l_patience l2' /\
                 (brk1 = false -> prev_loss l1' = prev_loss l2')).
  { destruct (early_stop config).
    - specialize (Hon1 eq_refl). specialize (Hon2 eq_refl).
      destruct (fgt (prev_loss l1) (fst (valid_epoch1 e))).
      + destruct Hon1 as (-> & -> & ->), Hon2 as (-> & -> & ->). now repeat split.
      + destruct Hon1 as (-> & -> & Hp1), Hon2 as (-> & -> & Hp2).
        repeat split. intro Hf. now rewrite Hp1, Hp2.
    - destruct (Hoff1 eq_refl) as (-> & -> & ->).
      destruct (Hoff2 eq_refl) as (-> & -> & ->). now repeat split. }
  destruct Hbrk as (<- & Hpat' & Hprev').
  assert (Halike : alike l1' log1' l2' log2').
  { split; [congruence|]. split; [exact Hpat'|]. split.
    { rewrite Hr1, Hr2. unfold epoch_fields. rewrite !map_app.
      cbn [map]. unfold epoch_fields in Hep. now rewrite Hep, He1, He2. }
    split; [congruence|]. split; [congruence|]. congruence. }
  exists l1', log1', l2', log2', brk1.
  split; [exact H1|]. split; [exact H2|]. split; [exact Halike|].
  intro Hf. split; [now apply Hprev'|exact Halike].
Qed.

(** X23: only the validation loss steers [TrainerBase.train].  Two runs
    under the same configuration whose validation losses agree epoch by
    epoch run the same epochs, step the scheduler with the same values,
    write the same checkpoints, halt early alike and end with the same
    best score and countdown, whatever the training losses, the
    perplexities, the learning rates and the timings are: those are
    only recorded. *)
Theorem only_validation_loss_steers :
  (forall e, fst (valid_epoch1 e) = fst (valid_epoch2 e)) ->
  exists log1 l1 log2 l2,
    train config train_epoch1 valid_epoch1 learning_rate1 train_time1 [] =
      Ok log1 l1 /\
    train config train_epoch2 valid_epoch2 learning_rate2 train_time2 [] =
      Ok log2 l2 /\
    epoch_fields (records l1) = epoch_fields (records l2) /\
    scheduler_metrics log1 = scheduler_metrics log2 /\
    saved log1 = saved log2 /\
    early_stopped log1 = early_stopped log2 /\
    best_loss l1 = best_loss l2 /\
    l_patience l1 = l_patience l2.
Proof.
  intro Hval.
  destruct (for_break_related body1 body2
              (fun l1 log1 l2 log2 =>
                 prev_loss l1 = prev_loss l2 /\ alike l1 log1 l2 log2)
              (fun l1 log1 l2 log2 => alike l1 log1 l2 log2)
              ltac:(intros l1 log1 l2 log2 (_ & H); exact H)
              ltac:(intros l1 log1 l2 log2 e H;
                    exact (epoch_body_alike l1 log1 l2 log2 e Hval H))
              (py_range 1 (n_epochs config + 1))
              (init_locals config) [] (init_locals config) []
              ltac:(now repeat split))
    as (l1 & log1 & l2 & log2 & H1 & H2 & Hb & Hp & He & Hs & Hv & Ht).
  exists (log1 ++ [EvJsonDump (records l1) (record_path config)]), l1,
         (log2 ++ [EvJsonDump (records l2) (record_path config)]), l2.
  unfold train, epoch_loop, bind. rewrite H1, H2. cbn [emit].
  split; [reflexivity|]. split; [reflexivity|].
  rewrite !scheduler_metrics_app, !saved_app, !early_stopped_app.
  cbn. rewrite !app_nil_r, !orb_false_r. now repeat split.
Qed.

End ValidationLossOnly.

(** X23 at two runs of three epochs that share the validation losses
    1, 2, 3 and differ in their training losses. *)
Lemma only_validation_loss_steers_witness :
  (forall e, fst (Scenario.losses [1; 2; 3]%Q e) =
             fst (Scenario.losses [1; 2; 3]%Q e)) /\
  exists log1 l1 log2 l2,
    Standard.train (Scenario.standard_config 3 true 1)
      (Scenario.losses [5; 4; 3]%Q) (Scenario.losses [1; 2; 3]%Q)
      Scenario.constant_lr Scenario.no_time [] = Ok log1 l1 /\
    Standard.train (Scenario.standard_config 3 true 1)
      (Scenario.losses [9; 9; 9]%Q) (Scenario.losses [1; 2; 3]%Q)
      Scenario.constant_lr Scenario.no_time [] = Ok log2 l2 /\
    saved log1 = saved log2 /\
    early_stopped log1 = early_stopped log2.
Proof.
  split; [reflexivity|].
  destruct (only_validation_loss_steers (Scenario.standard_config 3 true 1)
              (Scenario.losses [5; 4; 3]%Q) (Scenario.losses [1; 2; 3]%Q)
              (Scenario.losses [9; 9; 9]%Q) (Scenario.losses [1; 2; 3]%Q)
              Scenario.constant_lr Scenario.constant_lr
              Scenario.no_time Scenario.no_time
              (fun e => eq_refl))
    as (log1 & l1 & log2 & l2 & H1 & H2 & _ & _ & Hs & Ht & _).
  exists log1, l1, log2, l2. now repeat split.
Defined.

(* ================================================================= *)
(** ** Best-score bookkeeping in both trainers *)

Section StandardBest.

Import Standard.

Variable config : Config.
Variable train_epoch valid_epoch : Z -> Q * Q.
Variable learning_rate : list Q -> Q.
Variable train_time : Z -> string.

Local Abbreviation val := (fun e => fst (valid_epoch e)).
Local Abbreviation the_ckpt epoch :=
  ({| ck_epoch := epoch; ck_model_state_dict := "model";
      ck_optimizer_state_dict := "optimizer" |}).

(** The single-model trainer, for finite validation losses: the
    checkpoints written are those of the epochs whose loss is strictly
    below every earlier one; the best score at the end is the lowest
    loss of the run; and the file at a checkpoint path in which [".pt"]
    occurs holds, after the History has been written too, the
    checkpoint of the first epoch with that loss. *)
Lemma standard_best_file :
  exists log l,
    train config train_epoch valid_epoch learning_rate train_time [] =
      Ok log l /\
    let k := Z.of_nat (List.length (records l)) in
    saved log =
      map (fun e => (the_ckpt e, ckpt config))
        (filter (fun e => Spec.below_all val (py_range 1 e) e)
           (py_range 1 (1 + k))) /\
    match best_loss l with
    | PosInf => k = 0 /\ saved log = []
    | Fin q =>
        exists e,
          1 <= e <= k /\ q = val e /\
          (forall j, 1 <= j <= k -> (val e <= val j)%Q) /\
          (forall j, 1 <= j < e -> (val e < val j)%Q) /\
          (occurs ".pt" (ckpt config) = true ->
           file_at (ckpt config) log = Some (CheckpointFile (the_ckpt e)))
    end.
Proof.
  destruct (train_runs config train_epoch valid_epoch learning_rate train_time [])
    as (done & rest & b & log & l & He & Hrest & Hr & Ht).
  exists (log ++ [EvJsonDump (records l) (record_path config)]), l.
  split; [exact Ht|]. cbv zeta.
  pose proof (py_range_prefix _ _ _ _ He) as Hdone.
  pose proof (runs_history_length _ _ _ _ _ _ _ _ _ _ _ Hr) as Hlen.
  cbn [init_locals records List.length Nat.add] in Hlen.
  pose proof (runs_saved_epochs _ _ _ _ _ _ _ _ _ _ _ Hr 1 Hdone ltac:(lia)
                (conj eq_refl eq_refl)) as Hsaved.
  cbn [saved flat_map app] in Hsaved.
  assert (Hsv : saved (log ++ [EvJsonDump (records l) (record_path config)]) =
                map (fun e => (the_ckpt e, ckpt config))
                  (filter (fun e => Spec.below_all val (py_range 1 e) e)
                     (py_range 1 (1 + Z.of_nat (List.length (records l)))))).
  { rewrite saved_app. cbn [saved flat_map app]. rewrite app_nil_r.
    now rewrite Hsaved, Hlen, <- Hdone. }
  split; [exact Hsv|].
  pose proof (runs_best config train_epoch valid_epoch learning_rate train_time
                _ _ _ _ _ _ Hr [] (conj eq_refl eq_refl)) as Hbest.
  cbn [app] in Hbest. rewrite Hlen.
  destruct (best_loss l) as [q|].
  - destruct Hbest as (e0 & Hin & Hq & Hck & Hlow).
    pose proof Hin as Hin'. rewrite Hdone in Hin'. apply in_py_range in Hin'.
    exists e0. split; [lia|]. split; [exact Hq|]. split; [|split].
    + intros j Hj. apply Hlow. rewrite Hdone. apply in_py_range. lia.
    + intros j Hj. apply checkpoint_at_in in Hck. rewrite Hsaved in Hck.
      apply in_map_iff in Hck as (e1 & Heq & Hf).
      injection Heq as ->. apply filter_In in Hf as (_ & Hf).
      unfold Spec.below_all in Hf. rewrite forallb_forall in Hf.
      apply Qgtb_lt, Hf, in_py_range. lia.
    + intro Hocc.
      rewrite (file_at_after_dump config log (records l)
                 (runs_dumped _ _ _ _ _ _ _ _ _ _ _ Hr) Hocc).
      now rewrite Hck.
  - destruct Hbest as (Hnil & _). rewrite Hnil in *. cbn [List.length] in *.
    split; [reflexivity|]. rewrite Hsv, Hlen. reflexivity.
Qed.

End StandardBest.

Section AdversarialBest.

Import Adversarial.

Variable config : Config.
Variable gen_lr : list Q -> Q.
Variable dis_lr : Q.
Variable train_time : Z -> string.

(** [train] of the generator/discriminator trainer returns only when
    no epoch is configured, and then with the locals it started from. *)
Lemma train_with_returns (train_pass valid_pass : M (Q * Q))
    (log log' : list event) (l : locals) :
  train_with config gen_lr dis_lr train_time train_pass valid_pass log =
    Ok log' l ->
  n_epochs config <= 0 /\ l = init_locals.
Proof.
  intro H.
  destruct (Z_le_gt_dec (n_epochs config) 0) as [Hle|Hgt].
  - split; [exact Hle|]. unfold train_with in H.
    rewrite py_range_nil in H by lia. cbn in H. now injection H as _ <-.
  - exfalso. unfold train_with in H.
    rewrite py_range_cons in H by lia. cbn [for_break] in H.
    unfold bind at 1 2 in H.
    destruct (epoch_body_raises config gen_lr dis_lr train_time
                train_pass valid_pass init_locals 1 log) as (log1 & e & He).
    rewrite He in H. discriminate.
Qed.

End AdversarialBest.

(** C2, what the code does.  In the generator/discriminator trainer no
    best score is ever overwritten and no checkpoint is ever written:
    every iteration of the epoch loop raises before lines 105-113 are
    reached ([print_epoch] reads a key the record does not have, and
    line 102 reads an unbound name), so [train], with the passes as
    written or with any passes that save nothing themselves, adds no
    [torch.save] to the log, and whenever it returns both best scores
    are still [float('inf')].  With one epoch and passes that return 1.0
    the run ends in [KeyError] with nothing saved; as written it ends in
    the first batch with [TypeError].  In the single-model trainer, for
    finite validation losses, the bookkeeping is as claimed: a
    checkpoint is written exactly in the epochs whose loss is strictly
    below every earlier one, always to the configured path; the best
    score at the end is the lowest loss of the run; and the file at a
    checkpoint path in which [".pt"] occurs holds the checkpoint of the
    first epoch with that loss. *)
Theorem best_score_bookkeeping
    (aconfig : Adversarial.Config) (gen_lr : list Q -> Q) (dis_lr : Q)
    (a_train_time : Z -> string)
    (sconfig : Standard.Config) (train_epoch valid_epoch : Z -> Q * Q)
    (learning_rate : list Q -> Q) (train_time : Z -> string) :
  (forall generate generator_loss discriminator criterion randperm
          train_dataloader valid_dataloader log,
     saved (log_of (Adversarial.train aconfig generate generator_loss
                      discriminator criterion randperm
                      train_dataloader valid_dataloader
                      gen_lr dis_lr a_train_time log)) = saved log) /\
  (forall train_pass valid_pass log,
     Spec.silent is_torch_save train_pass ->
     Spec.silent is_torch_save valid_pass ->
     saved (log_of (Adversarial.train_with aconfig gen_lr dis_lr a_train_time
                      train_pass valid_pass log)) = saved log) /\
  (forall train_pass valid_pass log log' l,
     Adversarial.train_with aconfig gen_lr dis_lr a_train_time
       train_pass valid_pass log = Ok log' l ->
     Adversarial.n_epochs aconfig <= 0 /\
     Adversarial.gen_best_loss l = PosInf /\
     Adversarial.dis_best_loss l = PosInf) /\
  Adversarial.train_with (Scenario.adversarial_config 1 1)
    Scenario.constant_lr 1%Q Scenario.no_time
    (ret (1, 1)%Q) (ret (1, 1)%Q) [] =
    Raise [EvPrint [VInt 1; VInt 1; VStr "0m 0s"]] (KeyError "train_loss") /\
  Adversarial.train (Scenario.adversarial_config 1 1)
    Scenario.generate Scenario.generator_loss Scenario.discriminator
    Scenario.criterion Scenario.randperm [Scenario.batch4] [Scenario.batch4]
    Scenario.constant_lr 1%Q Scenario.no_time [] =
    Raise [EvSetTrainMode true; EvSetTrainMode true]
          (TypeError "get_losses") /\
  (exists log l,
     Standard.train sconfig train_epoch valid_epoch learning_rate train_time []
       = Ok log l /\
     let k := Z.of_nat (List.length (Standard.records l)) in
     let val := fun e => fst (valid_epoch e) in
     let the_ckpt := fun e =>
       {| ck_epoch := e; ck_model_state_dict := "model";
          ck_optimizer_state_dict := "optimizer" |} in
     saved log =
       map (fun e => (the_ckpt e, Standard.ckpt sconfig))
         (filter (fun e => Spec.below_all val (py_range 1 e) e)
            (py_range 1 (1 + k))) /\
     match Standard.best_loss l with
     | PosInf => k = 0 /\ saved log = []
     | Fin q =>
         exists e,
           1 <= e <= k /\ q = val e /\
           (forall j, 1 <= j <= k -> (val e <= val j)%Q) /\
           (forall j, 1 <= j < e -> (val e < val j)%Q) /\
           (Standard.occurs ".pt" (Standard.ckpt sconfig) = true ->
            file_at (Standard.ckpt sconfig) log =
              Some (CheckpointFile (the_ckpt e)))
     end).
Proof.
  split; [|split; [|split; [|split; [|split]]]].
  - intros. apply silent_saved.
    apply silent_train; intros; reflexivity.
  - intros tp vp log Ht Hv. apply silent_saved.
    apply silent_train_with; try assumption; intros; reflexivity.
  - intros tp vp log log' l H.
    apply train_with_returns in H as (Hn & ->). now repeat split.
  - reflexivity.
  - reflexivity.
  - apply standard_best_file.
Qed.
